(** * ship-toolkit: launch readiness scoring and the resumable workflow

    A shallow embedding of
      - [launch/validator.ts]  (the Section Aggregator and the Readiness
                                Evaluator),
      - [orchestrator.ts]      (the Workflow Step Runner),
      - [workflow.ts]          (the Workflow State Store),
    followed by the properties of the specification that concern them.

    Conventions of the embedding.
      - A JavaScript exception is a value [Throw e]; [e] is the text that
        [String(error)] yields for the thrown object.
      - An [async] function that only reads the project is a function of a
        file-system snapshot [FS] into [Exc]; one that also reads the clock
        or changes the project runs in the monad [M], which threads the
        file system and the number of clock readings made so far.
      - [await] is sequencing: the program is single-threaded and every
        promise is awaited where it is created.
      - Calls to [logger] only print; they are left out.
      - Counts and scores are integers ([Z], [nat] for lengths); a quotient
        is an exact rational ([Q]).  The quotients that occur have
        numerators below [2^53] and small denominators, so the double
        computed by JavaScript rounds to the same integer. *)

From Stdlib Require Import ZArith QArith Qround Lqa Lia List String Ascii Bool.
From Stdlib Require Import DecimalString.
Import ListNotations.

Local Open Scope string_scope.
Local Open Scope list_scope.
Local Open Scope Z_scope.

(* ===================================================================== *)
(** * The JavaScript runtime, as far as the program uses it *)
(* ===================================================================== *)

Module JS.

(** The outcome of a call: a value, or a thrown error. *)
Inductive Exc (A : Type) : Type :=
| Ok (a : A)
| Throw (e : string).
Arguments Ok {A} a.
Arguments Throw {A} e.

Class Monad (m : Type -> Type) : Type := {
  ret : forall {A}, A -> m A;
  bind : forall {A B}, m A -> (A -> m B) -> m B
}.

#[export] Instance Monad_Exc : Monad Exc := {
  ret := fun A a => Ok a;
  bind := fun A B c k => match c with Ok a => k a | Throw e => Throw e end
}.

(** [Array.prototype.push]. *)
Definition push {A} (l : list A) (x : A) : list A := l ++ [x].

(** [Math.round]: the nearest integer, a tie going up. *)
Definition Math_round (q : Q) : Z := Qfloor (q + (1 # 2)).

(** A number that may be [NaN] (the quotient [0 / 0]). *)
Inductive number : Type :=
| Num (z : Z)
| NaN.

(** [x >= k]; a comparison with [NaN] is false. *)
Definition number_geb (x : number) (k : Z) : bool :=
  match x with Num z => k <=? z | NaN => false end.

(** [`${n}`] for an integer. *)
Definition show_Z (z : Z) : string := NilZero.string_of_int (Z.to_int z).
Definition show_nat (n : nat) : string := show_Z (Z.of_nat n).

(** [String.prototype.includes]. *)
Fixpoint includes (s pat : string) : bool :=
  String.prefix pat s
  || match s with
     | EmptyString => false
     | String _ s' => includes s' pat
     end.

(** [path.join(a, b)] for a root [a] and a relative path [b] that needs
    no normalisation. *)
Definition path_join (a b : string) : string :=
  String.append a (String.append "/" b).

End JS.
Import JS.

Declare Scope monad_scope.
Notation "x <- c ;; k" := (bind c (fun x => k))
  (at level 61, c at next level, right associativity) : monad_scope.
Notation "c ;;; k" := (bind c (fun _ => k))
  (at level 61, right associativity) : monad_scope.
Local Open Scope monad_scope.

(* ===================================================================== *)
(** * The project on disk *)
(* ===================================================================== *)

Inductive Framework : Type :=
| next_app | next_pages | react_vite | react_cra | vue | svelte | astro
| static_html | unknown.

Definition Framework_eqb (a b : Framework) : bool :=
  match a, b with
  | next_app, next_app | next_pages, next_pages | react_vite, react_vite
  | react_cra, react_cra | vue, vue | svelte, svelte | astro, astro
  | static_html, static_html | unknown, unknown => true
  | _, _ => false
  end.

(** What the program can observe of the file system.
    [existsSync] never throws.  [readFile] and [glob] are promises that may
    reject.  [detectFramework] wraps its whole body in [try]/[catch] and
    always resolves; only the [framework] field of its result is read.
    [access] tells whether [fs.access] resolves, [write_error] whether
    [fs.writeFile] on a path rejects, and with what. *)
Record FS : Type := {
  existsSync : string -> bool;
  readFile : string -> Exc string;
  glob : string -> string -> Exc (list string);   (* pattern, cwd *)
  detectFramework : string -> Framework;
  access : string -> bool;
  write_error : string -> option string
}.

(** The state an [async] function runs in: the project's files, the
    system clock as the sequence of its successive readings with the
    number of readings made so far, and likewise the successive values of
    [Math.random().toString(36).substr(2, 9)]. *)
Record State : Type := {
  fs : FS;
  clock : nat -> Z;
  reads : nat;
  random : nat -> string;
  draws : nat
}.

Definition M (A : Type) : Type := State -> Exc A * State.

#[export] Instance Monad_M : Monad M := {
  ret := fun A a s => (Ok a, s);
  bind := fun A B c k s =>
    match c s with
    | (Ok a, s') => k a s'
    | (Throw e, s') => (Throw e, s')
    end
}.

(** [throw] *)
Definition throw {A} (e : string) : M A := fun s => (Throw e, s).

(** An [async] call that only reads the project. *)
Definition snapshot {A} (f : FS -> Exc A) : M A := fun s => (f (fs s), s).

(** [new Date()] and [Date.now()], in milliseconds. *)
Definition new_Date : M Z :=
  fun s => (Ok (clock s (reads s)),
            {| fs := fs s; clock := clock s; reads := S (reads s);
               random := random s; draws := draws s |}).

(** [Math.random().toString(36).substr(2, 9)] *)
Definition Math_random36 : M string :=
  fun s => (Ok (random s (draws s)),
            {| fs := fs s; clock := clock s; reads := reads s;
               random := random s; draws := S (draws s) |}).

(** The file system after [path] has been given the content [data]. *)
Definition written (f : FS) (path data : string) : FS :=
  {| existsSync := fun p => if String.eqb p path then true else existsSync f p;
     readFile := fun p => if String.eqb p path then Ok data else readFile f p;
     glob := glob f;
     detectFramework := detectFramework f;
     access := fun p => if String.eqb p path then true else access f p;
     write_error := write_error f |}.

(** [fs.writeFile(path, data, 'utf-8')]: replaces the content of the file
    in full, or rejects and leaves the project as it was. *)
Definition writeFile (path data : string) : M unit :=
  fun s =>
    match write_error (fs s) path with
    | Some e => (Throw e, s)
    | None => (Ok tt, {| fs := written (fs s) path data; clock := clock s;
                         reads := reads s; random := random s;
                         draws := draws s |})
    end.

(** [try { c } catch (error) { ... }]: the outcome of [c] as a value. *)
Definition try {A} (c : M A) : M (Exc A) :=
  fun s => let (r, s') := c s in (Ok r, s').

(* ===================================================================== *)
(** * launch/validator.ts *)
(* ===================================================================== *)

Inductive CheckStatus : Type := pass | fail | warning | skip.

Definition CheckStatus_eqb (a b : CheckStatus) : bool :=
  match a, b with
  | pass, pass | fail, fail | warning, warning | skip, skip => true
  | _, _ => false
  end.

Module ChecklistItem.
Record t : Type := mk {
  id : string;
  name : string;
  status : CheckStatus;
  required : bool;
  message : option string;
  fix_ : option string;   (* [fix] *)
  automated : option bool
}.
End ChecklistItem.
Abbreviation ChecklistItem := ChecklistItem.t.

Module ChecklistSection.
Record t : Type := mk {
  name : string;
  items : list ChecklistItem;
  score : Z;
  required : bool
}.
End ChecklistSection.
Abbreviation ChecklistSection := ChecklistSection.t.

Module LaunchChecklist.
Record t : Type := mk {
  sections : list ChecklistSection;
  overallScore : number;
  readyToLaunch : bool;
  criticalIssues : list ChecklistItem;
  warnings : list ChecklistItem;
  timestamp : Z
}.
End LaunchChecklist.
Abbreviation LaunchChecklist := LaunchChecklist.t.

Module Validator.

Definition count (st : CheckStatus) (items : list ChecklistItem) : Z :=
  Z.of_nat (List.length
    (filter (fun i => CheckStatus_eqb (ChecklistItem.status i) st) items)).

(** [calculateSectionScore] *)
Definition calculateSectionScore (items : list ChecklistItem) : Z :=
  if (List.length items =? 0)%nat then 100 else
  let total := Z.of_nat (List.length items) in
  let passed := count pass items in
  let warnings := count warning items in
  let skipped := count skip items in
  (* Pass = 100%, Warning = 50%, Skip = 75%, Fail = 0% *)
  let score :=
    (inject_Z (passed * 100 + warnings * 50 + skipped * 75)
     / inject_Z total)%Q in
  Math_round score.

Definition section (name : string) (items : list ChecklistItem)
    (required : bool) : ChecklistSection :=
  let score := calculateSectionScore items in
  ChecklistSection.mk name items score required.

Definition is_next (f : Framework) : bool :=
  Framework_eqb f next_app || Framework_eqb f next_pages.

(** [checkAssets] *)
Definition checkAssets (fs : FS) (projectRoot : string)
    : Exc ChecklistSection :=
  let items := [] in
  let faviconExists :=
    existsSync fs (path_join projectRoot "public/favicon.ico") in
  let items := push items (ChecklistItem.mk
    "favicon" "Favicon generated"
    (if faviconExists then pass else fail) true
    (Some (if faviconExists then "favicon.ico found" else "No favicon.ico"))
    (if faviconExists then None else Some "Run /ship-assets")
    (Some true)) in
  ogImages <- glob fs "public/*og-image*.{png,jpg}" projectRoot ;;
  let og := (0 <? List.length ogImages)%nat in
  let items := push items (ChecklistItem.mk
    "og-images" "Open Graph images created"
    (if og then pass else fail) true
    (Some (if og
           then String.append (show_nat (List.length ogImages)) " OG images found"
           else "No OG images"))
    (if og then None else Some "Run /ship-assets")
    (Some true)) in
  twitterImages <- glob fs "public/*twitter*.{png,jpg}" projectRoot ;;
  let tw := (0 <? List.length twitterImages)%nat in
  let items := push items (ChecklistItem.mk
    "twitter-cards" "Twitter cards configured"
    (if tw then pass else warning) false
    (Some (if tw then "Twitter images found" else "No Twitter card images"))
    None
    (Some true)) in
  pwaIcons <- glob fs "public/android-chrome-*.png" projectRoot ;;
  let pwa := (2 <=? List.length pwaIcons)%nat in
  let items := push items (ChecklistItem.mk
    "pwa-icons" "PWA icons ready"
    (if pwa then pass else warning) false
    (Some (if pwa
           then String.append (show_nat (List.length pwaIcons)) " PWA icons found"
           else "Missing PWA icons"))
    None
    (Some true)) in
  let manifestExists :=
    existsSync fs (path_join projectRoot "public/manifest.json") in
  let items := push items (ChecklistItem.mk
    "manifest" "Manifest.json exists"
    (if manifestExists then pass else warning) false
    (Some (if manifestExists then "manifest.json found"
           else "No manifest.json"))
    None
    (Some true)) in
  ret (section "Assets & Branding" items true).

(** [checkSEO] *)
Definition checkSEO (fs : FS) (projectRoot : string)
    : Exc ChecklistSection :=
  let items := [] in
  let detection := detectFramework fs projectRoot in
  let sitemapExists :=
    if Framework_eqb detection next_app
    then existsSync fs (path_join projectRoot "app/sitemap.ts")
         || existsSync fs (path_join projectRoot "app/sitemap.js")
    else existsSync fs (path_join projectRoot "public/sitemap.xml") in
  let items := push items (ChecklistItem.mk
    "sitemap" "Sitemap generated"
    (if sitemapExists then pass else fail) true
    (Some (if sitemapExists then "Sitemap found" else "No sitemap"))
    (if sitemapExists then None else Some "Run /ship-seo")
    (Some true)) in
  let robotsExists :=
    existsSync fs (path_join projectRoot "public/robots.txt") in
  let items := push items (ChecklistItem.mk
    "robots" "Robots.txt created"
    (if robotsExists then pass else fail) true
    (Some (if robotsExists then "robots.txt found" else "No robots.txt"))
    (if robotsExists then None else Some "Run /ship-seo")
    (Some true)) in
  hasMetaTags <-
    (if Framework_eqb detection next_app then
       let layoutPath := path_join projectRoot "app/layout.tsx" in
       if existsSync fs layoutPath then
         content <- readFile fs layoutPath ;;
         ret (includes content "metadata" && includes content "description")
       else ret false
     else ret false) ;;
  let items := push items (ChecklistItem.mk
    "meta-tags" "Meta tags complete"
    (if hasMetaTags then pass else warning) true
    (Some (if hasMetaTags then "Meta tags configured"
           else "Meta tags may be incomplete"))
    (if hasMetaTags then None else Some "Run /ship-seo")
    (Some true)) in
  let items := push items (ChecklistItem.mk
    "structured-data" "Structured data added"
    skip false (Some "Manual verification needed") None (Some false)) in
  let items := push items (ChecklistItem.mk
    "search-console" "Google Search Console setup"
    skip false (Some "Manual setup required") None (Some false)) in
  ret (section "SEO Optimization" items true).

(** [checkPerformance] *)
Definition checkPerformance (fs : FS) (projectRoot : string)
    : Exc ChecklistSection :=
  let items := [] in
  let buildExists :=
    existsSync fs (path_join projectRoot ".next")
    || existsSync fs (path_join projectRoot "dist")
    || existsSync fs (path_join projectRoot "build") in
  let items := push items (ChecklistItem.mk
    "build-output" "Production build exists"
    (if buildExists then pass else warning) true
    (Some (if buildExists then "Build output found" else "No build output"))
    (if buildExists then None else Some "Run: npm run build")
    (Some false)) in
  webpImages <- glob fs "public/**/*.webp" projectRoot ;;
  let webp := (0 <? List.length webpImages)%nat in
  let items := push items (ChecklistItem.mk
    "optimized-images" "Images optimized"
    (if webp then pass else warning) false
    (Some (if webp
           then String.append (show_nat (List.length webpImages))
                              " WebP images found"
           else "No optimized images"))
    (if (List.length webpImages =? 0)%nat then Some "Run /ship-perf" else None)
    (Some true)) in
  let detection := detectFramework fs projectRoot in
  items <-
    (if is_next detection then
       let configPath := path_join projectRoot "next.config.js" in
       configOptimized <-
         (if existsSync fs configPath then
            content <- readFile fs configPath ;;
            ret (includes content "swcMinify" && includes content "compress")
          else ret false) ;;
       ret (push items (ChecklistItem.mk
         "config-optimized" "Framework config optimized"
         (if configOptimized then pass else warning) false
         (Some (if configOptimized then "Config optimized"
                else "Config not optimized"))
         (if configOptimized then None else Some "Run /ship-perf")
         (Some true)))
     else ret items) ;;
  let items := push items (ChecklistItem.mk
    "lighthouse-score" "Lighthouse score > 90"
    skip false (Some "Run /ship-perf to check") None (Some true)) in
  let items := push items (ChecklistItem.mk
    "core-web-vitals" "Core Web Vitals good"
    skip false (Some "Run /ship-perf to check") None (Some true)) in
  ret (section "Performance" items true).

(** [checkSecurity] *)
Definition checkSecurity (fs : FS) (projectRoot : string)
    : Exc ChecklistSection :=
  let items := [] in
  let gitignorePath := path_join projectRoot ".gitignore" in
  envIgnored <-
    (if existsSync fs gitignorePath then
       content <- readFile fs gitignorePath ;;
       ret (includes content ".env")
     else ret false) ;;
  let items := push items (ChecklistItem.mk
    "env-gitignore" "Environment variables not exposed"
    (if envIgnored then pass else warning) true
    (Some (if envIgnored then ".env is gitignored"
           else ".env may not be gitignored"))
    None
    (Some false)) in
  let detection := detectFramework fs projectRoot in
  hasSecurityHeaders <-
    (if is_next detection then
       let configPath := path_join projectRoot "next.config.js" in
       if existsSync fs configPath then
         content <- readFile fs configPath ;;
         ret (includes content "headers()")
       else ret false
     else ret false) ;;
  let items := push items (ChecklistItem.mk
    "security-headers" "Security headers set"
    (if hasSecurityHeaders then pass else warning) false
    (Some (if hasSecurityHeaders then "Headers configured"
           else "No security headers"))
    None
    (Some true)) in
  let items := push items (ChecklistItem.mk
    "dependencies" "Dependencies up to date"
    skip false (Some "Run: npm audit") None (Some false)) in
  let items := push items (ChecklistItem.mk
    "no-secrets" "No API keys in client code"
    skip true (Some "Manual verification needed") None (Some false)) in
  let items := push items (ChecklistItem.mk
    "https" "HTTPS enabled"
    skip true (Some "Verify after deployment") None (Some false)) in
  ret (section "Security" items true).

(** [checkFunctionality] *)
Definition checkFunctionality (fs : FS) (projectRoot : string)
    : Exc ChecklistSection :=
  let items := [] in
  let detection := detectFramework fs projectRoot in
  let has404 :=
    if Framework_eqb detection next_app
    then existsSync fs (path_join projectRoot "app/not-found.tsx")
         || existsSync fs (path_join projectRoot "app/not-found.jsx")
    else if Framework_eqb detection next_pages
    then existsSync fs (path_join projectRoot "pages/404.tsx")
         || existsSync fs (path_join projectRoot "pages/404.jsx")
    else false in
  let items := push items (ChecklistItem.mk
    "404-page" "404 page exists"
    (if has404 then pass else warning) false
    (Some (if has404 then "404 page found" else "No custom 404 page"))
    None
    (Some false)) in
  let items := push items (ChecklistItem.mk
    "error-handling" "Error handling in place"
    skip false (Some "Manual verification needed") None (Some false)) in
  let items := push items (ChecklistItem.mk
    "forms" "Forms working correctly"
    skip false (Some "Manual testing required") None (Some false)) in
  let items := push items (ChecklistItem.mk
    "links" "Links not broken"
    skip false (Some "Manual verification needed") None (Some false)) in
  let items := push items (ChecklistItem.mk
    "mobile-responsive" "Mobile responsive"
    skip false (Some "Manual testing required") None (Some false)) in
  ret (section "Functionality" items false).

(** [checkAnalytics] *)
Definition checkAnalytics (fs : FS) (projectRoot : string)
    : Exc ChecklistSection :=
  let items := [] in
  let items := push items (ChecklistItem.mk
    "analytics" "Analytics installed"
    skip false
    (Some "Manual setup (Google Analytics, Vercel Analytics, etc.)")
    None (Some false)) in
  let items := push items (ChecklistItem.mk
    "error-tracking" "Error tracking setup"
    skip false (Some "Manual setup (Sentry, LogRocket, etc.)")
    None (Some false)) in
  let items := push items (ChecklistItem.mk
    "performance-monitoring" "Performance monitoring"
    skip false (Some "Manual setup") None (Some false)) in
  ret (section "Analytics & Monitoring" items false).

(** [checkDocumentation] *)
Definition checkDocumentation (fs : FS) (projectRoot : string)
    : Exc ChecklistSection :=
  let items := [] in
  let readmeExists := existsSync fs (path_join projectRoot "README.md") in
  let items := push items (ChecklistItem.mk
    "readme" "README.md complete"
    (if readmeExists then pass else warning) false
    (Some (if readmeExists then "README.md found" else "No README.md"))
    None
    (Some false)) in
  let changelogExists :=
    existsSync fs (path_join projectRoot "CHANGELOG.md") in
  let items := push items (ChecklistItem.mk
    "changelog" "Changelog started"
    (if changelogExists then pass else skip) false
    (Some (if changelogExists then "CHANGELOG.md found"
           else "No CHANGELOG.md"))
    None
    (Some false)) in
  let items := push items (ChecklistItem.mk
    "api-docs" "API docs (if applicable)"
    skip false (Some "Only if you have an API") None (Some false)) in
  ret (section "Documentation" items false).

(** [checkLegal] *)
Definition checkLegal (fs : FS) (projectRoot : string)
    : Exc ChecklistSection :=
  let items := [] in
  let items := push items (ChecklistItem.mk
    "privacy-policy" "Privacy policy (if needed)"
    skip false (Some "Required if collecting user data")
    None (Some false)) in
  let items := push items (ChecklistItem.mk
    "terms" "Terms of service (if needed)"
    skip false (Some "Required for commercial apps") None (Some false)) in
  let items := push items (ChecklistItem.mk
    "cookies" "Cookie consent (if needed)"
    skip false (Some "Required for GDPR compliance") None (Some false)) in
  ret (section "Legal & Compliance" items false).

(** The two nested [forEach] loops of [runLaunchChecklist]: the pair
    ([criticalIssues], [warnings]) after visiting every item of every
    section. *)
Definition collect_item (acc : list ChecklistItem * list ChecklistItem)
    (item : ChecklistItem) : list ChecklistItem * list ChecklistItem :=
  let (criticalIssues, warnings) := acc in
  if CheckStatus_eqb (ChecklistItem.status item) fail
     && ChecklistItem.required item
  then (push criticalIssues item, warnings)
  else if CheckStatus_eqb (ChecklistItem.status item) warning
  then (criticalIssues, push warnings item)
  else (criticalIssues, warnings).

Definition collect (sections : list ChecklistSection)
    : list ChecklistItem * list ChecklistItem :=
  fold_left
    (fun acc section =>
       fold_left collect_item (ChecklistSection.items section) acc)
    sections ([], []).

(** The second half of [runLaunchChecklist], from "Calculate overall
    score" on: what it makes of the sections it has gathered.
    [totalScore / sections.length] is [0 / 0], that is [NaN], for an empty
    list. *)
Definition evaluate (sections : list ChecklistSection) (now : Z)
    : LaunchChecklist :=
  let totalScore :=
    fold_left (fun sum s => sum + ChecklistSection.score s) sections 0 in
  let overallScore :=
    if (List.length sections =? 0)%nat then NaN
    else Num (Math_round
                (inject_Z totalScore
                 / inject_Z (Z.of_nat (List.length sections)))%Q) in
  let (criticalIssues, warnings) := collect sections in
  let readyToLaunch :=
    (List.length criticalIssues =? 0)%nat && number_geb overallScore 70 in
  LaunchChecklist.mk sections overallScore readyToLaunch
                     criticalIssues warnings now.

(** [runLaunchChecklist] *)
Definition runLaunchChecklist (projectRoot : string) : M LaunchChecklist :=
  let sections := [] in
  (* 1. Assets & Branding *)
  s <- snapshot (fun fs => checkAssets fs projectRoot) ;;
  let sections := push sections s in
  (* 2. SEO Optimization *)
  s <- snapshot (fun fs => checkSEO fs projectRoot) ;;
  let sections := push sections s in
  (* 3. Performance *)
  s <- snapshot (fun fs => checkPerformance fs projectRoot) ;;
  let sections := push sections s in
  (* 4. Security *)
  s <- snapshot (fun fs => checkSecurity fs projectRoot) ;;
  let sections := push sections s in
  (* 5. Functionality *)
  s <- snapshot (fun fs => checkFunctionality fs projectRoot) ;;
  let sections := push sections s in
  (* 6. Analytics & Monitoring *)
  s <- snapshot (fun fs => checkAnalytics fs projectRoot) ;;
  let sections := push sections s in
  (* 7. Documentation *)
  s <- snapshot (fun fs => checkDocumentation fs projectRoot) ;;
  let sections := push sections s in
  (* 8. Legal & Compliance *)
  s <- snapshot (fun fs => checkLegal fs projectRoot) ;;
  let sections := push sections s in
  now <- new_Date ;;
  ret (evaluate sections now).

End Validator.

(* ===================================================================== *)
(** * orchestrator.ts *)
(* ===================================================================== *)

Inductive StepStatus : Type := pending | running | completed | failed | skipped.

Definition StepStatus_eqb (a b : StepStatus) : bool :=
  match a, b with
  | pending, pending | running, running | completed, completed
  | failed, failed | skipped, skipped => true
  | _, _ => false
  end.

(** The payload a step leaves in [WorkflowStep.result] (typed [any] in the
    source): one constructor per object literal the steps build. *)
Inductive StepResult : Type :=
| AssetsOptimized (assetsGenerated totalSavings : Z)
| AssetsMissing                      (* { assetsGenerated: 0 } *)
| SEOChecked (seoScore itemsFound itemsTotal : Z)
| PerfOptimized (performanceScore imagesOptimized bytesSaved : Z)
| Checklist (checklist : LaunchChecklist)
| Deployment (url : string) (skipped : bool).

Module WorkflowStep.
Record t : Type := mk {
  id : string;
  name : string;
  description : string;
  status : StepStatus;
  startTime : option Z;
  endTime : option Z;
  duration : option Z;
  error : option string;
  result : option StepResult
}.
End WorkflowStep.
Abbreviation WorkflowStep := WorkflowStep.t.

Module WorkflowConfig.
(** Every field is optional; [None] is an absent key. *)
Record t : Type := mk {
  skipAssets : option bool;
  skipSEO : option bool;
  skipPerf : option bool;
  skipDeploy : option bool;
  autoFix : option bool;
  targetScore : option Z;
  production : option bool
}.
End WorkflowConfig.
Abbreviation WorkflowConfig := WorkflowConfig.t.

Module Summary.
Record t : Type := mk {
  assetsGenerated : Z;
  seoScore : Z;
  performanceScore : Z;
  launchScore : Z;
  readyToLaunch : bool
}.
End Summary.

Module WorkflowResult.
Record t : Type := mk {
  steps : list WorkflowStep;
  overallSuccess : bool;
  totalDuration : Z;
  launchChecklist : option LaunchChecklist;
  deploymentUrl : option string;
  summary : Summary.t
}.
End WorkflowResult.
Abbreviation WorkflowResult := WorkflowResult.t.

(** [perf/images.ts], as far as the orchestrator reads its results. *)
Record ImageAnalysis : Type := { totalImages : Z }.
Record ImageOptimization : Type := { savings : Z }.
Inductive ImageFormat : Type := webp | avif | original.
Record OptimizationOptions : Type := {
  quality : option Z;
  format : option ImageFormat;
  removeExif : option bool
}.

(** The image tools are external: any computation that may change the
    project, take time, and throw. *)
Record Tools : Type := {
  analyzeImages : string -> M ImageAnalysis;
  optimizeImages : string -> OptimizationOptions -> M (list ImageOptimization)
}.

Module Orchestrator.
Section WithTools.

Variable tools : Tools.

Definition DEFAULT_CONFIG : WorkflowConfig :=
  WorkflowConfig.mk (Some false) (Some false) (Some false)
                    (Some true) (* Don't deploy by default *)
                    (Some true) (Some 90) (Some false).

Definition override {A} (d c : option A) : option A :=
  match c with Some x => Some x | None => d end.

(** [{ ...a, ...b }] *)
Definition spread (a b : WorkflowConfig) : WorkflowConfig :=
  WorkflowConfig.mk
    (override (WorkflowConfig.skipAssets a) (WorkflowConfig.skipAssets b))
    (override (WorkflowConfig.skipSEO a) (WorkflowConfig.skipSEO b))
    (override (WorkflowConfig.skipPerf a) (WorkflowConfig.skipPerf b))
    (override (WorkflowConfig.skipDeploy a) (WorkflowConfig.skipDeploy b))
    (override (WorkflowConfig.autoFix a) (WorkflowConfig.autoFix b))
    (override (WorkflowConfig.targetScore a) (WorkflowConfig.targetScore b))
    (override (WorkflowConfig.production a) (WorkflowConfig.production b)).

(** The truth value of an optional boolean ([undefined] is falsy). *)
Definition truthy (b : option bool) : bool :=
  match b with Some true => true | _ => false end.

(** The object literal every step function starts from. *)
Definition new_step (id name description : string) (startTime : Z)
    : WorkflowStep :=
  WorkflowStep.mk id name description running (Some startTime)
                  None None None None.

(** [step.status = st; step.result = r] *)
Definition with_result (step : WorkflowStep) (st : StepStatus)
    (r : StepResult) : WorkflowStep :=
  WorkflowStep.mk (WorkflowStep.id step) (WorkflowStep.name step)
    (WorkflowStep.description step) st (WorkflowStep.startTime step)
    (WorkflowStep.endTime step) (WorkflowStep.duration step)
    (WorkflowStep.error step) (Some r).

(** The [catch] block of every step function:
    [step.status = 'failed'; step.error = String(error)] *)
Definition with_error (step : WorkflowStep) (error : string)
    : WorkflowStep :=
  WorkflowStep.mk (WorkflowStep.id step) (WorkflowStep.name step)
    (WorkflowStep.description step) failed (WorkflowStep.startTime step)
    (WorkflowStep.endTime step) (WorkflowStep.duration step)
    (Some error) (WorkflowStep.result step).

Definition caught (step : WorkflowStep) (r : Exc WorkflowStep)
    : WorkflowStep :=
  match r with
  | Ok step' => step'
  | Throw error => with_error step error
  end.

(** The last lines of every step function:
    [step.endTime = new Date();
     step.duration = step.endTime.getTime() - step.startTime!.getTime()] *)
Definition finish (step : WorkflowStep) : M WorkflowStep :=
  endTime <- new_Date ;;
  ret (WorkflowStep.mk (WorkflowStep.id step) (WorkflowStep.name step)
    (WorkflowStep.description step) (WorkflowStep.status step)
    (WorkflowStep.startTime step) (Some endTime)
    (match WorkflowStep.startTime step with
     | Some startTime => Some (endTime - startTime)
     | None => None
     end)
    (WorkflowStep.error step) (WorkflowStep.result step)).

Definition sum_savings (results : list ImageOptimization) : Z :=
  fold_left (fun sum r => sum + savings r) results 0.

(** The [try] block of [runAssetGeneration]. *)
Definition runAssetGeneration_try (projectRoot : string)
    (step : WorkflowStep) : M WorkflowStep :=
  (* Check if assets already exist *)
  analysis <- analyzeImages tools projectRoot ;;
  if 0 <? totalImages analysis then
    results <- optimizeImages tools projectRoot
                 {| quality := Some 85; format := Some webp;
                    removeExif := None |} ;;
    ret (with_result step completed
           (AssetsOptimized (Z.of_nat (List.length results))
                            (sum_savings results)))
  else
    ret (with_result step skipped AssetsMissing).

(** [runAssetGeneration] *)
Definition runAssetGeneration (projectRoot : string) : M WorkflowStep :=
  startTime <- new_Date ;;
  let step := new_step "assets" "Asset Generation"
                "Generate favicons, OG images, and PWA icons" startTime in
  r <- try (runAssetGeneration_try projectRoot step) ;;
  finish (caught step r).

(** [checkFileExists]: its own [try]/[catch] turns a rejection of
    [fs.access] into [false]. *)
Definition checkFileExists (filePath : string) : M bool :=
  snapshot (fun fs => Ok (access fs filePath)).

(** The [try] block of [runSEOOptimization]. *)
Definition runSEOOptimization_try (projectRoot : string)
    (step : WorkflowStep) : M WorkflowStep :=
  (* Check for existing SEO files *)
  detection <- snapshot (fun fs => Ok (detectFramework fs projectRoot)) ;;
  let seoScore := 0 in
  let itemsFound := 0 in
  (* Check sitemap *)
  sitemapExists <-
    (if Framework_eqb detection next_app
     then checkFileExists (path_join projectRoot "app/sitemap.ts")
     else checkFileExists (path_join projectRoot "public/sitemap.xml")) ;;
  let '(itemsFound, seoScore) :=
    if sitemapExists then (itemsFound + 1, seoScore + 25)
    else (itemsFound, seoScore) in
  (* Check robots.txt *)
  robotsExists <-
    checkFileExists (path_join projectRoot "public/robots.txt") ;;
  let '(itemsFound, seoScore) :=
    if robotsExists then (itemsFound + 1, seoScore + 25)
    else (itemsFound, seoScore) in
  (* Check manifest *)
  manifestExists <-
    checkFileExists (path_join projectRoot "public/manifest.json") ;;
  let '(itemsFound, seoScore) :=
    if manifestExists then (itemsFound + 1, seoScore + 25)
    else (itemsFound, seoScore) in
  (* Check meta tags (simplified) *)
  counts <-
    (if Framework_eqb detection next_app then
       layoutExists <-
         checkFileExists (path_join projectRoot "app/layout.tsx") ;;
       ret (if layoutExists then (itemsFound + 1, seoScore + 25)
            else (itemsFound, seoScore))
     else ret (itemsFound, seoScore)) ;;
  let '(itemsFound, seoScore) := counts in
  ret (with_result step completed (SEOChecked seoScore itemsFound 4)).

(** [runSEOOptimization] *)
Definition runSEOOptimization (projectRoot : string) : M WorkflowStep :=
  startTime <- new_Date ;;
  let step := new_step "seo" "SEO Optimization"
                "Optimize meta tags, sitemap, and robots.txt" startTime in
  r <- try (runSEOOptimization_try projectRoot step) ;;
  finish (caught step r).

(** The [try] block of [runPerformanceOptimization]. *)
Definition runPerformanceOptimization_try (projectRoot : string)
    (step : WorkflowStep) : M WorkflowStep :=
  (* Optimize images *)
  imageResults <- optimizeImages tools projectRoot
                    {| quality := Some 85; format := Some webp;
                       removeExif := Some true |} ;;
  let bytesSaved := sum_savings imageResults in
  (* Estimate performance score based on optimizations *)
  let performanceScore := 70 in (* Base score *)
  let performanceScore :=
    if (0 <? List.length imageResults)%nat then performanceScore + 10
    else performanceScore in
  let performanceScore :=
    if 1000000 <? bytesSaved then performanceScore + 10
    else performanceScore in
  ret (with_result step completed
         (PerfOptimized performanceScore
                        (Z.of_nat (List.length imageResults))
                        bytesSaved)).

(** [runPerformanceOptimization] *)
Definition runPerformanceOptimization (projectRoot : string)
    (config : WorkflowConfig) : M WorkflowStep :=
  startTime <- new_Date ;;
  let step := new_step "performance" "Performance Optimization"
                "Optimize images, bundle, and configuration" startTime in
  r <- try (runPerformanceOptimization_try projectRoot step) ;;
  finish (caught step r).

(** The [try] block of [runLaunchChecklistValidation]. *)
Definition runLaunchChecklistValidation_try (projectRoot : string)
    (step : WorkflowStep) : M WorkflowStep :=
  checklist <- Validator.runLaunchChecklist projectRoot ;;
  ret (with_result step completed (Checklist checklist)).

(** [runLaunchChecklistValidation] *)
Definition runLaunchChecklistValidation (projectRoot : string)
    : M WorkflowStep :=
  startTime <- new_Date ;;
  let step := new_step "launch-checklist" "Launch Checklist"
                "Validate project readiness for launch" startTime in
  r <- try (runLaunchChecklistValidation_try projectRoot step) ;;
  finish (caught step r).

(** The [try] block of [runDeployment]: the deployment modules are not
    called; the step marks itself skipped. *)
Definition runDeployment_try (step : WorkflowStep) : M WorkflowStep :=
  ret (with_result step skipped
         (Deployment "https://your-app.vercel.app" true)).

(** [runDeployment] *)
Definition runDeployment (projectRoot : string) (production : bool)
    : M WorkflowStep :=
  startTime <- new_Date ;;
  let step := new_step "deployment" "Deployment"
                (if production then "Deploy to production"
                 else "Deploy to preview") startTime in
  r <- try (runDeployment_try step) ;;
  finish (caught step r).

(** [checklistStep.result as LaunchChecklist] *)
Definition as_LaunchChecklist (r : option StepResult)
    : option LaunchChecklist :=
  match r with Some (Checklist c) => Some c | _ => None end.

(** [steps[i]?.result] *)
Definition result_at (steps : list WorkflowStep) (i : nat)
    : option StepResult :=
  match nth_error steps i with
  | Some step => WorkflowStep.result step
  | None => None
  end.

(** [r?.assetsGenerated || 0], [r?.seoScore || 0],
    [r?.performanceScore || 0], [r?.url] *)
Definition get_assetsGenerated (r : option StepResult) : Z :=
  match r with Some (AssetsOptimized n _) => n | _ => 0 end.
Definition get_seoScore (r : option StepResult) : Z :=
  match r with Some (SEOChecked n _ _) => n | _ => 0 end.
Definition get_performanceScore (r : option StepResult) : Z :=
  match r with Some (PerfOptimized n _ _) => n | _ => 0 end.
Definition get_url (r : option StepResult) : option string :=
  match r with Some (Deployment url _) => Some url | _ => None end.

(** [launchChecklist?.readyToLaunch] as a condition. *)
Definition reported_ready (c : option LaunchChecklist) : bool :=
  match c with Some c => LaunchChecklist.readyToLaunch c | None => false end.

(** [launchChecklist?.overallScore || 0] *)
Definition reported_score (c : option LaunchChecklist) : Z :=
  match c with
  | Some c => match LaunchChecklist.overallScore c with
              | Num z => z
              | NaN => 0
              end
  | None => 0
  end.

Definition succeeded (s : WorkflowStep) : bool :=
  StepStatus_eqb (WorkflowStep.status s) completed
  || StepStatus_eqb (WorkflowStep.status s) skipped.

(** [runCompleteWorkflow] *)
Definition runCompleteWorkflow (projectRoot : string)
    (config : WorkflowConfig) : M WorkflowResult :=
  let finalConfig := spread DEFAULT_CONFIG config in
  startTime <- new_Date ;;
  let steps := [] in
  (* Step 1: Asset Generation *)
  steps <-
    (if negb (truthy (WorkflowConfig.skipAssets finalConfig)) then
       assetStep <- runAssetGeneration projectRoot ;;
       ret (push steps assetStep)
     else ret steps) ;;
  (* Step 2: SEO Optimization *)
  steps <-
    (if negb (truthy (WorkflowConfig.skipSEO finalConfig)) then
       seoStep <- runSEOOptimization projectRoot ;;
       ret (push steps seoStep)
     else ret steps) ;;
  (* Step 3: Performance Optimization *)
  steps <-
    (if negb (truthy (WorkflowConfig.skipPerf finalConfig)) then
       perfStep <- runPerformanceOptimization projectRoot finalConfig ;;
       ret (push steps perfStep)
     else ret steps) ;;
  (* Step 4: Launch Checklist *)
  checklistStep <- runLaunchChecklistValidation projectRoot ;;
  let steps := push steps checklistStep in
  let launchChecklist :=
    as_LaunchChecklist (WorkflowStep.result checklistStep) in
  (* Step 5: Deployment (optional) *)
  deployed <-
    (if negb (truthy (WorkflowConfig.skipDeploy finalConfig))
        && reported_ready launchChecklist then
       deployStep <-
         runDeployment projectRoot
           (truthy (WorkflowConfig.production finalConfig)) ;;
       ret (push steps deployStep, get_url (WorkflowStep.result deployStep))
     else ret (steps, None)) ;;
  let '(steps, deploymentUrl) := deployed in
  (* Calculate results *)
  now <- new_Date ;;
  let totalDuration := now - startTime in
  let overallSuccess := forallb succeeded steps in
  let summary :=
    Summary.mk (get_assetsGenerated (result_at steps 0))
               (get_seoScore (result_at steps 1))
               (get_performanceScore (result_at steps 2))
               (reported_score launchChecklist)
               (reported_ready launchChecklist) in
  ret (WorkflowResult.mk steps overallSuccess totalDuration
                         launchChecklist deploymentUrl summary).

End WithTools.
End Orchestrator.

(* ===================================================================== *)
(** * workflow.ts *)
(* ===================================================================== *)

Module RunStatus.
Inductive t : Type := in_progress | completed | failed | cancelled.
Definition eqb (a b : t) : bool :=
  match a, b with
  | in_progress, in_progress | completed, completed
  | failed, failed | cancelled, cancelled => true
  | _, _ => false
  end.
End RunStatus.

#[local] Set Warnings "-register-all".

(** A JavaScript value of the kind [JSON.parse] returns and
    [JSON.stringify] accepts ([any] in the source). *)
Inductive JSValue : Type :=
| JUndefined
| JNull
| JBool (b : bool)
| JNum (z : Z)
| JStr (s : string)
| JDate (ms : Z)
| JArr (elements : list JSValue)
| JObj (fields : list (string * JSValue)).

Module WorkflowState.
Record t : Type := mk {
  id : string;
  projectRoot : string;
  startTime : Z;
  lastUpdate : Z;
  status : RunStatus.t;
  currentStep : Z;
  totalSteps : Z;
  steps : list WorkflowStep;
  config : JSValue
}.
End WorkflowState.
Abbreviation WorkflowState := WorkflowState.t.

Module Workflow.
Section WithJSON.

(** [JSON.parse] throws a [SyntaxError] on text that is not JSON. *)
Variable JSON_parse : string -> Exc JSValue.
(** [JSON.stringify(v, null, 2)] *)
Variable JSON_stringify : JSValue -> string.

Definition STATE_DIR : string := ".ship-toolkit".
Definition STATE_FILE : string := "workflow-state.json".
Definition HISTORY_FILE : string := "workflow-history.json".

Definition historyPath (projectRoot : string) : string :=
  path_join (path_join projectRoot STATE_DIR) HISTORY_FILE.

Definition status_text (st : StepStatus) : string :=
  match st with
  | pending => "pending" | running => "running"
  | completed => "completed" | failed => "failed" | skipped => "skipped"
  end.

Definition optional_number (d : option Z) : JSValue :=
  match d with Some z => JNum z | None => JUndefined end.

(** [s => ({ id: s.id, name: s.name, status: s.status,
             duration: s.duration })] *)
Definition step_summary (s : WorkflowStep) : JSValue :=
  JObj [("id", JStr (WorkflowStep.id s));
        ("name", JStr (WorkflowStep.name s));
        ("status", JStr (status_text (WorkflowStep.status s)));
        ("duration", optional_number (WorkflowStep.duration s))].

(** [result.summary] *)
Definition summary_value (m : Summary.t) : JSValue :=
  JObj [("assetsGenerated", JNum (Summary.assetsGenerated m));
        ("seoScore", JNum (Summary.seoScore m));
        ("performanceScore", JNum (Summary.performanceScore m));
        ("launchScore", JNum (Summary.launchScore m));
        ("readyToLaunch", JBool (Summary.readyToLaunch m))].

(** The entry [saveToHistory] adds for [result] at time [now]. *)
Definition history_entry (now : Z) (result : WorkflowResult) : JSValue :=
  JObj [("timestamp", JDate now);
        ("duration", JNum (WorkflowResult.totalDuration result));
        ("success", JBool (WorkflowResult.overallSuccess result));
        ("summary", summary_value (WorkflowResult.summary result));
        ("steps", JArr (map step_summary (WorkflowResult.steps result)))].

(** [history.slice(0, n)] *)
Definition slice0 {A} (n : nat) (l : list A) : list A := firstn n l.

(** "Load existing history": the value of [history] when the second
    block of [saveToHistory] is reached. *)
Definition load_existing (projectRoot : string) : M JSValue :=
  exists_ <- snapshot (fun fs => Ok (existsSync fs (historyPath projectRoot))) ;;
  if (exists_ : bool) then
    r <- try (
      content <- snapshot (fun fs => readFile fs (historyPath projectRoot)) ;;
      snapshot (fun _ => JSON_parse content)) ;;
    match r with
    | Ok history => ret history
    | Throw _ => ret (JArr [])
    end
  else ret (JArr []).

(** [saveToHistory] *)
Definition saveToHistory (projectRoot : string) (result : WorkflowResult)
    : M unit :=
  history <- load_existing projectRoot ;;
  match history with
  | JArr history =>
      (* Add new entry *)
      now <- new_Date ;;
      let history := history_entry now result :: history in
      (* Keep only last 10 runs *)
      let history := slice0 10 history in
      (* Save history *)
      writeFile (historyPath projectRoot) (JSON_stringify (JArr history))
  | JNull | JUndefined =>
      throw "TypeError: Cannot read properties of null (reading 'unshift')"
  | _ =>
      new_Date ;;;
      throw "TypeError: history.unshift is not a function"
  end.

(** [generateWorkflowId] *)
Definition generateWorkflowId : M string :=
  now <- new_Date ;;
  r <- Math_random36 ;;
  ret (String.append "workflow-"
         (String.append (show_Z now) (String.append "-" r))).

(** [createWorkflowState] *)
Definition createWorkflowState (projectRoot : string) (totalSteps : Z)
    (config : JSValue) : M WorkflowState :=
  id <- generateWorkflowId ;;
  startTime <- new_Date ;;
  lastUpdate <- new_Date ;;
  ret (WorkflowState.mk id projectRoot startTime lastUpdate
         RunStatus.in_progress 0 totalSteps [] config).

(** [Array.prototype.findIndex]: [-1] when nothing matches. *)
Fixpoint findIndex {A} (p : A -> bool) (l : list A) : Z :=
  match l with
  | [] => -1
  | x :: l' =>
      if p x then 0
      else let i := findIndex p l' in
           if i <? 0 then -1 else i + 1
  end.

(** [l[i] = x] for an index inside the array. *)
Fixpoint store {A} (l : list A) (i : nat) (x : A) : list A :=
  match l, i with
  | [], _ => []
  | _ :: l', O => x :: l'
  | y :: l', S i' => y :: store l' i' x
  end.

Definition terminal (s : WorkflowStep) : bool :=
  StepStatus_eqb (WorkflowStep.status s) completed
  || StepStatus_eqb (WorkflowStep.status s) failed
  || StepStatus_eqb (WorkflowStep.status s) skipped.

Definition same_id (step s : WorkflowStep) : bool :=
  String.eqb (WorkflowStep.id s) (WorkflowStep.id step).

(** [updateWorkflowState]; the record is rebuilt at the end from the
    fields the source assigns in place. *)
Definition updateWorkflowState (state : WorkflowState) (step : WorkflowStep)
    : M WorkflowState :=
  (* Find existing step or add new one *)
  let existingIndex := findIndex (same_id step) (WorkflowState.steps state) in
  let steps :=
    if 0 <=? existingIndex
    then store (WorkflowState.steps state) (Z.to_nat existingIndex) step
    else push (WorkflowState.steps state) step in
  lastUpdate <- new_Date ;;
  (* Update current step *)
  let currentStep :=
    if terminal step
    then Z.of_nat (List.length (filter terminal steps))
    else WorkflowState.currentStep state in
  (* Update overall status *)
  let status :=
    if WorkflowState.totalSteps state <=? currentStep then
      let hasFailures :=
        existsb (fun s => StepStatus_eqb (WorkflowStep.status s) failed)
                steps in
      if hasFailures then RunStatus.failed else RunStatus.completed
    else WorkflowState.status state in
  ret (WorkflowState.mk (WorkflowState.id state)
         (WorkflowState.projectRoot state) (WorkflowState.startTime state)
         lastUpdate status currentStep (WorkflowState.totalSteps state)
         steps (WorkflowState.config state)).

(** [canResumeWorkflow]; [&&] reads the clock only when the first two
    conditions hold. *)
Definition canResumeWorkflow (state : WorkflowState) : M bool :=
  if RunStatus.eqb (WorkflowState.status state) RunStatus.in_progress
     && (WorkflowState.currentStep state <? WorkflowState.totalSteps state)
  then
    now <- new_Date ;;
    ret (now - WorkflowState.lastUpdate state <? 24 * 60 * 60 * 1000)
      (* Less than 24 hours old *)
  else ret false.

End WithJSON.
End Workflow.

(* ===================================================================== *)
(** * The specification's own words, for comparison with the code *)
(* ===================================================================== *)

Module Spec.

(** "map each item's status to a point value: pass=100, warning=50,
    skip=75, fail=0" *)
Definition points (st : CheckStatus) : Z :=
  match st with
  | pass => 100
  | warning => 50
  | skip => 75
  | fail => 0
  end.

Definition total_points (items : list ChecklistItem) : Z :=
  fold_right (fun i acc => points (ChecklistItem.status i) + acc) 0 items.

(** "sum, divide by item count" *)
Definition mean_points (items : list ChecklistItem) : Q :=
  (inject_Z (total_points items)
   / inject_Z (Z.of_nat (List.length items)))%Q.

(** [r] is [q] "rounded to the nearest integer", a tie going up as
    [Math.round] has it. *)
Definition nearest_integer (r : Z) (q : Q) : Prop :=
  (inject_Z r - (1 # 2) <= q /\ q < inject_Z r + (1 # 2))%Q.

(** "zero items: score = 100", otherwise the rounded mean. *)
Definition section_score (items : list ChecklistItem) : Z :=
  match items with
  | [] => 100
  | _ :: _ => Math_round (mean_points items)
  end.

Definition total_score (sections : list ChecklistSection) : Z :=
  fold_right (fun s acc => ChecklistSection.score s + acc) 0 sections.

(** "round(mean of all section scores)" *)
Definition mean_score (sections : list ChecklistSection) : Q :=
  (inject_Z (total_score sections)
   / inject_Z (Z.of_nat (List.length sections)))%Q.

(** "flattened across sections in section order, then item order" *)
Definition all_items (sections : list ChecklistSection)
    : list ChecklistItem :=
  flat_map ChecklistSection.items sections.

Definition is_critical (i : ChecklistItem) : bool :=
  CheckStatus_eqb (ChecklistItem.status i) fail
  && ChecklistItem.required i.

Definition is_warning (i : ChecklistItem) : bool :=
  CheckStatus_eqb (ChecklistItem.status i) warning.

(** [x >= k] and [x < k] for a score that is a number. *)
Definition at_least (x : number) (k : Z) : Prop :=
  exists z, x = Num z /\ k <= z.
Definition below (x : number) (k : Z) : Prop :=
  exists z, x = Num z /\ z < k.

(** "readyToLaunch = (criticalIssues.length == 0) and (overallScore >= 70)",
    with the two consequences the specification lists as testable
    properties. *)
Definition readiness_law (c : LaunchChecklist) : Prop :=
  (LaunchChecklist.readyToLaunch c = true <->
     LaunchChecklist.criticalIssues c = []
     /\ at_least (LaunchChecklist.overallScore c) 70)
  /\ ((exists i, In i (all_items (LaunchChecklist.sections c))
                 /\ ChecklistItem.required i = true
                 /\ ChecklistItem.status i = fail) ->
      LaunchChecklist.readyToLaunch c = false)
  /\ (below (LaunchChecklist.overallScore c) 70 ->
      LaunchChecklist.readyToLaunch c = false).

(** The overall score and the two issue lists, as section 4.2 defines
    them. *)
Definition aggregation_law (c : LaunchChecklist) : Prop :=
  (exists z, LaunchChecklist.overallScore c = Num z
             /\ z = Math_round (mean_score (LaunchChecklist.sections c))
             /\ nearest_integer z (mean_score (LaunchChecklist.sections c)))
  /\ LaunchChecklist.criticalIssues c
     = filter is_critical (all_items (LaunchChecklist.sections c))
  /\ LaunchChecklist.warnings c
     = filter is_warning (all_items (LaunchChecklist.sections c)).

(** "upserts the step into state.steps by id (replace if present, else
    append)" *)
Fixpoint upsert (step : WorkflowStep) (steps : list WorkflowStep)
    : list WorkflowStep :=
  match steps with
  | [] => [step]
  | s :: rest =>
      if String.eqb (WorkflowStep.id s) (WorkflowStep.id step)
      then step :: rest
      else s :: upsert step rest
  end.

(** "the count of steps whose status is terminal" *)
Definition is_terminal (s : WorkflowStep) : Prop :=
  WorkflowStep.status s = completed \/ WorkflowStep.status s = failed
  \/ WorkflowStep.status s = skipped.

Definition terminal_count (steps : list WorkflowStep) : Z :=
  Z.of_nat (List.length (filter Workflow.terminal steps)).

Definition has_failed (steps : list WorkflowStep) : Prop :=
  exists s, In s steps /\ WorkflowStep.status s = failed.

(** "prepends a new summary entry, truncates to the most recent 10
    entries" *)
Definition appended (entry : JSValue) (history : list JSValue)
    : list JSValue :=
  firstn 10 (entry :: history).

(** "24 hours", in milliseconds. *)
Definition day : Z := 24 * 60 * 60 * 1000.

End Spec.

(* ===================================================================== *)
(** * Concrete projects *)
(* ===================================================================== *)

Module Examples.

Definition root : string := "/srv/app".

Definition state_of (f : FS) : State :=
  {| fs := f;
     clock := fun n => Z.of_nat n * 1000 + 1700000000000;
     reads := 0;
     random := fun _ => "k3j9x0q2a";
     draws := 0 |}.

(** A directory with nothing in it. *)
Definition bare_fs : FS :=
  {| existsSync := fun _ => false;
     readFile := fun _ => Throw "Error: ENOENT: no such file or directory";
     glob := fun _ _ => Ok [];
     detectFramework := fun _ => static_html;
     access := fun _ => false;
     write_error := fun _ => None |}.

(** A Next.js project in which every file a check looks for is there. *)
Definition complete_fs : FS :=
  {| existsSync := fun _ => true;
     readFile := fun _ =>
       Ok "metadata description swcMinify compress headers() .env";
     glob := fun _ _ => Ok ["public/a.png"; "public/b.png"];
     detectFramework := fun _ => next_app;
     access := fun _ => true;
     write_error := fun _ => None |}.

(** A static site whose [.gitignore] is a directory: it exists, and
    reading it is rejected. *)
Definition gitignore_dir_fs : FS :=
  {| existsSync := fun p => String.eqb p (path_join root ".gitignore");
     readFile := fun _ =>
       Throw "Error: EISDIR: illegal operation on a directory, read";
     glob := fun _ _ => Ok [];
     detectFramework := fun _ => static_html;
     access := fun p => String.eqb p (path_join root ".gitignore");
     write_error := fun _ => None |}.

(** The complete project with every file unreadable. *)
Definition unreadable_fs : FS :=
  {| existsSync := fun _ => true;
     readFile := fun _ => Throw "Error: EACCES: permission denied, open";
     glob := fun _ _ => Ok ["public/a.png"; "public/b.png"];
     detectFramework := fun _ => next_app;
     access := fun _ => true;
     write_error := fun _ => None |}.

Definition bare : State := state_of bare_fs.
Definition unreadable : State := state_of unreadable_fs.
Definition complete : State := state_of complete_fs.
Definition gitignore_dir : State := state_of gitignore_dir_fs.

Definition item_of (st : CheckStatus) (required : bool) : ChecklistItem :=
  ChecklistItem.mk "check" "A check" st required None None None.

Definition four_items : list ChecklistItem :=
  [item_of pass false; item_of warning false; item_of skip false;
   item_of fail false].

(** Two sections without a critical issue whose scores average 63. *)
Definition lukewarm_sections : list ChecklistSection :=
  [Validator.section "A" [item_of warning true; item_of warning false] true;
   Validator.section "B" [item_of skip true] false].

(** The same two scores from sections of other sizes. *)
Definition lukewarm_long : list ChecklistSection :=
  [Validator.section "A" [item_of warning true; item_of warning false;
                          item_of pass false; item_of fail false] true;
   Validator.section "B" [item_of skip true; item_of skip true;
                          item_of skip true] false].

(** A perfect score next to one failed required item. *)
Definition blocked_sections : list ChecklistSection :=
  [Validator.section "A" [item_of pass true; item_of pass true;
                          item_of pass true; item_of pass true] true;
   Validator.section "B" [item_of pass true; item_of pass true;
                          item_of pass true; item_of fail true] true].

(** Image tools that find three images and shrink two of them. *)
Definition tools : Tools :=
  {| analyzeImages := fun _ => (ret {| totalImages := 3 |} : M ImageAnalysis);
     optimizeImages := fun _ _ =>
       (ret [{| savings := 600000 |}; {| savings := 500000 |}]
        : M (list ImageOptimization)) |}.

(** Image tools that find no image and cannot optimise. *)
Definition broken_tools : Tools :=
  {| analyzeImages := fun _ => (ret {| totalImages := 0 |} : M ImageAnalysis);
     optimizeImages := fun _ _ => throw "Error: Input file is missing" |}.

(** [{ skipDeploy: false }] *)
Definition deploying : WorkflowConfig :=
  WorkflowConfig.mk None None None (Some false) None None None.

Definition step_of (id : string) (st : StepStatus) : WorkflowStep :=
  WorkflowStep.mk id id "" st (Some 1699999990000)
    (if StepStatus_eqb st running then None else Some 1699999991000)
    (if StepStatus_eqb st running then None else Some 1000)
    (if StepStatus_eqb st failed then Some "Error: boom" else None)
    None.

(** A run of five steps whose first step has failed, last touched an
    hour before the first clock reading. *)
Definition interrupted : WorkflowState :=
  WorkflowState.mk "workflow-1699996400000-abcdefghi" root
    1699996300000 (1700000000000 - 60 * 60 * 1000)
    RunStatus.in_progress 1 5 [step_of "assets" failed] JNull.

(** The same run, last touched 25 hours before the first clock
    reading. *)
Definition stale : WorkflowState :=
  WorkflowState.mk "workflow-1699996400000-abcdefghi" root
    1699996300000 (1700000000000 - 25 * 60 * 60 * 1000)
    RunStatus.in_progress 1 5 [step_of "assets" failed] JNull.

(** A run of two steps with one of them done. *)
Definition halfway : WorkflowState :=
  WorkflowState.mk "workflow-1699996400000-abcdefghi" root
    1699996300000 1699999991000
    RunStatus.in_progress 1 2 [step_of "assets" completed] JNull.

(** A result to put into the history. *)
Definition a_result : WorkflowResult :=
  WorkflowResult.mk [step_of "launch-checklist" completed] true 4000 None
    None (Summary.mk 0 0 0 86 true).

(** An old history entry, as parsed from the file. *)
Definition old_entry (n : Z) : JSValue :=
  JObj [("timestamp", JStr "2023-11-14T22:13:20.000Z");
        ("duration", JNum n); ("success", JBool true)].

Definition ten_entries : list JSValue :=
  map old_entry [10; 9; 8; 7; 6; 5; 4; 3; 2; 1].

(** A toy [JSON.parse]: the text ["ten"] stands for the JSON text of
    [ten_entries], ["[]"] for the empty array; anything else is not
    JSON. *)
Definition toy_parse (text : string) : Exc JSValue :=
  if String.eqb text "ten" then Ok (JArr ten_entries)
  else if String.eqb text "[]" then Ok (JArr [])
  else Throw "SyntaxError: Unexpected token".

(** A toy [JSON.stringify] that only tells how many entries an array
    has. *)
Definition toy_stringify (v : JSValue) : string :=
  match v with
  | JArr l => show_nat (List.length l)
  | _ => "?"
  end.

(** A project whose history file holds ten entries. *)
Definition with_history_fs : FS :=
  written bare_fs (Workflow.historyPath root) "ten".

(** A project whose history file is not JSON. *)
Definition with_garbage_fs : FS :=
  written bare_fs (Workflow.historyPath root) "{oops".

(** A fresh project: nothing is there, in particular not the directory
    [.ship-toolkit]; [fs.writeFile], which creates no directory, rejects
    every write into it. *)
Definition fresh_fs : FS :=
  {| existsSync := fun _ => false;
     readFile := fun _ => Throw "Error: ENOENT: no such file or directory";
     glob := fun _ _ => Ok [];
     detectFramework := fun _ => static_html;
     access := fun _ => false;
     write_error := fun p =>
       Some (String.append "Error: ENOENT: no such file or directory, open "
                           p) |}.

Definition fresh : State := state_of fresh_fs.

End Examples.

(* ===================================================================== *)
(** * Predicates and tactics of the proofs *)
(* ===================================================================== *)

(** The Check Providers in the order [runLaunchChecklist] calls them. *)
Definition providers : list (FS -> string -> Exc ChecklistSection) :=
  [Validator.checkAssets; Validator.checkSEO; Validator.checkPerformance;
   Validator.checkSecurity; Validator.checkFunctionality;
   Validator.checkAnalytics; Validator.checkDocumentation;
   Validator.checkLegal].

(** What a list of providers yields when they are called one after the
    other: their sections, or the first exception. *)
Fixpoint gather (ps : list (FS -> string -> Exc ChecklistSection))
    (fs : FS) (projectRoot : string) : Exc (list ChecklistSection) :=
  match ps with
  | [] => Ok []
  | p :: ps' =>
      s <- p fs projectRoot ;;
      l <- gather ps' fs projectRoot ;;
      ret (s :: l)
  end.

(** What every provider returns, when it returns: a section under its own
    name whose score is [calculateSectionScore] of its items. *)
Definition provides (name : string)
    (p : FS -> string -> Exc ChecklistSection) : Prop :=
  forall f projectRoot sec,
    p f projectRoot = Ok sec ->
    ChecklistSection.name sec = name
    /\ ChecklistSection.score sec
       = Validator.calculateSectionScore (ChecklistSection.items sec).

Ltac provider_cases :=
  cbn [bind ret Monad_Exc];
  repeat match goal with
         | |- context [match ?c with Ok _ => _ | Throw _ => _ end] =>
             destruct c
         end;
  intros E; try discriminate E;
  injection E as <-; split; reflexivity.

(** The names of the sections, in the order of the calls. *)
Definition section_names : list string :=
  ["Assets & Branding"; "SEO Optimization"; "Performance"; "Security";
   "Functionality"; "Analytics & Monitoring"; "Documentation";
   "Legal & Compliance"].

(** A provider returns on the project [f]. *)
Definition returns_on (f : FS) (projectRoot : string)
    (p : FS -> string -> Exc ChecklistSection) : Prop :=
  exists sec, p f projectRoot = Ok sec.

(** The step function [f] never throws and records a step named [id]. *)
Definition records (id : string) (f : M WorkflowStep) : Prop :=
  forall s, exists step s',
    f s = (Ok step, s') /\ WorkflowStep.id step = id.

(** The status a workflow run counts as a success. *)
Definition completed_or_skipped (st : WorkflowStep) : Prop :=
  WorkflowStep.status st = completed \/ WorkflowStep.status st = skipped.

(** The identifiers of the steps that run before the launch checklist:
    those the configuration does not skip. *)
Definition early_ids (finalConfig : WorkflowConfig) : list string :=
  (if Orchestrator.truthy (WorkflowConfig.skipAssets finalConfig)
   then [] else ["assets"])
  ++ (if Orchestrator.truthy (WorkflowConfig.skipSEO finalConfig)
      then [] else ["seo"])
  ++ (if Orchestrator.truthy (WorkflowConfig.skipPerf finalConfig)
      then [] else ["performance"]).

(** The deployment step runs when the configuration asks for it and the
    checklist step left a checklist that is ready to launch. *)
Definition late_ids (finalConfig : WorkflowConfig) (checklistStep : WorkflowStep)
    : list string :=
  if negb (Orchestrator.truthy (WorkflowConfig.skipDeploy finalConfig))
     && Orchestrator.reported_ready
          (Orchestrator.as_LaunchChecklist (WorkflowStep.result checklistStep))
  then ["deployment"] else [].

(** The [catch] block of the step function [f]: when its [try] block
    [body] throws on the step object [mk startTime], [f] returns that step
    with status failed and the exception text. *)
Definition catches (f : M WorkflowStep) (mk : Z -> WorkflowStep)
    (body : WorkflowStep -> M WorkflowStep) : Prop :=
  forall s e s1,
    body (mk (clock s (reads s))) (snd (new_Date s)) = (Throw e, s1) ->
    exists step,
      f s = (Ok step, snd (new_Date s1))
      /\ WorkflowStep.id step = WorkflowStep.id (mk (clock s (reads s)))
      /\ WorkflowStep.status step = failed
      /\ WorkflowStep.error step = Some e.

(** The steps of an outcome of [runCompleteWorkflow], each with its
    status. *)
Definition recorded_steps (out : Exc WorkflowResult * State)
    : list (string * StepStatus) :=
  match fst out with
  | Ok result =>
      map (fun st => (WorkflowStep.id st, WorkflowStep.status st))
          (WorkflowResult.steps result)
  | Throw _ => []
  end.

(** The section names as claim C10 lists them. *)
Definition claimed_section_names : list string :=
  ["Assets & Branding"; "SEO"; "Performance"; "Security";
   "Functionality"; "Analytics & Monitoring"; "Documentation";
   "Legal & Compliance"].

(** The step [st] is what a call of the step function [f] returned. *)
Definition produced_by (f : M WorkflowStep) (st : WorkflowStep) : Prop :=
  exists s0 s1, f s0 = (Ok st, s1).

(** The project has no directory [.ship-toolkit]: the history file is not
    there either, and [fs.writeFile], which creates no directory, rejects
    the write of the history file with [e] (an [ENOENT]). *)
Definition no_state_directory (f : FS) (projectRoot e : string) : Prop :=
  existsSync f (path_join projectRoot Workflow.STATE_DIR) = false
  /\ existsSync f (Workflow.historyPath projectRoot) = false
  /\ write_error f (Workflow.historyPath projectRoot) = Some e.

(** The history file holds no list that can be read: it is missing, cannot
    be read, or is not JSON. *)
Definition no_history (JSON_parse : string -> Exc JSValue) (f : FS)
    (projectRoot : string) : Prop :=
  existsSync f (Workflow.historyPath projectRoot) = false
  \/ (exists e, readFile f (Workflow.historyPath projectRoot) = Throw e)
  \/ (exists content e,
        readFile f (Workflow.historyPath projectRoot) = Ok content
        /\ JSON_parse content = Throw e).

(* ===================================================================== *)
(** * launch/validator.ts, continued *)
(* ===================================================================== *)

(** [getQuickStatus]'s result. *)
Record QuickStatus : Type := {
  ready : bool;
  quick_score : number;       (* [score] *)
  missing : list string
}.

(** [getQuickStatus] *)
Definition getQuickStatus (projectRoot : string) : M QuickStatus :=
  checklist <- Validator.runLaunchChecklist projectRoot ;;
  let missing :=
    map ChecklistItem.name (LaunchChecklist.criticalIssues checklist) in
  ret {| ready := LaunchChecklist.readyToLaunch checklist;
         quick_score := LaunchChecklist.overallScore checklist;
         missing := missing |}.

(* ===================================================================== *)
(** * What the providers look at *)
(* ===================================================================== *)

(** The conditions the Check Providers compute from the project, under the
    names the source gives them.  A rejected [glob] or [readFile] has no
    value here; the provider throws before it uses one. *)
Module Observed.

Definition found (f : FS) (pattern projectRoot : string) : nat :=
  match glob f pattern projectRoot with
  | Ok l => List.length l
  | Throw _ => O
  end.

Definition contains (f : FS) (path : string) (words : list string) : bool :=
  match readFile f path with
  | Ok content => forallb (includes content) words
  | Throw _ => false
  end.

Definition faviconExists f projectRoot : bool :=
  existsSync f (path_join projectRoot "public/favicon.ico").
Definition ogImages f projectRoot : bool :=
  (0 <? found f "public/*og-image*.{png,jpg}" projectRoot)%nat.
Definition twitterImages f projectRoot : bool :=
  (0 <? found f "public/*twitter*.{png,jpg}" projectRoot)%nat.
Definition pwaIcons f projectRoot : bool :=
  (2 <=? found f "public/android-chrome-*.png" projectRoot)%nat.
Definition manifestExists f projectRoot : bool :=
  existsSync f (path_join projectRoot "public/manifest.json").

Definition sitemapExists f projectRoot : bool :=
  if Framework_eqb (detectFramework f projectRoot) next_app
  then existsSync f (path_join projectRoot "app/sitemap.ts")
       || existsSync f (path_join projectRoot "app/sitemap.js")
  else existsSync f (path_join projectRoot "public/sitemap.xml").
Definition robotsExists f projectRoot : bool :=
  existsSync f (path_join projectRoot "public/robots.txt").
Definition hasMetaTags f projectRoot : bool :=
  Framework_eqb (detectFramework f projectRoot) next_app
  && existsSync f (path_join projectRoot "app/layout.tsx")
  && contains f (path_join projectRoot "app/layout.tsx")
       ["metadata"; "description"].

Definition buildExists f projectRoot : bool :=
  existsSync f (path_join projectRoot ".next")
  || existsSync f (path_join projectRoot "dist")
  || existsSync f (path_join projectRoot "build").
Definition webpImages f projectRoot : bool :=
  (0 <? found f "public/**/*.webp" projectRoot)%nat.
Definition isNext f projectRoot : bool :=
  Validator.is_next (detectFramework f projectRoot).
Definition configOptimized f projectRoot : bool :=
  existsSync f (path_join projectRoot "next.config.js")
  && contains f (path_join projectRoot "next.config.js")
       ["swcMinify"; "compress"].

Definition envIgnored f projectRoot : bool :=
  existsSync f (path_join projectRoot ".gitignore")
  && contains f (path_join projectRoot ".gitignore") [".env"].
Definition hasSecurityHeaders f projectRoot : bool :=
  isNext f projectRoot
  && existsSync f (path_join projectRoot "next.config.js")
  && contains f (path_join projectRoot "next.config.js") ["headers()"].

Definition has404 f projectRoot : bool :=
  if Framework_eqb (detectFramework f projectRoot) next_app
  then existsSync f (path_join projectRoot "app/not-found.tsx")
       || existsSync f (path_join projectRoot "app/not-found.jsx")
  else if Framework_eqb (detectFramework f projectRoot) next_pages
  then existsSync f (path_join projectRoot "pages/404.tsx")
       || existsSync f (path_join projectRoot "pages/404.jsx")
  else false.

Definition readmeExists f projectRoot : bool :=
  existsSync f (path_join projectRoot "README.md").
Definition changelogExists f projectRoot : bool :=
  existsSync f (path_join projectRoot "CHANGELOG.md").

(** The four checks whose failure is a critical issue. *)
Definition required_files f projectRoot : bool :=
  faviconExists f projectRoot && ogImages f projectRoot
  && sitemapExists f projectRoot && robotsExists f projectRoot.

End Observed.

(** An item reduced to its identifier, status and [required] flag. *)
Definition brief (i : ChecklistItem) : string * CheckStatus * bool :=
  (ChecklistItem.id i, ChecklistItem.status i, ChecklistItem.required i).

Definition pass_or (other : CheckStatus) (b : bool) : CheckStatus :=
  if b then pass else other.

(** The items of each section, in brief, as functions of what the provider
    observed. *)
Module Expected.

Definition assets (favicon og twitter pwa manifest : bool) :=
  [("favicon", pass_or fail favicon, true);
   ("og-images", pass_or fail og, true);
   ("twitter-cards", pass_or warning twitter, false);
   ("pwa-icons", pass_or warning pwa, false);
   ("manifest", pass_or warning manifest, false)].

Definition seo (sitemap robots meta : bool) :=
  [("sitemap", pass_or fail sitemap, true);
   ("robots", pass_or fail robots, true);
   ("meta-tags", pass_or warning meta, true);
   ("structured-data", skip, false);
   ("search-console", skip, false)].

Definition performance (build webp next config : bool) :=
  [("build-output", pass_or warning build, true);
   ("optimized-images", pass_or warning webp, false)]
  ++ (if next then [("config-optimized", pass_or warning config, false)]
      else [])
  ++ [("lighthouse-score", skip, false);
      ("core-web-vitals", skip, false)].

Definition security (env headers : bool) :=
  [("env-gitignore", pass_or warning env, true);
   ("security-headers", pass_or warning headers, false);
   ("dependencies", skip, false);
   ("no-secrets", skip, true);
   ("https", skip, true)].

Definition functionality (notFound : bool) :=
  [("404-page", pass_or warning notFound, false);
   ("error-handling", skip, false);
   ("forms", skip, false);
   ("links", skip, false);
   ("mobile-responsive", skip, false)].

Definition analytics : list (string * CheckStatus * bool) :=
  [("analytics", skip, false);
   ("error-tracking", skip, false);
   ("performance-monitoring", skip, false)].

Definition documentation (readme changelog : bool) :=
  [("readme", pass_or warning readme, false);
   ("changelog", pass_or skip changelog, false);
   ("api-docs", skip, false)].

Definition legal : list (string * CheckStatus * bool) :=
  [("privacy-policy", skip, false);
   ("terms", skip, false);
   ("cookies", skip, false)].

End Expected.

(** The score of a section computed from the statuses alone. *)
Definition score_of (statuses : list CheckStatus) : Z :=
  Validator.calculateSectionScore
    (map (fun st => ChecklistItem.mk "" "" st false None None None) statuses).

Definition status_of (b : string * CheckStatus * bool) : CheckStatus :=
  snd (fst b).

(** The identifiers of the items in brief that are critical issues. *)
Definition critical_ids (l : list (string * CheckStatus * bool))
    : list string :=
  map (fun b => fst (fst b))
      (filter (fun b => CheckStatus_eqb (status_of b) fail && snd b) l).

(** The lowest and the highest score each section can get, in the order of
    the sections. *)
Definition section_score_ranges : list (Z * Z) :=
  [(30, 100); (40, 90); (60, 90); (65, 85); (70, 80); (75, 75); (67, 92);
   (75, 75)].

Definition within (sec : ChecklistSection) (range : Z * Z) : Prop :=
  fst range <= ChecklistSection.score sec <= snd range.

(** The identifiers of the critical issues a project has: those of the
    required files that are not found. *)
Definition missing_ids (f : FS) (projectRoot : string) : list string :=
  (if Observed.faviconExists f projectRoot then [] else ["favicon"])
  ++ (if Observed.ogImages f projectRoot then [] else ["og-images"])
  ++ (if Observed.sitemapExists f projectRoot then [] else ["sitemap"])
  ++ (if Observed.robotsExists f projectRoot then [] else ["robots"]).

Module MoreExamples.

(** An empty Next.js project (App Router). *)
Definition bare_next_fs : FS :=
  {| existsSync := fun _ => false;
     readFile := fun _ => Throw "Error: ENOENT: no such file or directory";
     glob := fun _ _ => Ok [];
     detectFramework := fun _ => next_app;
     access := fun _ => false;
     write_error := fun _ => None |}.

Definition bare_next : State := Examples.state_of bare_next_fs.

(** A static site that has the four required files and nothing else. *)
Definition minimal_fs : FS :=
  {| existsSync := fun p =>
       String.eqb p "/srv/app/public/favicon.ico"
       || String.eqb p "/srv/app/public/sitemap.xml"
       || String.eqb p "/srv/app/public/robots.txt";
     readFile := fun _ => Throw "Error: ENOENT: no such file or directory";
     glob := fun pattern _ =>
       if String.eqb pattern "public/*og-image*.{png,jpg}"
       then Ok ["public/og-image.png"] else Ok [];
     detectFramework := fun _ => static_html;
     access := fun _ => false;
     write_error := fun _ => None |}.

Definition minimal : State := Examples.state_of minimal_fs.

(** A static site in which every file looked for is there. *)
Definition static_all_fs : FS :=
  {| existsSync := fun _ => true;
     readFile := fun _ => Ok ".env";
     glob := fun _ _ => Ok ["public/a.png"; "public/b.png"];
     detectFramework := fun _ => static_html;
     access := fun _ => true;
     write_error := fun _ => None |}.

End MoreExamples.

(** The exception [e] is a rejection of [glob] in the project, or of
    [readFile] on a file that exists. *)
Definition rejected (f : FS) (projectRoot e : string) : Prop :=
  (exists pattern, glob f pattern projectRoot = Throw e)
  \/ (exists path, existsSync f path = true /\ readFile f path = Throw e).

(** No [glob] in the project and no [readFile] of a file that exists is
    rejected. *)
Definition readable (f : FS) (projectRoot : string) : Prop :=
  (forall pattern, exists l, glob f pattern projectRoot = Ok l)
  /\ (forall path, existsSync f path = true ->
                   exists content, readFile f path = Ok content).

(** No string occurs twice in the list. *)
Fixpoint distinct (l : list string) : bool :=
  match l with
  | [] => true
  | x :: l' => negb (existsb (String.eqb x) l') && distinct l'
  end.

(** The identifiers of the items of a checklist, in order; a Next.js
    project has one item more. *)
Definition item_ids (next : bool) : list string :=
  ["favicon"; "og-images"; "twitter-cards"; "pwa-icons"; "manifest";
   "sitemap"; "robots"; "meta-tags"; "structured-data"; "search-console";
   "build-output"; "optimized-images"]
  ++ (if next then ["config-optimized"] else [])
  ++ ["lighthouse-score"; "core-web-vitals";
      "env-gitignore"; "security-headers"; "dependencies"; "no-secrets";
      "https";
      "404-page"; "error-handling"; "forms"; "links"; "mobile-responsive";
      "analytics"; "error-tracking"; "performance-monitoring";
      "readme"; "changelog"; "api-docs";
      "privacy-policy"; "terms"; "cookies"].

(* ===================================================================== *)
(** * orchestrator.ts, continued *)
(* ===================================================================== *)

(** [quickComplete] *)
Definition quickComplete (tools : Tools) (projectRoot : string) : M bool :=
  result <- Orchestrator.runCompleteWorkflow tools projectRoot
              (WorkflowConfig.mk None None None (Some true) (Some true)
                                 None None) ;;
  ret (Summary.readyToLaunch (WorkflowResult.summary result)).

(** A step as a step function leaves it: in a terminal state, with its
    start, its end and the time between them, with an error exactly when it
    failed and a result exactly when it did not. *)
Definition settled (st : WorkflowStep) : Prop :=
  (WorkflowStep.status st = completed \/ WorkflowStep.status st = failed
   \/ WorkflowStep.status st = skipped)
  /\ (exists a b,
        WorkflowStep.startTime st = Some a
        /\ WorkflowStep.endTime st = Some b
        /\ WorkflowStep.duration st = Some (b - a))
  /\ (WorkflowStep.status st = failed <->
      exists e, WorkflowStep.error st = Some e)
  /\ (WorkflowStep.status st = failed <-> WorkflowStep.result st = None).

(** The five step functions of a run. *)
Definition step_functions (tools : Tools) (projectRoot : string)
    (config : WorkflowConfig) (production : bool) : list (M WorkflowStep) :=
  [Orchestrator.runAssetGeneration tools projectRoot;
   Orchestrator.runSEOOptimization projectRoot;
   Orchestrator.runPerformanceOptimization tools projectRoot config;
   Orchestrator.runLaunchChecklistValidation projectRoot;
   Orchestrator.runDeployment projectRoot production].

(** The address [runDeployment] puts into its result. *)
Definition placeholder_url : string := "https://your-app.vercel.app".

(** The number of SEO files [runSEOOptimization] finds: the sitemap (the
    App Router's [app/sitemap.ts], or [public/sitemap.xml]), [robots.txt],
    [manifest.json] and, for the App Router only, [app/layout.tsx]. *)
Definition seo_items_found (f : FS) (projectRoot : string) : Z :=
  let app := Framework_eqb (detectFramework f projectRoot) next_app in
  Z.b2z (access f (path_join projectRoot
                     (if app then "app/sitemap.ts" else "public/sitemap.xml")))
  + Z.b2z (access f (path_join projectRoot "public/robots.txt"))
  + Z.b2z (access f (path_join projectRoot "public/manifest.json"))
  + (if app then Z.b2z (access f (path_join projectRoot "app/layout.tsx"))
     else 0).

(** The options [runPerformanceOptimization] passes to [optimizeImages]. *)
Definition performance_options : OptimizationOptions :=
  {| quality := Some 85; format := Some webp; removeExif := Some true |}.

(** The configuration [quickComplete] passes:
    [{ skipDeploy: true, autoFix: true }]. *)
Definition quick_config : WorkflowConfig :=
  WorkflowConfig.mk None None None (Some true) (Some true) None None.

(** The result [r] is one the step function of the step [id] builds. *)
Definition fits (id : string) (r : option StepResult) : Prop :=
  match r with
  | None => True
  | Some (AssetsOptimized _ _) | Some AssetsMissing => id = "assets"
  | Some (SEOChecked _ _ _) => id = "seo"
  | Some (PerfOptimized _ _ _) => id = "performance"
  | Some (Checklist _) => id = "launch-checklist"
  | Some (Deployment _ _) => id = "deployment"
  end.

(** The result of the step [id] among the recorded steps, if that step was
    run and left one. *)
Definition result_of (id : string) (steps : list WorkflowStep)
    : option StepResult :=
  match find (fun st => String.eqb (WorkflowStep.id st) id) steps with
  | Some st => WorkflowStep.result st
  | None => None
  end.

(* ===================================================================== *)
(** * workflow.ts, continued *)
(* ===================================================================== *)

Section MoreWorkflow.

Variable JSON_parse : string -> Exc JSValue.

(** [loadHistory] *)
Definition loadHistory (projectRoot : string) : M JSValue :=
  let historyPath := Workflow.historyPath projectRoot in
  exists_ <- snapshot (fun fs => Ok (existsSync fs historyPath)) ;;
  if negb exists_ then ret (JArr [])
  else
    r <- try (
      content <- snapshot (fun fs => readFile fs historyPath) ;;
      snapshot (fun _ => JSON_parse content)) ;;
    match r with
    | Ok history => ret history
    | Throw _ => ret (JArr [])
    end.

End MoreWorkflow.

(** [getNextStep] *)
Definition getNextStep (state : WorkflowState) : Z :=
  WorkflowState.currentStep state.

(** [Number.MAX_SAFE_INTEGER]: up to it every whole number is a double. *)
Definition MAX_SAFE_INTEGER : Z := 2 ^ 53 - 1.

(** [formatDuration], for [ms] a whole number of milliseconds that is a
    safe integer.  There the doubles of the source compute exactly:
    [Math.floor] of each quotient is [Z.div] (the quotient of a safe integer
    by 1000 is rounded by less than the 1/1000 that separates it from the
    next whole number), the remainder [%] is [Z.rem], and the numbers print
    in plain decimal.  Beyond the safe integers the source rounds and prints
    exponents; the model gives no value there ([None]). *)
Definition formatDuration (ms : Z) : option string :=
  if Z.abs ms <=? MAX_SAFE_INTEGER then
    let seconds := ms / 1000 in
    let minutes := seconds / 60 in
    let hours := minutes / 60 in
    if 0 <? hours then
      Some (show_Z hours ++ "h " ++ show_Z (Z.rem minutes 60) ++ "m "
              ++ show_Z (Z.rem seconds 60) ++ "s")%string
    else if 0 <? minutes then
      Some (show_Z minutes ++ "m " ++ show_Z (Z.rem seconds 60) ++ "s")%string
    else
      Some (show_Z seconds ++ "s")%string
  else None.

(** The steps of a state have identifiers that differ from one another, and
    [currentStep] counts no more steps than there are. *)
Definition well_formed (state : WorkflowState) : Prop :=
  NoDup (map WorkflowStep.id (WorkflowState.steps state))
  /\ 0 <= WorkflowState.currentStep state
       <= Z.of_nat (List.length (WorkflowState.steps state)).

(** A toy [JSON.parse] that reads the text of a number of entries as that
    many entries, up to ten. *)
Definition tally_parse (text : string) : Exc JSValue :=
  if String.eqb text "10" then Ok (JArr Examples.ten_entries)
  else Examples.toy_parse text.

(* ===================================================================== *)
(** * launch/reporter.ts *)
(* ===================================================================== *)

(** [[...new Set(l)]]: the elements of [l] without repetition, each at its
    first place. *)
Fixpoint unique_after (seen l : list string) : list string :=
  match l with
  | [] => []
  | x :: l' =>
      if existsb (String.eqb x) seen then unique_after seen l'
      else x :: unique_after (x :: seen) l'
  end.

Definition unique (l : list string) : list string := unique_after [] l.

(** [i.automated && i.fix] as a condition. *)
Definition has_automated_fix (i : ChecklistItem) : bool :=
  match ChecklistItem.automated i, ChecklistItem.fix_ i with
  | Some true, Some f => negb (String.eqb f "")
  | _, _ => false
  end.

(** [i.fix!] *)
Definition the_fix (i : ChecklistItem) : string :=
  match ChecklistItem.fix_ i with Some f => f | None => "" end.

(** [steps.forEach((step, index) => logger.info(`${index + 1}. ${step}`))]:
    the lines logged. *)
Fixpoint numbered_from (index : nat) (steps : list string) : list string :=
  match steps with
  | [] => []
  | step :: rest =>
      (show_nat (index + 1) ++ ". " ++ step)%string
      :: numbered_from (S index) rest
  end.

(** [displayNextSteps], as the numbered lines it logs; the heading before
    them and the tip after them are the same for every checklist and are
    left out. *)
Definition displayNextSteps (checklist : LaunchChecklist) : list string :=
  let steps := [] in
  (* Add steps based on status *)
  let steps :=
    if (0 <? List.length (LaunchChecklist.criticalIssues checklist))%nat then
      let steps := push steps "Fix critical issues listed above" in
      (* Add automated fixes *)
      let automatedFixes :=
        map the_fix
            (filter has_automated_fix
                    (LaunchChecklist.criticalIssues checklist)) in
      let uniqueFixes := unique automatedFixes in
      if (0 <? List.length uniqueFixes)%nat then
        push steps
          ("Run automated fixes: " ++ String.concat ", " uniqueFixes)%string
      else steps
    else steps in
  let steps :=
    if (0 <? List.length (LaunchChecklist.warnings checklist))%nat
    then push steps "Review and address warnings"
    else steps in
  let steps :=
    if LaunchChecklist.readyToLaunch checklist then
      push (push (push steps "Deploy to production: /ship-deploy")
                 "Share your launch: /ship-export")
           "Monitor analytics and errors"
    else push steps "Run /ship-launch again after fixes" in
  numbered_from 0 steps.

(** The commands that make the required files that are not found. *)
Definition fixes_needed (f : FS) (projectRoot : string) : list string :=
  (if Observed.faviconExists f projectRoot && Observed.ogImages f projectRoot
   then [] else ["Run /ship-assets"])
  ++ (if Observed.sitemapExists f projectRoot
         && Observed.robotsExists f projectRoot
      then [] else ["Run /ship-seo"]).

(** What [displayNextSteps] has to say, by what the project has. *)
Definition advice (f : FS) (projectRoot : string) (warned : bool)
    : list string :=
  (if Observed.required_files f projectRoot then []
   else ["Fix critical issues listed above";
         ("Run automated fixes: "
            ++ String.concat ", " (fixes_needed f projectRoot))%string])
  ++ (if warned then ["Review and address warnings"] else [])
  ++ (if Observed.required_files f projectRoot
      then ["Deploy to production: /ship-deploy";
            "Share your launch: /ship-export";
            "Monitor analytics and errors"]
      else ["Run /ship-launch again after fixes"]).

(** The [fix] and [automated] fields of an item. *)
Definition remedy (i : ChecklistItem) : option string * option bool :=
  (ChecklistItem.fix_ i, ChecklistItem.automated i).
(* ===================================================================== *)
(** * Properties of the Section Aggregator *)
(* ===================================================================== *)

(** An outcome is the pair of its two components. *)
Lemma outcome_eq {A} (o : Exc A * State) (r : Exc A) :
  fst o = r -> o = (r, snd o).
Proof. destruct o as [r' s]. cbn. now intros ->. Qed.

Lemma Math_round_nearest (q : Q) : Spec.nearest_integer (Math_round q) q.
Proof.
  unfold Spec.nearest_integer, Math_round.
  pose proof (Qfloor_le (q + (1 # 2))) as Hl.
  pose proof (Qlt_floor (q + (1 # 2))) as Hu.
  rewrite inject_Z_plus in Hu.
  change (inject_Z 1) with 1%Q in Hu.
  split; lra.
Qed.

(** An integer that is nearest to [q] in the sense above is the one
    [Math.round] returns. *)
Lemma nearest_integer_unique (r : Z) (q : Q) :
  Spec.nearest_integer r q -> r = Math_round q.
Proof.
  unfold Spec.nearest_integer, Math_round. intros [Hl Hu].
  symmetry. apply Zle_antisym.
  - apply Z.lt_succ_r. rewrite Zlt_Qlt.
    eapply Qle_lt_trans; [apply Qfloor_le|].
    unfold Z.succ. rewrite inject_Z_plus. change (inject_Z 1) with 1%Q.
    generalize dependent (inject_Z r). intros; lra.
  - assert (Hl' : (inject_Z r <= q + (1 # 2))%Q).
    { generalize dependent (inject_Z r). intros; lra. }
    apply Qfloor_resp_le in Hl'. now rewrite Qfloor_Z in Hl'.
Qed.

Lemma count_cons (st : CheckStatus) (i : ChecklistItem) items :
  Validator.count st (i :: items)
  = (if CheckStatus_eqb (ChecklistItem.status i) st then 1 else 0)
    + Validator.count st items.
Proof.
  unfold Validator.count. cbn [filter].
  destruct (CheckStatus_eqb (ChecklistItem.status i) st); cbn [List.length]; lia.
Qed.

(** The three [filter(...).length] counts, weighted, are the sum of the
    per-item point values. *)
Lemma weighted_counts_total_points (items : list ChecklistItem) :
  Validator.count pass items * 100 + Validator.count warning items * 50
  + Validator.count skip items * 75
  = Spec.total_points items.
Proof.
  induction items as [|i items IH]; [reflexivity|].
  rewrite !count_cons. cbn [Spec.total_points fold_right].
  fold (Spec.total_points items). rewrite <- IH.
  destruct (ChecklistItem.status i); cbn [CheckStatus_eqb Spec.points]; lia.
Qed.

Lemma calculateSectionScore_spec (items : list ChecklistItem) :
  Validator.calculateSectionScore items = Spec.section_score items.
Proof.
  unfold Validator.calculateSectionScore, Spec.section_score, Spec.mean_points.
  destruct items as [|i items]; [reflexivity|].
  cbn [List.length Nat.eqb].
  now rewrite weighted_counts_total_points.
Qed.

(** C1.  For every list of checklist items, [calculateSectionScore]
    returns the rounded mean of the per-item point values (pass = 100,
    warning = 50, skip = 75, fail = 0): it agrees with the specification's
    formula, and for a non-empty list its result is the integer nearest to
    the mean.  The empty list yields exactly 100, and any four items with
    statuses pass, warning, skip, fail yield exactly 56. *)
Theorem C1_calculateSectionScore_rounded_mean :
  (forall items,
     Validator.calculateSectionScore items = Spec.section_score items)
  /\ (forall items, items <> [] ->
        Spec.nearest_integer (Validator.calculateSectionScore items)
                             (Spec.mean_points items))
  /\ Validator.calculateSectionScore [] = 100
  /\ (forall items,
        map ChecklistItem.status items = [pass; warning; skip; fail] ->
        Validator.calculateSectionScore items = 56).
Proof.
  split; [exact calculateSectionScore_spec|].
  split.
  - intros items Hne. rewrite calculateSectionScore_spec.
    destruct items as [|i items]; [congruence|].
    apply Math_round_nearest.
  - split; [reflexivity|].
    intros items Hst.
    destruct items as [|i1 [|i2 [|i3 [|i4 [|i5 rest]]]]]; try discriminate.
    injection Hst as H1 H2 H3 H4.
    rewrite calculateSectionScore_spec.
    unfold Spec.section_score, Spec.mean_points, Spec.total_points.
    cbn [fold_right List.length]. rewrite H1, H2, H3, H4.
    reflexivity.
Qed.

(** Witness of C1 on the four items of the specification's example. *)
Lemma C1_witness :
  Examples.four_items <> []
  /\ Spec.nearest_integer
       (Validator.calculateSectionScore Examples.four_items)
       (Spec.mean_points Examples.four_items)
  /\ Validator.calculateSectionScore Examples.four_items = 56.
Proof.
  split; [discriminate|]. split.
  - apply (proj1 (proj2 C1_calculateSectionScore_rounded_mean)). discriminate.
  - apply (proj2 (proj2 (proj2 C1_calculateSectionScore_rounded_mean))).
    reflexivity.
Defined.

(* ===================================================================== *)
(** * Properties of the Readiness Evaluator *)
(* ===================================================================== *)

Lemma fold_collect_item (items c w : list ChecklistItem) :
  fold_left Validator.collect_item items (c, w)
  = (c ++ filter Spec.is_critical items, w ++ filter Spec.is_warning items).
Proof.
  revert c w. induction items as [|i items IH]; intros c w; cbn [fold_left filter].
  - now rewrite !app_nil_r.
  - unfold Validator.collect_item at 2, Spec.is_critical, Spec.is_warning, push.
    destruct (ChecklistItem.status i), (ChecklistItem.required i);
      cbn [CheckStatus_eqb andb]; rewrite IH;
      unfold Spec.is_critical, Spec.is_warning;
      now rewrite <- ?app_assoc.
Qed.

Lemma fold_collect (sections : list ChecklistSection) (c w : list ChecklistItem) :
  fold_left
    (fun acc section =>
       fold_left Validator.collect_item (ChecklistSection.items section) acc)
    sections (c, w)
  = (c ++ filter Spec.is_critical (Spec.all_items sections),
     w ++ filter Spec.is_warning (Spec.all_items sections)).
Proof.
  revert c w. induction sections as [|s sections IH]; intros c w.
  - cbn. now rewrite !app_nil_r.
  - cbn [fold_left Spec.all_items flat_map].
    rewrite fold_collect_item, IH.
    fold (Spec.all_items sections).
    now rewrite !filter_app, !app_assoc.
Qed.

Lemma collect_spec (sections : list ChecklistSection) :
  Validator.collect sections
  = (filter Spec.is_critical (Spec.all_items sections),
     filter Spec.is_warning (Spec.all_items sections)).
Proof. unfold Validator.collect. now rewrite fold_collect. Qed.

Lemma fold_total_score (sections : list ChecklistSection) (a : Z) :
  fold_left (fun sum s => sum + ChecklistSection.score s) sections a
  = a + Spec.total_score sections.
Proof.
  revert a. induction sections as [|s sections IH]; intros a; cbn.
  - lia.
  - rewrite IH. fold (Spec.total_score sections). lia.
Qed.

(** [evaluate], field by field. *)
Lemma evaluate_fields (sections : list ChecklistSection) (now : Z) :
  Validator.evaluate sections now
  = let overallScore :=
      match sections with
      | [] => NaN
      | _ :: _ => Num (Math_round (Spec.mean_score sections))
      end in
    let criticalIssues := filter Spec.is_critical (Spec.all_items sections) in
    LaunchChecklist.mk sections overallScore
      ((List.length criticalIssues =? 0)%nat && number_geb overallScore 70)
      criticalIssues
      (filter Spec.is_warning (Spec.all_items sections))
      now.
Proof.
  unfold Validator.evaluate. rewrite collect_spec, fold_total_score.
  destruct sections; reflexivity.
Qed.

(** The state after one reading of the clock. *)
Lemma new_Date_run (s : State) :
  new_Date s = (Ok (clock s (reads s)), snd (new_Date s)).
Proof. reflexivity. Qed.

(** [runLaunchChecklist] calls the eight providers in order on the project
    as it is, stops at the first exception, and otherwise evaluates the
    eight sections at the time of the next clock reading. *)
Lemma runLaunchChecklist_gather (projectRoot : string) (s : State) :
  Validator.runLaunchChecklist projectRoot s
  = match gather providers (fs s) projectRoot with
    | Ok sections =>
        (Ok (Validator.evaluate sections (clock s (reads s))),
         snd (new_Date s))
    | Throw e => (Throw e, s)
    end.
Proof.
  unfold Validator.runLaunchChecklist, providers, gather,
    snapshot.
  cbn [bind ret Monad_M Monad_Exc].
  destruct (Validator.checkAssets (fs s) projectRoot); [|reflexivity].
  destruct (Validator.checkSEO (fs s) projectRoot); [|reflexivity].
  destruct (Validator.checkPerformance (fs s) projectRoot); [|reflexivity].
  destruct (Validator.checkSecurity (fs s) projectRoot); [|reflexivity].
  destruct (Validator.checkFunctionality (fs s) projectRoot); [|reflexivity].
  destruct (Validator.checkAnalytics (fs s) projectRoot); [|reflexivity].
  destruct (Validator.checkDocumentation (fs s) projectRoot); [|reflexivity].
  destruct (Validator.checkLegal (fs s) projectRoot); reflexivity.
Qed.

Lemma gather_length ps f projectRoot sections :
  gather ps f projectRoot = Ok sections ->
  List.length sections = List.length ps.
Proof.
  revert sections. induction ps as [|p ps IH]; intros sections; cbn.
  - intros [= <-]. reflexivity.
  - destruct (p f projectRoot); [|discriminate].
    destruct (gather ps f projectRoot); [|discriminate].
    intros [= <-]. cbn. f_equal. now apply IH.
Qed.

(** A checklist that [runLaunchChecklist] returns is the evaluation of
    eight sections. *)
Lemma runLaunchChecklist_returns projectRoot s c s' :
  Validator.runLaunchChecklist projectRoot s = (Ok c, s') ->
  exists sections,
    gather providers (fs s) projectRoot = Ok sections
    /\ List.length sections = 8%nat
    /\ c = Validator.evaluate sections (clock s (reads s)).
Proof.
  rewrite runLaunchChecklist_gather.
  destruct (gather providers (fs s) projectRoot)
    as [sections|e] eqn:G; [|discriminate].
  intros [= <- _]. exists sections. split; [reflexivity|].
  split; [|reflexivity]. now apply gather_length in G.
Qed.

Lemma evaluate_readiness_law sections now :
  Spec.readiness_law (Validator.evaluate sections now).
Proof.
  rewrite evaluate_fields. unfold Spec.readiness_law. cbv zeta;
    cbn [LaunchChecklist.readyToLaunch LaunchChecklist.criticalIssues
         LaunchChecklist.overallScore LaunchChecklist.sections
         LaunchChecklist.warnings].
  set (crit := filter Spec.is_critical (Spec.all_items sections)).
  set (overall := match sections with
                  | [] => NaN
                  | _ :: _ => Num (Math_round (Spec.mean_score sections))
                  end).
  assert (Hlen : (List.length crit =? 0)%nat = true <-> crit = []).
  { rewrite Nat.eqb_eq. destruct crit; cbn; split; congruence. }
  assert (Hge : number_geb overall 70 = true <-> Spec.at_least overall 70).
  { unfold Spec.at_least. destruct overall as [z|]; cbn.
    - rewrite Z.leb_le. split.
      + intros H. now exists z.
      + intros (z' & [= <-] & H). exact H.
    - split; [discriminate|]. intros (z & E & _). discriminate. }
  split; [|split].
  - now rewrite andb_true_iff, Hlen, Hge.
  - intros (i & Hin & Hreq & Hst).
    assert (Hc : In i crit).
    { apply filter_In. split; [exact Hin|].
      unfold Spec.is_critical. now rewrite Hst, Hreq. }
    destruct crit; [contradiction|]. reflexivity.
  - intros (z & E & Hlt). rewrite E. cbn [number_geb].
    apply andb_false_intro2. now apply Z.leb_gt.
Qed.

Lemma evaluate_aggregation_law sections now :
  sections <> [] ->
  Spec.aggregation_law (Validator.evaluate sections now).
Proof.
  intros Hne. rewrite evaluate_fields. unfold Spec.aggregation_law. cbv zeta;
    cbn [LaunchChecklist.readyToLaunch LaunchChecklist.criticalIssues
         LaunchChecklist.overallScore LaunchChecklist.sections
         LaunchChecklist.warnings].
  destruct sections as [|s0 sections]; [congruence|].
  split; [|split; reflexivity].
  eexists. split; [reflexivity|]. split; [reflexivity|].
  apply Math_round_nearest.
Qed.

(** C2.  A checklist is ready to launch if and only if it has no critical
    issue and its overall score is at least 70.  So it is not ready whenever
    some required item has failed, whatever the score, and not ready
    whenever the score is below 70, even without a critical issue.  This
    holds of the evaluation of any list of sections, and so of every
    checklist [runLaunchChecklist] returns. *)
Theorem C2_readyToLaunch_iff_no_critical_and_score_70 :
  (forall sections now,
     Spec.readiness_law (Validator.evaluate sections now))
  /\ (forall projectRoot s c s',
        Validator.runLaunchChecklist projectRoot s = (Ok c, s') ->
        Spec.readiness_law c).
Proof.
  split; [exact evaluate_readiness_law|].
  intros projectRoot s c s' Hrun.
  destruct (runLaunchChecklist_returns _ _ _ _ Hrun) as (sections & _ & _ & ->).
  apply evaluate_readiness_law.
Qed.

(** C3.  The overall score is the rounded plain mean of the section
    scores, whatever the number of items in each section (two lists of
    sections with the same scores get the same overall score);
    [criticalIssues] is the list of the items that failed and are required,
    and [warnings] the list of the items with status warning, both in
    section order and then item order.  This holds of the evaluation of any
    non-empty list of sections, and so of every checklist
    [runLaunchChecklist] returns. *)
Theorem C3_overall_score_and_issue_lists :
  (forall sections now, sections <> [] ->
     Spec.aggregation_law (Validator.evaluate sections now))
  /\ (forall sections sections' now now',
        map ChecklistSection.score sections
        = map ChecklistSection.score sections' ->
        LaunchChecklist.overallScore (Validator.evaluate sections now)
        = LaunchChecklist.overallScore (Validator.evaluate sections' now'))
  /\ (forall projectRoot s c s',
        Validator.runLaunchChecklist projectRoot s = (Ok c, s') ->
        Spec.aggregation_law c).
Proof.
  split; [exact evaluate_aggregation_law|]. split.
  - intros sections sections' now now' Hsc.
    rewrite !evaluate_fields. cbv zeta;
    cbn [LaunchChecklist.readyToLaunch LaunchChecklist.criticalIssues
         LaunchChecklist.overallScore LaunchChecklist.sections
         LaunchChecklist.warnings].
    assert (Hmean : Spec.mean_score sections = Spec.mean_score sections').
    { unfold Spec.mean_score.
      replace (List.length sections') with (List.length sections)
        by (rewrite <- (length_map ChecklistSection.score sections), Hsc;
            apply length_map).
      replace (Spec.total_score sections') with (Spec.total_score sections);
        [reflexivity|].
      clear now now'. revert sections' Hsc.
      induction sections as [|a l IH]; intros [|a' l'] Hsc;
        try discriminate; [reflexivity|].
      injection Hsc as Ha Hl. cbn. rewrite Ha. f_equal. now apply IH. }
    destruct sections, sections'; try discriminate; [reflexivity|].
    now rewrite Hmean.
  - intros projectRoot s c s' Hrun.
    destruct (runLaunchChecklist_returns _ _ _ _ Hrun)
      as (sections & _ & Hlen & ->).
    apply evaluate_aggregation_law.
    destruct sections; [discriminate|congruence].
Qed.

(** Witness of C2: the bare project (four failed required items), two
    sections that average 63 without a critical issue, and two sections that
    average 88 with one failed required item. *)
Lemma C2_witness :
  (exists c,
     fst (Validator.runLaunchChecklist Examples.root Examples.bare) = Ok c
     /\ Spec.readiness_law c
     /\ LaunchChecklist.readyToLaunch c = false)
  /\ LaunchChecklist.readyToLaunch
       (Validator.evaluate Examples.lukewarm_sections 0) = false
  /\ LaunchChecklist.readyToLaunch
       (Validator.evaluate Examples.blocked_sections 0) = false.
Proof.
  split; [|split].
  - eexists. split; [vm_compute; reflexivity|].
    split; [|reflexivity].
    apply (proj2 C2_readyToLaunch_iff_no_critical_and_score_70
             Examples.root Examples.bare _
             (snd (Validator.runLaunchChecklist Examples.root Examples.bare))).
    apply outcome_eq. vm_compute; reflexivity.
  - apply (proj2 (proj2 (proj1 C2_readyToLaunch_iff_no_critical_and_score_70
                           Examples.lukewarm_sections 0))).
    exists 63. split; [reflexivity|lia].
  - apply (proj1 (proj2 (proj1 C2_readyToLaunch_iff_no_critical_and_score_70
                           Examples.blocked_sections 0))).
    exists (Examples.item_of fail true).
    split; [|split; reflexivity].
    vm_compute. tauto.
Defined.

(** Witness of C3: the complete project, and two lists of sections with
    the scores 50 and 75 made of two and one, and of four and three items. *)
Lemma C3_witness :
  (exists c,
     fst (Validator.runLaunchChecklist Examples.root Examples.complete) = Ok c
     /\ Spec.aggregation_law c
     /\ LaunchChecklist.overallScore c = Num 86)
  /\ Spec.aggregation_law (Validator.evaluate Examples.lukewarm_sections 0)
  /\ LaunchChecklist.overallScore (Validator.evaluate Examples.lukewarm_sections 0)
     = LaunchChecklist.overallScore (Validator.evaluate Examples.lukewarm_long 1).
Proof.
  split; [|split].
  - eexists. split; [vm_compute; reflexivity|].
    split; [|reflexivity].
    apply (proj2 (proj2 C3_overall_score_and_issue_lists)
             Examples.root Examples.complete _
             (snd (Validator.runLaunchChecklist Examples.root Examples.complete))).
    apply outcome_eq. vm_compute; reflexivity.
  - apply (proj1 C3_overall_score_and_issue_lists). discriminate.
  - apply (proj1 (proj2 C3_overall_score_and_issue_lists)). reflexivity.
Defined.

(* ===================================================================== *)
(** * The Check Providers *)
(* ===================================================================== *)

Lemma checkAssets_provides :
  provides "Assets & Branding" Validator.checkAssets.
Proof. intros f r sec. unfold Validator.checkAssets. provider_cases. Qed.

Lemma checkSEO_provides :
  provides "SEO Optimization" Validator.checkSEO.
Proof. intros f r sec. unfold Validator.checkSEO. provider_cases. Qed.

Lemma checkPerformance_provides :
  provides "Performance" Validator.checkPerformance.
Proof. intros f r sec. unfold Validator.checkPerformance. provider_cases. Qed.

Lemma checkSecurity_provides :
  provides "Security" Validator.checkSecurity.
Proof. intros f r sec. unfold Validator.checkSecurity. provider_cases. Qed.

Lemma checkFunctionality_provides :
  provides "Functionality" Validator.checkFunctionality.
Proof. intros f r sec. unfold Validator.checkFunctionality. provider_cases. Qed.

Lemma checkAnalytics_provides :
  provides "Analytics & Monitoring" Validator.checkAnalytics.
Proof. intros f r sec. unfold Validator.checkAnalytics. provider_cases. Qed.

Lemma checkDocumentation_provides :
  provides "Documentation" Validator.checkDocumentation.
Proof. intros f r sec. unfold Validator.checkDocumentation. provider_cases. Qed.

Lemma checkLegal_provides :
  provides "Legal & Compliance" Validator.checkLegal.
Proof. intros f r sec. unfold Validator.checkLegal. provider_cases. Qed.

Lemma gather_names f projectRoot sections :
  gather providers f projectRoot = Ok sections ->
  map ChecklistSection.name sections = section_names.
Proof.
  unfold providers, gather.
  cbn [bind ret Monad_Exc].
  destruct (Validator.checkAssets f projectRoot) eqn:E1; [|discriminate].
  destruct (Validator.checkSEO f projectRoot) eqn:E2; [|discriminate].
  destruct (Validator.checkPerformance f projectRoot) eqn:E3; [|discriminate].
  destruct (Validator.checkSecurity f projectRoot) eqn:E4; [|discriminate].
  destruct (Validator.checkFunctionality f projectRoot) eqn:E5; [|discriminate].
  destruct (Validator.checkAnalytics f projectRoot) eqn:E6; [|discriminate].
  destruct (Validator.checkDocumentation f projectRoot) eqn:E7; [|discriminate].
  destruct (Validator.checkLegal f projectRoot) eqn:E8; [|discriminate].
  intros [= <-]. cbn [map].
  rewrite (proj1 (checkAssets_provides _ _ _ E1)),
          (proj1 (checkSEO_provides _ _ _ E2)),
          (proj1 (checkPerformance_provides _ _ _ E3)),
          (proj1 (checkSecurity_provides _ _ _ E4)),
          (proj1 (checkFunctionality_provides _ _ _ E5)),
          (proj1 (checkAnalytics_provides _ _ _ E6)),
          (proj1 (checkDocumentation_provides _ _ _ E7)),
          (proj1 (checkLegal_provides _ _ _ E8)).
  reflexivity.
Qed.

(** Every provider returns if and only if the sequence of calls does. *)
Lemma gather_returns ps f projectRoot :
  Forall (returns_on f projectRoot) ps <->
  exists sections, gather ps f projectRoot = Ok sections.
Proof.
  induction ps as [|p ps IH]; cbn [gather bind ret Monad_Exc].
  - split; [intros _; now exists []|constructor].
  - split.
    + intros H. inversion H as [|? ? [sec Hp] Hps]; subst.
      apply IH in Hps as [l Hl]. rewrite Hp, Hl. now eexists.
    + intros [l Hl].
      destruct (p f projectRoot) as [sec|e] eqn:Hp; [|discriminate].
      destruct (gather ps f projectRoot) as [l'|e] eqn:Hg;
        [|discriminate].
      constructor; [now exists sec|]. apply IH. now exists l'.
Qed.

(** The sequence of calls ends with the exception of the first provider
    that throws. *)
Lemma gather_first_throw before p after f projectRoot e :
  Forall (returns_on f projectRoot) before ->
  p f projectRoot = Throw e ->
  gather (before ++ p :: after) f projectRoot = Throw e.
Proof.
  intros Hb Hp. induction Hb as [|q before [sec Hq] _ IH];
    cbn [app gather bind ret Monad_Exc].
  - now rewrite Hp.
  - now rewrite Hq, IH.
Qed.

Lemma gather_throws ps f projectRoot e :
  gather ps f projectRoot = Throw e ->
  exists before p after,
    ps = before ++ p :: after
    /\ Forall (returns_on f projectRoot) before
    /\ p f projectRoot = Throw e.
Proof.
  induction ps as [|q ps IH]; cbn [gather bind ret Monad_Exc];
    [discriminate|].
  destruct (q f projectRoot) as [sec|e'] eqn:Hq.
  - destruct (gather ps f projectRoot) as [l|e''] eqn:Hg;
      [discriminate|].
    intros [= ->]. destruct (IH eq_refl) as (b & p & a & -> & Hb & Hp).
    exists (q :: b), p, a. split; [reflexivity|]. split; [|exact Hp].
    constructor; [now exists sec|exact Hb].
  - intros [= ->]. exists [], q, ps. repeat split; [constructor|exact Hq].
Qed.

(* ===================================================================== *)
(** * Properties of the Workflow Step Runner *)
(* ===================================================================== *)

Lemma bind_ok {A B} (c : M A) (k : A -> M B) s a s1 :
  c s = (Ok a, s1) -> bind c k s = k a s1.
Proof. intros E. cbn. now rewrite E. Qed.

Lemma bind_ret {A B} (a : A) (k : A -> M B) s :
  bind (ret a) k s = k a s.
Proof. reflexivity. Qed.

Lemma bind_throw {A B} (c : M A) (k : A -> M B) s e s1 :
  c s = (Throw e, s1) -> bind c k s = (Throw e, s1).
Proof. intros E. cbn. now rewrite E. Qed.

Lemma try_run {A} (c : M A) s r s1 :
  c s = (r, s1) -> try c s = (Ok r, s1).
Proof. intros E. unfold try. now rewrite E. Qed.

(** The [catch] block: a [try] block that throws [e] leaves a step with
    status failed and error [e], and the function goes on to its last
    lines. *)
Lemma try_catch_throw (step : WorkflowStep) (body : M WorkflowStep) s e s1 :
  body s = (Throw e, s1) ->
  exists step',
    (r <- try body ;; Orchestrator.finish (Orchestrator.caught step r)) s
    = (Ok step', snd (new_Date s1))
    /\ WorkflowStep.id step' = WorkflowStep.id step
    /\ WorkflowStep.status step' = failed
    /\ WorkflowStep.error step' = Some e
    /\ WorkflowStep.result step' = WorkflowStep.result step.
Proof.
  intros E. rewrite (bind_ok _ _ _ _ _ (try_run _ _ _ _ E)).
  eexists. split; [reflexivity|]. cbn. repeat split.
Qed.

(** A [try] block that ends normally hands over the step it has filled
    in. *)
Lemma try_catch_ok (step : WorkflowStep) (body : M WorkflowStep) s done s1 :
  body s = (Ok done, s1) ->
  exists step',
    (r <- try body ;; Orchestrator.finish (Orchestrator.caught step r)) s
    = (Ok step', snd (new_Date s1))
    /\ WorkflowStep.id step' = WorkflowStep.id done
    /\ WorkflowStep.status step' = WorkflowStep.status done
    /\ WorkflowStep.error step' = WorkflowStep.error done
    /\ WorkflowStep.result step' = WorkflowStep.result done.
Proof.
  intros E. rewrite (bind_ok _ _ _ _ _ (try_run _ _ _ _ E)).
  eexists. split; [reflexivity|]. cbn. repeat split.
Qed.

(** A step function whose [try] block keeps the identifier of the step
    never throws and records that step. *)
Lemma step_function_records id name description
    (body : WorkflowStep -> M WorkflowStep) :
  (forall step s done s1,
     body step s = (Ok done, s1) ->
     WorkflowStep.id done = WorkflowStep.id step) ->
  records id
    (startTime <- new_Date ;;
     let step := Orchestrator.new_step id name description startTime in
     r <- try (body step) ;;
     Orchestrator.finish (Orchestrator.caught step r)).
Proof.
  intros Hid s. rewrite (bind_ok _ _ _ _ _ (new_Date_run s)). cbv zeta.
  set (step := Orchestrator.new_step id name description _).
  destruct (body step (snd (new_Date s))) as [[done|e] s1] eqn:E.
  - destruct (try_catch_ok step _ _ _ _ E) as (step' & -> & Hi & _).
    exists step', (snd (new_Date s1)). split; [reflexivity|].
    rewrite Hi. now rewrite (Hid _ _ _ _ E).
  - destruct (try_catch_throw step _ _ _ _ E) as (step' & -> & Hi & _).
    exists step', (snd (new_Date s1)). split; [reflexivity|].
    now rewrite Hi.
Qed.

Section StepFunctions.

Variable tools : Tools.
Variable projectRoot : string.

Lemma runAssetGeneration_records :
  records "assets" (Orchestrator.runAssetGeneration tools projectRoot).
Proof.
  apply step_function_records. intros step s done s1.
  unfold Orchestrator.runAssetGeneration_try. cbn [bind ret Monad_M].
  destruct (analyzeImages tools projectRoot s) as [[a|e] s2]; [|discriminate].
  destruct (0 <? totalImages a).
  - destruct (optimizeImages tools projectRoot _ s2) as [[l|e] s3];
      [|discriminate].
    now intros [= <- _].
  - now intros [= <- _].
Qed.

Lemma runSEOOptimization_records :
  records "seo" (Orchestrator.runSEOOptimization projectRoot).
Proof.
  apply step_function_records. intros step s done s1.
  unfold Orchestrator.runSEOOptimization_try, Orchestrator.checkFileExists,
    snapshot.
  cbn [bind ret Monad_M].
  repeat match goal with
         | |- context [if ?b then _ else _] => destruct b
         end;
    cbn [bind ret Monad_M]; now intros [= <- _].
Qed.

Lemma runPerformanceOptimization_records config :
  records "performance"
    (Orchestrator.runPerformanceOptimization tools projectRoot config).
Proof.
  apply step_function_records. intros step s done s1.
  unfold Orchestrator.runPerformanceOptimization_try.
  cbn [bind ret Monad_M].
  destruct (optimizeImages tools projectRoot _ s) as [[l|e] s2];
    [|discriminate].
  now intros [= <- _].
Qed.

Lemma runLaunchChecklistValidation_records :
  records "launch-checklist"
    (Orchestrator.runLaunchChecklistValidation projectRoot).
Proof.
  apply step_function_records. intros step s done s1.
  unfold Orchestrator.runLaunchChecklistValidation_try.
  cbn [bind ret Monad_M].
  destruct (Validator.runLaunchChecklist projectRoot s) as [[c|e] s2];
    [|discriminate].
  now intros [= <- _].
Qed.

Lemma runDeployment_records production :
  records "deployment" (Orchestrator.runDeployment projectRoot production).
Proof.
  apply step_function_records. intros step s done s1.
  unfold Orchestrator.runDeployment_try. cbn [bind ret Monad_M].
  now intros [= <- _].
Qed.

End StepFunctions.

(** The checklist step: completed with the checklist as its result, or,
    when [runLaunchChecklist] throws, failed with the exception text and no
    result. *)
Lemma runLaunchChecklistValidation_run (projectRoot : string) (s : State) :
  exists step s',
    Orchestrator.runLaunchChecklistValidation projectRoot s = (Ok step, s')
    /\ WorkflowStep.id step = "launch-checklist"
    /\ match Validator.runLaunchChecklist projectRoot (snd (new_Date s)) with
       | (Ok c, _) =>
           WorkflowStep.status step = completed
           /\ WorkflowStep.result step = Some (Checklist c)
           /\ WorkflowStep.error step = None
       | (Throw e, _) =>
           WorkflowStep.status step = failed
           /\ WorkflowStep.error step = Some e
           /\ WorkflowStep.result step = None
       end.
Proof.
  unfold Orchestrator.runLaunchChecklistValidation.
  rewrite (bind_ok _ _ _ _ _ (new_Date_run s)). cbv zeta.
  set (step := Orchestrator.new_step _ _ _ _).
  destruct (Validator.runLaunchChecklist projectRoot (snd (new_Date s)))
    as [[c|e] s1] eqn:E.
  - assert (B : Orchestrator.runLaunchChecklistValidation_try projectRoot step
                  (snd (new_Date s))
                = (Ok (Orchestrator.with_result step completed (Checklist c)),
                   s1)).
    { unfold Orchestrator.runLaunchChecklistValidation_try.
      now rewrite (bind_ok _ _ _ _ _ E). }
    destruct (try_catch_ok step _ _ _ _ B) as (step' & -> & Hi & Hs & He & Hr).
    exists step', (snd (new_Date s1)). split; [reflexivity|].
    split; [now rewrite Hi|]. now rewrite Hs, Hr, He.
  - assert (B : Orchestrator.runLaunchChecklistValidation_try projectRoot step
                  (snd (new_Date s))
                = (Throw e, s1)).
    { unfold Orchestrator.runLaunchChecklistValidation_try.
      now rewrite (bind_throw _ _ _ _ _ E). }
    destruct (try_catch_throw step _ _ _ _ B)
      as (step' & -> & Hi & Hs & He & Hr).
    exists step', (snd (new_Date s1)). split; [reflexivity|].
    split; [now rewrite Hi|]. now rewrite Hs, Hr, He.
Qed.

(** A step that is run only if [b] holds adds the step its function
    returns to the list, or nothing. *)
Lemma optional_step (b : bool) (f : M WorkflowStep) (id : string)
    (steps : list WorkflowStep) (s : State) :
  records id f ->
  exists new s',
    (if b then (st <- f ;; ret (push steps st)) else ret steps) s
    = (Ok (steps ++ new), s')
    /\ map WorkflowStep.id new = (if b then [id] else [])
    /\ Forall (produced_by f) new.
Proof.
  intros Hf. destruct b.
  - destruct (Hf s) as (st & s' & E & Hid).
    exists [st], s'. rewrite (bind_ok _ _ _ _ _ E).
    split; [reflexivity|]. split; [now rewrite <- Hid|].
    constructor; [now exists s, s'|constructor].
  - exists [], s. rewrite app_nil_r. now repeat split.
Qed.

Lemma forallb_succeeded (steps : list WorkflowStep) :
  forallb Orchestrator.succeeded steps = true
  <-> Forall completed_or_skipped steps.
Proof.
  rewrite forallb_forall, Forall_forall.
  assert (H : forall st, Orchestrator.succeeded st = true
                         <-> completed_or_skipped st).
  { intros st. unfold Orchestrator.succeeded, completed_or_skipped.
    rewrite orb_true_iff.
    destruct (WorkflowStep.status st); cbn; intuition congruence. }
  split; intros Hall st Hin; apply H, Hall, Hin.
Qed.

(** The run, laid out: the steps the configuration does not skip, the
    checklist step, and the deployment step if it is asked for and the
    checklist step reported a project ready to launch; each of them is what
    its step function returned. *)
Lemma runCompleteWorkflow_run (tools : Tools) (projectRoot : string)
    (config : WorkflowConfig) (s : State) :
  let finalConfig := Orchestrator.spread Orchestrator.DEFAULT_CONFIG config in
  exists result s' early checklistStep late,
    Orchestrator.runCompleteWorkflow tools projectRoot config s
    = (Ok result, s')
    /\ WorkflowResult.steps result = early ++ checklistStep :: late
    /\ map WorkflowStep.id early = early_ids finalConfig
    /\ Forall
         (fun st =>
            produced_by (Orchestrator.runAssetGeneration tools projectRoot) st
            \/ produced_by (Orchestrator.runSEOOptimization projectRoot) st
            \/ produced_by
                 (Orchestrator.runPerformanceOptimization tools projectRoot
                    finalConfig) st)
         early
    /\ WorkflowStep.id checklistStep = "launch-checklist"
    /\ produced_by (Orchestrator.runLaunchChecklistValidation projectRoot)
         checklistStep
    /\ map WorkflowStep.id late = late_ids finalConfig checklistStep
    /\ Forall
         (produced_by
            (Orchestrator.runDeployment projectRoot
               (Orchestrator.truthy (WorkflowConfig.production finalConfig))))
         late
    /\ WorkflowResult.launchChecklist result
       = Orchestrator.as_LaunchChecklist (WorkflowStep.result checklistStep)
    /\ (WorkflowStep.status checklistStep = failed ->
        WorkflowStep.result checklistStep = None)
    /\ WorkflowResult.overallSuccess result
       = forallb Orchestrator.succeeded (WorkflowResult.steps result).
Proof.
  intros finalConfig.
  unfold Orchestrator.runCompleteWorkflow. cbv zeta. fold finalConfig.
  rewrite (bind_ok _ _ _ _ _ (new_Date_run s)).
  destruct (optional_step
              (negb (Orchestrator.truthy (WorkflowConfig.skipAssets finalConfig)))
              _ _ [] (snd (new_Date s))
              (runAssetGeneration_records tools projectRoot))
    as (new1 & s1 & E1 & I1 & P1).
  rewrite (bind_ok _ _ _ _ _ E1).
  destruct (optional_step
              (negb (Orchestrator.truthy (WorkflowConfig.skipSEO finalConfig)))
              _ _ ([] ++ new1) s1 (runSEOOptimization_records projectRoot))
    as (new2 & s2 & E2 & I2 & P2).
  rewrite (bind_ok _ _ _ _ _ E2).
  destruct (optional_step
              (negb (Orchestrator.truthy (WorkflowConfig.skipPerf finalConfig)))
              _ _ (([] ++ new1) ++ new2) s2
              (runPerformanceOptimization_records tools projectRoot finalConfig))
    as (new3 & s3 & E3 & I3 & P3).
  rewrite (bind_ok _ _ _ _ _ E3).
  set (early := (([] ++ new1) ++ new2) ++ new3).
  destruct (runLaunchChecklistValidation_run projectRoot s3)
    as (checklistStep & s4 & E4 & I4 & O4).
  rewrite (bind_ok _ _ _ _ _ E4).
  set (launchChecklist :=
         Orchestrator.as_LaunchChecklist (WorkflowStep.result checklistStep)).
  assert (Hfail : WorkflowStep.status checklistStep = failed ->
                  WorkflowStep.result checklistStep = None).
  { destruct (Validator.runLaunchChecklist projectRoot (snd (new_Date s3)))
      as [[c|e] ?].
    - destruct O4 as (-> & _). discriminate.
    - now destruct O4 as (_ & _ & ->). }
  assert (Hearly : map WorkflowStep.id early = early_ids finalConfig).
  { unfold early, early_ids. rewrite !map_app, I1, I2, I3. cbn [map app].
    rewrite <- app_assoc.
    destruct (Orchestrator.truthy (WorkflowConfig.skipAssets finalConfig)),
             (Orchestrator.truthy (WorkflowConfig.skipSEO finalConfig)),
             (Orchestrator.truthy (WorkflowConfig.skipPerf finalConfig));
      reflexivity. }
  assert (Hprod : Forall
            (fun st =>
               produced_by (Orchestrator.runAssetGeneration tools projectRoot) st
               \/ produced_by (Orchestrator.runSEOOptimization projectRoot) st
               \/ produced_by
                    (Orchestrator.runPerformanceOptimization tools projectRoot
                       finalConfig) st)
            early).
  { unfold early. rewrite !Forall_app. repeat split; [constructor| | |].
    - eapply Forall_impl; [|exact P1]. tauto.
    - eapply Forall_impl; [|exact P2]. tauto.
    - eapply Forall_impl; [|exact P3]. tauto. }
  assert (Hcheck : produced_by
                     (Orchestrator.runLaunchChecklistValidation projectRoot)
                     checklistStep) by now exists s3, s4.
  destruct (negb (Orchestrator.truthy (WorkflowConfig.skipDeploy finalConfig))
            && Orchestrator.reported_ready launchChecklist) eqn:D.
  - destruct (runDeployment_records projectRoot
                (Orchestrator.truthy (WorkflowConfig.production finalConfig)) s4)
      as (deployStep & s5 & E5 & I5).
    rewrite (bind_ok _ _ _ _ _ (bind_ok _ _ _ _ _ E5)).
    cbv beta iota.
    rewrite (bind_ok _ _ _ _ _ (new_Date_run s5)).
    eexists. eexists. exists early, checklistStep, [deployStep].
    split; [reflexivity|].
    cbn [WorkflowResult.steps WorkflowResult.launchChecklist
         WorkflowResult.overallSuccess].
    unfold push. rewrite <- app_assoc. cbn [app map].
    unfold late_ids. fold launchChecklist. rewrite D, I5.
    repeat split; try assumption.
    constructor; [now exists s4, s5|constructor].
  - cbv iota. rewrite bind_ret.
    cbv beta iota.
    rewrite (bind_ok _ _ _ _ _ (new_Date_run s4)).
    eexists. eexists. exists early, checklistStep, [].
    split; [reflexivity|].
    cbn [WorkflowResult.steps WorkflowResult.launchChecklist
         WorkflowResult.overallSuccess].
    unfold late_ids. fold launchChecklist. rewrite D.
    repeat split; try assumption. constructor.
Qed.

Lemma step_function_catches id name description
    (body : WorkflowStep -> M WorkflowStep) :
  catches
    (startTime <- new_Date ;;
     let step := Orchestrator.new_step id name description startTime in
     r <- try (body step) ;;
     Orchestrator.finish (Orchestrator.caught step r))
    (Orchestrator.new_step id name description)
    body.
Proof.
  intros s e s1 E. rewrite (bind_ok _ _ _ _ _ (new_Date_run s)). cbv zeta.
  destruct (try_catch_throw
              (Orchestrator.new_step id name description (clock s (reads s)))
              _ _ _ _ E) as (step' & -> & Hi & Hs & He & _).
  now exists step'.
Qed.

(** C5, as the code has it.  The [catch] block of each of the five step
    functions turns an exception of its [try] block into a step with status
    failed and the exception text, so no step function throws.  A run never
    throws either: it records, in order, the steps the configuration does
    not skip (assets, SEO, performance) and the launch checklist, whatever
    became of the steps before them.  The deployment step is run only if
    [skipDeploy] is false and the checklist step left a checklist that is
    ready to launch; a checklist step that failed left none, so deployment
    is then not run.  [overallSuccess] is true if and only if every recorded
    step is completed or skipped, so one failed step makes it false. *)
Theorem C5_failed_steps_are_recorded_and_the_run_goes_on :
  (forall tools projectRoot config production,
     catches (Orchestrator.runAssetGeneration tools projectRoot)
       (Orchestrator.new_step "assets" "Asset Generation"
          "Generate favicons, OG images, and PWA icons")
       (Orchestrator.runAssetGeneration_try tools projectRoot)
     /\ catches (Orchestrator.runSEOOptimization projectRoot)
          (Orchestrator.new_step "seo" "SEO Optimization"
             "Optimize meta tags, sitemap, and robots.txt")
          (Orchestrator.runSEOOptimization_try projectRoot)
     /\ catches
          (Orchestrator.runPerformanceOptimization tools projectRoot config)
          (Orchestrator.new_step "performance" "Performance Optimization"
             "Optimize images, bundle, and configuration")
          (Orchestrator.runPerformanceOptimization_try tools projectRoot)
     /\ catches (Orchestrator.runLaunchChecklistValidation projectRoot)
          (Orchestrator.new_step "launch-checklist" "Launch Checklist"
             "Validate project readiness for launch")
          (Orchestrator.runLaunchChecklistValidation_try projectRoot)
     /\ catches (Orchestrator.runDeployment projectRoot production)
          (Orchestrator.new_step "deployment" "Deployment"
             (if production then "Deploy to production"
              else "Deploy to preview"))
          Orchestrator.runDeployment_try)
  /\ (forall tools projectRoot config s,
        let finalConfig :=
          Orchestrator.spread Orchestrator.DEFAULT_CONFIG config in
        exists result s' early checklistStep late,
          Orchestrator.runCompleteWorkflow tools projectRoot config s
          = (Ok result, s')
          /\ WorkflowResult.steps result = early ++ checklistStep :: late
          /\ map WorkflowStep.id early = early_ids finalConfig
          /\ Forall
               (fun st =>
                  produced_by
                    (Orchestrator.runAssetGeneration tools projectRoot) st
                  \/ produced_by
                       (Orchestrator.runSEOOptimization projectRoot) st
                  \/ produced_by
                       (Orchestrator.runPerformanceOptimization tools
                          projectRoot finalConfig) st)
               early
          /\ WorkflowStep.id checklistStep = "launch-checklist"
          /\ produced_by
               (Orchestrator.runLaunchChecklistValidation projectRoot)
               checklistStep
          /\ map WorkflowStep.id late = late_ids finalConfig checklistStep
          /\ Forall
               (produced_by
                  (Orchestrator.runDeployment projectRoot
                     (Orchestrator.truthy
                        (WorkflowConfig.production finalConfig))))
               late
          /\ (WorkflowStep.status checklistStep = failed -> late = [])
          /\ (WorkflowResult.overallSuccess result = true <->
              Forall completed_or_skipped (WorkflowResult.steps result))
          /\ (forall st, In st (WorkflowResult.steps result) ->
                WorkflowStep.status st = failed ->
                WorkflowResult.overallSuccess result = false)).
Proof.
  split.
  - intros tools projectRoot config production.
    repeat split; apply step_function_catches.
  - intros tools projectRoot config s finalConfig.
    destruct (runCompleteWorkflow_run tools projectRoot config s)
      as (result & s' & early & checklistStep & late
          & E & Hsteps & Hearly & Pearly & Hid & Pcheck & Hlate & Plate
          & _ & Hfail & Hok).
    exists result, s', early, checklistStep, late.
    assert (Hiff : WorkflowResult.overallSuccess result = true <->
                   Forall completed_or_skipped (WorkflowResult.steps result)).
    { rewrite Hok. apply forallb_succeeded. }
    repeat split; try assumption; try apply Hiff.
    + intros Hst. apply Hfail in Hst.
      unfold late_ids in Hlate. rewrite Hst in Hlate.
      cbn [Orchestrator.as_LaunchChecklist Orchestrator.reported_ready] in Hlate.
      rewrite andb_false_r in Hlate. now destruct late.
    + intros st Hin Hst.
      apply not_true_is_false. intros S.
      apply (proj1 Hiff) in S. rewrite Forall_forall in S.
      destruct (S st Hin) as [C|C]; rewrite Hst in C; discriminate.
Qed.

(** The claim of C5 fails where it says that every later step still runs:
    on the complete project a run that is asked to deploy has five steps;
    on the same project with unreadable files the checklist step throws,
    is recorded as failed, and the deployment step is not run. *)
Lemma C5_counterexample_failed_checklist_prevents_deployment :
  recorded_steps
    (Orchestrator.runCompleteWorkflow Examples.tools Examples.root
       Examples.deploying Examples.complete)
  = [("assets", completed); ("seo", completed); ("performance", completed);
     ("launch-checklist", completed); ("deployment", skipped)]
  /\ recorded_steps
       (Orchestrator.runCompleteWorkflow Examples.tools Examples.root
          Examples.deploying Examples.unreadable)
     = [("assets", completed); ("seo", completed); ("performance", completed);
        ("launch-checklist", failed)].
Proof. split; vm_compute; reflexivity. Qed.

(** Witness of C5: the checklist step on the unreadable project, and a
    five-step run whose third step throws. *)
Lemma C5_witness :
  (exists step,
     fst (Orchestrator.runLaunchChecklistValidation Examples.root
            Examples.unreadable) = Ok step
     /\ WorkflowStep.status step = failed
     /\ WorkflowStep.error step
        = Some "Error: EACCES: permission denied, open")
  /\ (exists result,
        fst (Orchestrator.runCompleteWorkflow Examples.broken_tools
               Examples.root Examples.deploying Examples.complete)
        = Ok result
        /\ List.length (WorkflowResult.steps result) = 5%nat
        /\ WorkflowResult.overallSuccess result = false).
Proof.
  split.
  - destruct (proj1 (proj2 (proj2 (proj2
               (proj1 C5_failed_steps_are_recorded_and_the_run_goes_on
                  Examples.tools Examples.root Examples.deploying false))))
               Examples.unreadable
               "Error: EACCES: permission denied, open"
               (snd (Orchestrator.runLaunchChecklistValidation_try
                       Examples.root
                       (Orchestrator.new_step "launch-checklist"
                          "Launch Checklist"
                          "Validate project readiness for launch"
                          (clock Examples.unreadable
                                 (reads Examples.unreadable)))
                       (snd (new_Date Examples.unreadable)))))
      as (step & E & _ & Hs & He).
    + apply outcome_eq. vm_compute; reflexivity.
    + exists step. rewrite E. now repeat split.
  - destruct (proj2 C5_failed_steps_are_recorded_and_the_run_goes_on
                Examples.broken_tools Examples.root Examples.deploying
                Examples.complete)
      as (result & s' & early & checklistStep & late
          & E & _ & _ & _ & _ & _ & _ & _ & _ & _ & Hfailed).
    exists result. rewrite E. split; [reflexivity|].
    assert (E0 : fst (Orchestrator.runCompleteWorkflow Examples.broken_tools
                        Examples.root Examples.deploying Examples.complete)
                 = Ok result) by now rewrite E.
    vm_compute in E0. injection E0 as <-.
    split; [reflexivity|].
    eapply Hfailed; [right; right; left; reflexivity|reflexivity].
Defined.

(* ===================================================================== *)
(** * Exceptions of the Check Providers *)
(* ===================================================================== *)

(** The claim of C4 fails: [.gitignore] is a directory, [checkSecurity]
    throws when it reads it, and [runLaunchChecklist] throws the same
    exception instead of returning a checklist. *)
Lemma C4_counterexample_provider_exception_propagates :
  Validator.checkSecurity Examples.gitignore_dir_fs Examples.root
  = Throw "Error: EISDIR: illegal operation on a directory, read"
  /\ fst (Validator.runLaunchChecklist Examples.root Examples.gitignore_dir)
     = Throw "Error: EISDIR: illegal operation on a directory, read"
  /\ ~ (exists c s',
          Validator.runLaunchChecklist Examples.root Examples.gitignore_dir
          = (Ok c, s')).
Proof.
  assert (E : fst (Validator.runLaunchChecklist Examples.root
                     Examples.gitignore_dir)
              = Throw "Error: EISDIR: illegal operation on a directory, read")
    by (vm_compute; reflexivity).
  split; [vm_compute; reflexivity|]. split; [exact E|].
  intros (c & s' & R). rewrite R in E. discriminate.
Qed.

(** C4, as the code has it.  [runLaunchChecklist] has no [try]: the
    exception of the first provider that throws leaves it unchanged, and no
    checklist and no fail item is made.  The exception is caught one level
    up, by the workflow step [runLaunchChecklistValidation], which records a
    failed step with the exception text and no result.  When no provider
    throws, [runLaunchChecklist] returns a checklist. *)
Theorem C4_provider_exception_propagates_to_the_step_runner :
  forall projectRoot s,
    (forall before p after e,
       providers = before ++ p :: after ->
       Forall (returns_on (fs s) projectRoot) before ->
       p (fs s) projectRoot = Throw e ->
       Validator.runLaunchChecklist projectRoot s = (Throw e, s)
       /\ exists step s',
            Orchestrator.runLaunchChecklistValidation projectRoot s
            = (Ok step, s')
            /\ WorkflowStep.status step = failed
            /\ WorkflowStep.error step = Some e
            /\ WorkflowStep.result step = None)
    /\ (Forall (returns_on (fs s) projectRoot) providers ->
        exists c s', Validator.runLaunchChecklist projectRoot s = (Ok c, s')).
Proof.
  intros projectRoot s. split.
  - intros before p after e Hps Hbefore Hp.
    assert (G : gather providers (fs s) projectRoot
                = Throw e).
    { rewrite Hps. now apply gather_first_throw. }
    split.
    + rewrite runLaunchChecklist_gather. now rewrite G.
    + destruct (runLaunchChecklistValidation_run projectRoot s)
        as (step & s' & E & _ & O).
      rewrite runLaunchChecklist_gather in O.
      change (fs (snd (new_Date s))) with (fs s) in O. rewrite G in O.
      destruct O as (Hs & He & Hr). now exists step, s'.
  - intros Hall. apply gather_returns in Hall as [sections G].
    rewrite runLaunchChecklist_gather, G. now eexists; eexists.
Qed.

(** Witness of C4 on the project whose [.gitignore] is a directory: the
    three providers before [checkSecurity] return, [checkSecurity] throws. *)
Lemma C4_witness :
  fst (Validator.runLaunchChecklist Examples.root Examples.gitignore_dir)
  = Throw "Error: EISDIR: illegal operation on a directory, read"
  /\ exists step,
       fst (Orchestrator.runLaunchChecklistValidation Examples.root
              Examples.gitignore_dir) = Ok step
       /\ WorkflowStep.status step = failed
       /\ WorkflowStep.error step
          = Some "Error: EISDIR: illegal operation on a directory, read".
Proof.
  destruct (proj1 (C4_provider_exception_propagates_to_the_step_runner
                     Examples.root Examples.gitignore_dir)
              [Validator.checkAssets; Validator.checkSEO;
               Validator.checkPerformance]
              Validator.checkSecurity
              [Validator.checkFunctionality; Validator.checkAnalytics;
               Validator.checkDocumentation; Validator.checkLegal]
              "Error: EISDIR: illegal operation on a directory, read")
    as (R & step & s' & E & Hs & He & _).
  - reflexivity.
  - repeat constructor; eexists; vm_compute; reflexivity.
  - vm_compute; reflexivity.
  - split; [now rewrite R|]. exists step. now rewrite E.
Defined.

(* ===================================================================== *)
(** * The eight sections *)
(* ===================================================================== *)

(** The claim of C10 fails on two counts: for a project whose [.gitignore]
    is a directory [runLaunchChecklist] returns no checklist at all, and
    where it returns one the second section is called "SEO Optimization",
    not "SEO". *)
Lemma C10_counterexample_no_checklist_and_section_name :
  fst (Validator.runLaunchChecklist Examples.root Examples.gitignore_dir)
  = Throw "Error: EISDIR: illegal operation on a directory, read"
  /\ exists c,
       fst (Validator.runLaunchChecklist Examples.root Examples.bare) = Ok c
       /\ nth 1 (map ChecklistSection.name (LaunchChecklist.sections c)) ""
          = "SEO Optimization"
       /\ map ChecklistSection.name (LaunchChecklist.sections c)
          <> claimed_section_names.
Proof.
  split; [vm_compute; reflexivity|].
  eexists. split; [vm_compute; reflexivity|].
  split; [reflexivity|]. intros H. discriminate H.
Qed.

(** C10, as the code has it.  On a project on which no provider throws,
    [runLaunchChecklist] returns a checklist; and every checklist it returns
    has exactly eight sections, named in this order Assets & Branding, SEO
    Optimization, Performance, Security, Functionality, Analytics &
    Monitoring, Documentation, Legal & Compliance.  So the list of sections
    is not empty, the divisor of the overall score is not zero, and the
    overall score is a number. *)
Theorem C10_eight_sections_in_fixed_order :
  forall projectRoot s,
    (Forall (returns_on (fs s) projectRoot) providers ->
     exists c s', Validator.runLaunchChecklist projectRoot s = (Ok c, s'))
    /\ (forall c s',
          Validator.runLaunchChecklist projectRoot s = (Ok c, s') ->
          List.length (LaunchChecklist.sections c) = 8%nat
          /\ map ChecklistSection.name (LaunchChecklist.sections c)
             = section_names
          /\ LaunchChecklist.sections c <> []
          /\ Z.of_nat (List.length (LaunchChecklist.sections c)) <> 0
          /\ exists z, LaunchChecklist.overallScore c = Num z).
Proof.
  intros projectRoot s. split.
  - intros Hall. apply gather_returns in Hall as [sections G].
    rewrite runLaunchChecklist_gather, G. now eexists; eexists.
  - intros c s' Hrun.
    destruct (runLaunchChecklist_returns _ _ _ _ Hrun)
      as (sections & G & Hlen & ->).
    rewrite evaluate_fields. cbv zeta.
    cbn [LaunchChecklist.sections LaunchChecklist.overallScore].
    split; [exact Hlen|]. split; [now apply gather_names in G|].
    split; [destruct sections; [discriminate|congruence]|].
    split; [rewrite Hlen; discriminate|].
    destruct sections; [discriminate|]. now eexists.
Qed.

(** Witness of C10 on the bare project, on which every provider returns. *)
Lemma C10_witness :
  exists c,
    fst (Validator.runLaunchChecklist Examples.root Examples.bare) = Ok c
    /\ List.length (LaunchChecklist.sections c) = 8%nat
    /\ LaunchChecklist.overallScore c = Num 61.
Proof.
  destruct (proj1 (C10_eight_sections_in_fixed_order Examples.root
                     Examples.bare))
    as (c & s' & E).
  - repeat constructor; eexists; vm_compute; reflexivity.
  - exists c. rewrite E. split; [reflexivity|].
    destruct (proj2 (C10_eight_sections_in_fixed_order Examples.root
                       Examples.bare) c s' E) as (Hlen & _).
    split; [exact Hlen|].
    assert (E0 : fst (Validator.runLaunchChecklist Examples.root Examples.bare)
                 = Ok c) by now rewrite E.
    vm_compute in E0. injection E0 as <-. reflexivity.
Defined.

(* ===================================================================== *)
(** * Properties of the Workflow State Store *)
(* ===================================================================== *)

Lemma RunStatus_eqb_eq (a b : RunStatus.t) :
  RunStatus.eqb a b = true <-> a = b.
Proof. destruct a, b; cbn; split; congruence. Qed.

(** C6.  [canResumeWorkflow] returns true if and only if the status is
    in-progress, [currentStep] is strictly less than [totalSteps], and the
    current time (the next reading of the clock) minus [lastUpdate] is
    strictly less than 24 hours.  A state last updated 25 hours ago cannot
    be resumed. *)
Theorem C6_canResumeWorkflow_iff :
  forall (state : WorkflowState) (s : State),
    exists b s',
      Workflow.canResumeWorkflow state s = (Ok b, s')
      /\ (b = true <->
          WorkflowState.status state = RunStatus.in_progress
          /\ WorkflowState.currentStep state < WorkflowState.totalSteps state
          /\ clock s (reads s) - WorkflowState.lastUpdate state < Spec.day)
      /\ (WorkflowState.lastUpdate state
          = clock s (reads s) - 25 * 60 * 60 * 1000 ->
          b = false).
Proof.
  intros state s. unfold Workflow.canResumeWorkflow.
  destruct (RunStatus.eqb (WorkflowState.status state) RunStatus.in_progress)
    eqn:Est;
  [destruct (WorkflowState.currentStep state <? WorkflowState.totalSteps state)
     eqn:Ecur|];
  cbn [andb].
  - rewrite (bind_ok _ _ _ _ _ (new_Date_run s)).
    eexists. eexists. split; [reflexivity|].
    apply RunStatus_eqb_eq in Est. apply Z.ltb_lt in Ecur.
    change (24 * 60 * 60 * 1000) with Spec.day.
    split.
    + rewrite Z.ltb_lt. tauto.
    + intros ->. apply Z.ltb_ge. unfold Spec.day. lia.
  - exists false, s. split; [reflexivity|].
    apply Z.ltb_ge in Ecur. split; [|reflexivity].
    split; [discriminate|]. intros (_ & H & _). lia.
  - exists false, s. split; [reflexivity|]. split; [|reflexivity].
    split; [discriminate|]. intros (H & _).
    apply RunStatus_eqb_eq in H. congruence.
Qed.

(** Witness of C6: the same interrupted run, touched one hour and 25 hours
    before the call. *)
Lemma C6_witness :
  fst (Workflow.canResumeWorkflow Examples.interrupted Examples.bare) = Ok true
  /\ fst (Workflow.canResumeWorkflow Examples.stale Examples.bare) = Ok false.
Proof.
  split.
  - destruct (C6_canResumeWorkflow_iff Examples.interrupted Examples.bare)
      as (b & s' & E & Hiff & _).
    rewrite E. cbn [fst]. f_equal. apply Hiff.
    split; [reflexivity|]. split; vm_compute; reflexivity.
  - destruct (C6_canResumeWorkflow_iff Examples.stale Examples.bare)
      as (b & s' & E & _ & Hstale).
    rewrite E. cbn [fst]. f_equal. apply Hstale. vm_compute; reflexivity.
Defined.

(** The claim of C9 fails: asked for a run of zero steps,
    [createWorkflowState] returns a state. *)
Lemma C9_counterexample_zero_steps_accepted :
  fst (Workflow.createWorkflowState Examples.root 0 JNull Examples.bare)
  = Ok (WorkflowState.mk "workflow-1700000000000-k3j9x0q2a" Examples.root
          1700000001000 1700000002000 RunStatus.in_progress 0 0 [] JNull)
  /\ ~ (exists e,
          fst (Workflow.createWorkflowState Examples.root 0 JNull
                 Examples.bare) = Throw e).
Proof.
  assert (E : fst (Workflow.createWorkflowState Examples.root 0 JNull
                     Examples.bare)
              = Ok (WorkflowState.mk "workflow-1700000000000-k3j9x0q2a"
                      Examples.root 1700000001000 1700000002000
                      RunStatus.in_progress 0 0 [] JNull))
    by (vm_compute; reflexivity).
  split; [exact E|]. intros [e H]. rewrite H in E. discriminate.
Qed.

(** C9, as the code has it.  [createWorkflowState] checks nothing and never
    throws: for every [totalSteps], zero included, it returns a state that
    is in progress, at step 0, with that [totalSteps] and no step.  (A state
    of zero steps is then never resumable.) *)
Theorem C9_createWorkflowState_accepts_any_totalSteps :
  forall projectRoot totalSteps config s,
    exists state s',
      Workflow.createWorkflowState projectRoot totalSteps config s
      = (Ok state, s')
      /\ WorkflowState.projectRoot state = projectRoot
      /\ WorkflowState.status state = RunStatus.in_progress
      /\ WorkflowState.currentStep state = 0
      /\ WorkflowState.totalSteps state = totalSteps
      /\ WorkflowState.steps state = []
      /\ WorkflowState.config state = config
      /\ (totalSteps = 0 ->
          forall s0, fst (Workflow.canResumeWorkflow state s0) = Ok false).
Proof.
  intros projectRoot totalSteps config s.
  eexists. eexists. split; [reflexivity|].
  cbn [WorkflowState.projectRoot WorkflowState.status
       WorkflowState.currentStep WorkflowState.totalSteps
       WorkflowState.steps WorkflowState.config].
  repeat split. intros -> s0. reflexivity.
Qed.

(** Witness of C9 at zero steps. *)
Lemma C9_witness :
  exists state,
    fst (Workflow.createWorkflowState Examples.root 0 JNull Examples.bare)
    = Ok state
    /\ WorkflowState.totalSteps state = 0
    /\ fst (Workflow.canResumeWorkflow state Examples.bare) = Ok false.
Proof.
  destruct (C9_createWorkflowState_accepts_any_totalSteps
              Examples.root 0 JNull Examples.bare)
    as (state & s' & E & _ & _ & _ & Ht & _ & _ & Hres).
  exists state. rewrite E. split; [reflexivity|]. split; [exact Ht|].
  apply Hres. reflexivity.
Defined.

Lemma findIndex_range {A} (p : A -> bool) (l : list A) :
  Workflow.findIndex p l = -1 \/ 0 <= Workflow.findIndex p l.
Proof.
  induction l as [|x l IH]; cbn [Workflow.findIndex]; [now left|].
  destruct (p x); [right; lia|].
  destruct (Workflow.findIndex p l <? 0) eqn:E; [now left|].
  apply Z.ltb_ge in E. right; lia.
Qed.

(** [findIndex] followed by the assignment at that index, or by [push],
    is the upsert by identifier. *)
Lemma store_or_push_upsert (step : WorkflowStep) (steps : list WorkflowStep) :
  (if 0 <=? Workflow.findIndex (Workflow.same_id step) steps
   then Workflow.store steps
          (Z.to_nat (Workflow.findIndex (Workflow.same_id step) steps)) step
   else push steps step)
  = Spec.upsert step steps.
Proof.
  induction steps as [|x steps IH]; [reflexivity|].
  cbn [Workflow.findIndex Spec.upsert].
  change (Workflow.same_id step x)
    with (String.eqb (WorkflowStep.id x) (WorkflowStep.id step)).
  destruct (String.eqb (WorkflowStep.id x) (WorkflowStep.id step));
    [reflexivity|].
  destruct (findIndex_range (Workflow.same_id step) steps) as [E|E].
  - rewrite E in *. cbn in IH |- *. now rewrite <- IH.
  - assert (L : (Workflow.findIndex (Workflow.same_id step) steps <? 0) = false)
      by now apply Z.ltb_ge.
    rewrite L.
    assert (P : (0 <=? Workflow.findIndex (Workflow.same_id step) steps) = true)
      by now apply Z.leb_le.
    rewrite P in IH.
    assert (P' : (0 <=? Workflow.findIndex (Workflow.same_id step) steps + 1)
                 = true) by (apply Z.leb_le; lia).
    rewrite P'.
    replace (Z.to_nat (Workflow.findIndex (Workflow.same_id step) steps + 1))
      with (S (Z.to_nat (Workflow.findIndex (Workflow.same_id step) steps)))
      by lia.
    cbn [Workflow.store]. now rewrite IH.
Qed.

Lemma terminal_is_terminal (st : WorkflowStep) :
  Workflow.terminal st = true <-> Spec.is_terminal st.
Proof.
  unfold Workflow.terminal, Spec.is_terminal.
  destruct (WorkflowStep.status st); cbn; intuition congruence.
Qed.

Lemma existsb_failed (steps : list WorkflowStep) :
  existsb (fun s => StepStatus_eqb (WorkflowStep.status s) failed) steps = true
  <-> Spec.has_failed steps.
Proof.
  rewrite existsb_exists. unfold Spec.has_failed.
  split; intros (st & Hin & H); exists st; split; try assumption.
  - now destruct (WorkflowStep.status st).
  - now rewrite H.
Qed.

(** The claim of C8 fails where it says that [currentStep] is always
    recomputed: a failed step that is run again arrives with status
    running; it replaces the failed one, no step is terminal any more, and
    [currentStep] is still 1. *)
Lemma C8_counterexample_currentStep_not_recomputed :
  exists state',
    fst (Workflow.updateWorkflowState Examples.interrupted
           (Examples.step_of "assets" running) Examples.bare) = Ok state'
    /\ WorkflowState.steps state' = [Examples.step_of "assets" running]
    /\ Spec.terminal_count (WorkflowState.steps state') = 0
    /\ WorkflowState.currentStep state' = 1.
Proof.
  eexists. split; [vm_compute; reflexivity|]. repeat split.
Qed.

(** C8, as the code has it.  [updateWorkflowState] upserts the step by
    identifier (it replaces the first step with the same identifier, or else
    appends).  If the status of the incoming step is terminal, [currentStep]
    becomes the number of terminal steps; otherwise [currentStep] is left as
    it was.  When [currentStep] then equals [totalSteps], the status of the
    run becomes failed if some step has failed and completed if none has.
    [lastUpdate] always becomes the current time; the other fields are
    kept. *)
Theorem C8_updateWorkflowState_upserts_and_counts :
  forall (state : WorkflowState) (step : WorkflowStep) (s : State),
    exists state' s',
      Workflow.updateWorkflowState state step s = (Ok state', s')
      /\ WorkflowState.steps state'
         = Spec.upsert step (WorkflowState.steps state)
      /\ (Spec.is_terminal step ->
          WorkflowState.currentStep state'
          = Spec.terminal_count (WorkflowState.steps state'))
      /\ (~ Spec.is_terminal step ->
          WorkflowState.currentStep state' = WorkflowState.currentStep state)
      /\ (WorkflowState.currentStep state' = WorkflowState.totalSteps state ->
          Spec.has_failed (WorkflowState.steps state') ->
          WorkflowState.status state' = RunStatus.failed)
      /\ (WorkflowState.currentStep state' = WorkflowState.totalSteps state ->
          ~ Spec.has_failed (WorkflowState.steps state') ->
          WorkflowState.status state' = RunStatus.completed)
      /\ WorkflowState.lastUpdate state' = clock s (reads s)
      /\ WorkflowState.id state' = WorkflowState.id state
      /\ WorkflowState.projectRoot state' = WorkflowState.projectRoot state
      /\ WorkflowState.startTime state' = WorkflowState.startTime state
      /\ WorkflowState.totalSteps state' = WorkflowState.totalSteps state
      /\ WorkflowState.config state' = WorkflowState.config state.
Proof.
  intros state step s. unfold Workflow.updateWorkflowState. cbv zeta.
  rewrite store_or_push_upsert.
  rewrite (bind_ok _ _ _ _ _ (new_Date_run s)).
  eexists. eexists. split; [reflexivity|].
  cbn [WorkflowState.steps WorkflowState.currentStep WorkflowState.status
       WorkflowState.lastUpdate WorkflowState.id WorkflowState.projectRoot
       WorkflowState.startTime WorkflowState.totalSteps WorkflowState.config].
  set (steps' := Spec.upsert step (WorkflowState.steps state)).
  set (current := if Workflow.terminal step
                  then Z.of_nat (List.length (filter Workflow.terminal steps'))
                  else WorkflowState.currentStep state).
  split; [reflexivity|].
  split.
  { intros Ht. apply terminal_is_terminal in Ht. subst current.
    now rewrite Ht. }
  split.
  { intros Ht. subst current.
    destruct (Workflow.terminal step) eqn:E; [|reflexivity].
    apply terminal_is_terminal in E. contradiction. }
  split.
  { intros Hc Hf. rewrite Hc, Z.leb_refl.
    apply existsb_failed in Hf. now rewrite Hf. }
  split.
  { intros Hc Hf. rewrite Hc, Z.leb_refl.
    destruct (existsb _ steps') eqn:E; [|reflexivity].
    apply existsb_failed in E. contradiction. }
  repeat split.
Qed.

(** Witness of C8: the second of two steps arrives failed (the run becomes
    failed), and a step that is running arrives (the count is kept). *)
Lemma C8_witness :
  (exists state',
     fst (Workflow.updateWorkflowState Examples.halfway
            (Examples.step_of "seo" failed) Examples.bare) = Ok state'
     /\ WorkflowState.currentStep state' = 2
     /\ WorkflowState.status state' = RunStatus.failed)
  /\ (exists state',
        fst (Workflow.updateWorkflowState Examples.halfway
               (Examples.step_of "seo" running) Examples.bare) = Ok state'
        /\ WorkflowState.currentStep state' = 1).
Proof.
  split.
  - destruct (C8_updateWorkflowState_upserts_and_counts Examples.halfway
                (Examples.step_of "seo" failed) Examples.bare)
      as (state' & s' & E & Hsteps & Hterm & _ & Hfailed & _).
    exists state'. rewrite E. split; [reflexivity|].
    assert (Hc : WorkflowState.currentStep state' = 2).
    { rewrite Hterm by (right; left; reflexivity). now rewrite Hsteps. }
    split; [exact Hc|].
    apply Hfailed; [now rewrite Hc|].
    exists (Examples.step_of "seo" failed). rewrite Hsteps.
    split; [right; left; reflexivity|reflexivity].
  - destruct (C8_updateWorkflowState_upserts_and_counts Examples.halfway
                (Examples.step_of "seo" running) Examples.bare)
      as (state' & s' & E & _ & _ & Hkeep & _).
    exists state'. rewrite E. split; [reflexivity|].
    rewrite Hkeep; [reflexivity|].
    intros [H|[H|H]]; discriminate H.
Defined.

Section History.

Variable JSON_parse : string -> Exc JSValue.
Variable JSON_stringify : JSValue -> string.

(** Loading the history changes nothing and never throws: it yields the
    parsed file, or the empty array when the file is missing, cannot be
    read, or is not JSON. *)
Lemma load_existing_run (projectRoot : string) (s : State) :
  Workflow.load_existing JSON_parse projectRoot s
  = (Ok (if existsSync (fs s) (Workflow.historyPath projectRoot)
         then match readFile (fs s) (Workflow.historyPath projectRoot) with
              | Ok content =>
                  match JSON_parse content with
                  | Ok history => history
                  | Throw _ => JArr []
                  end
              | Throw _ => JArr []
              end
         else JArr []),
     s).
Proof.
  unfold Workflow.load_existing, snapshot, try.
  cbn [bind ret Monad_M].
  destruct (existsSync (fs s) (Workflow.historyPath projectRoot));
    [|reflexivity].
  destruct (readFile (fs s) (Workflow.historyPath projectRoot))
    as [content|e]; [|reflexivity].
  destruct (JSON_parse content); reflexivity.
Qed.

(** With an array in hand, [saveToHistory] reads the clock, prepends the
    entry, keeps ten, and writes. *)
Lemma saveToHistory_array projectRoot result s old :
  fst (Workflow.load_existing JSON_parse projectRoot s) = Ok (JArr old) ->
  Workflow.saveToHistory JSON_parse JSON_stringify projectRoot result s
  = writeFile (Workflow.historyPath projectRoot)
      (JSON_stringify
         (JArr (Spec.appended
                  (Workflow.history_entry (clock s (reads s)) result) old)))
      (snd (new_Date s)).
Proof.
  intros L. unfold Workflow.saveToHistory.
  rewrite load_existing_run in L. cbn [fst] in L.
  rewrite (bind_ok _ _ _ _ _ (load_existing_run projectRoot s)).
  injection L as ->.
  now rewrite (bind_ok _ _ _ _ _ (new_Date_run s)).
Qed.

End History.

Lemma appended_length entry old :
  List.length (Spec.appended entry old)
  = Nat.min 10 (S (List.length old)).
Proof. unfold Spec.appended. now rewrite length_firstn. Qed.

Lemma firstn_removelast {A} (l : list A) (n : nat) :
  List.length l = S n -> firstn n l = removelast l.
Proof.
  revert n. induction l as [|x l IH]; intros n H; [discriminate|].
  destruct l as [|y l].
  - injection H as <-. reflexivity.
  - destruct n as [|n]; [discriminate|].
    cbn [firstn]. rewrite (IH n) by (cbn in H |- *; lia). reflexivity.
Qed.

(** A write that is not rejected replaces the file in full. *)
Lemma writeFile_run (path data : string) (s : State) :
  write_error (fs s) path = None ->
  exists s',
    writeFile path data s = (Ok tt, s')
    /\ existsSync (fs s') path = true
    /\ readFile (fs s') path = Ok data.
Proof.
  intros Hw. unfold writeFile. rewrite Hw.
  eexists. split; [reflexivity|].
  cbn [fs written existsSync readFile].
  now rewrite String.eqb_refl.
Qed.

(** A write that is rejected throws and leaves the project as it was. *)
Lemma writeFile_rejected (path data e : string) (s : State) :
  write_error (fs s) path = Some e ->
  writeFile path data s = (Throw e, s).
Proof. intros Hw. unfold writeFile. now rewrite Hw. Qed.

(** C7.  What [saveToHistory] does, and where it breaks the claim.  The
    entry it makes holds the time of the call, the duration, the success
    flag and the summary of the result, and the identifier, name, status and
    duration of each of its steps.  When the write of the history file is
    not rejected, the file then holds that entry followed by the list it
    held before, cut to ten: with ten entries on file, the new entry and
    the first nine, the oldest dropped; and a file that is missing, cannot
    be read or is not JSON counts as the empty list, the file then holding
    the one new entry.  But [saveToHistory] does not create the directory
    [.ship-toolkit] as [saveWorkflowState] does: in a project without it
    the history file is missing and the call, instead of starting an empty
    history, throws the [ENOENT] of [fs.writeFile] and writes nothing. *)
Theorem C7_saveToHistory_keeps_ten_but_throws_without_directory :
  forall (JSON_parse : string -> Exc JSValue)
         (JSON_stringify : JSValue -> string)
         (projectRoot : string) (result : WorkflowResult) (s : State),
    let path := Workflow.historyPath projectRoot in
    let save :=
      Workflow.saveToHistory JSON_parse JSON_stringify projectRoot result in
    let entry :=
      JObj [("timestamp", JDate (clock s (reads s)));
            ("duration", JNum (WorkflowResult.totalDuration result));
            ("success", JBool (WorkflowResult.overallSuccess result));
            ("summary",
             let m := WorkflowResult.summary result in
             JObj [("assetsGenerated", JNum (Summary.assetsGenerated m));
                   ("seoScore", JNum (Summary.seoScore m));
                   ("performanceScore", JNum (Summary.performanceScore m));
                   ("launchScore", JNum (Summary.launchScore m));
                   ("readyToLaunch", JBool (Summary.readyToLaunch m))]);
            ("steps",
             JArr (map (fun st =>
                          JObj [("id", JStr (WorkflowStep.id st));
                                ("name", JStr (WorkflowStep.name st));
                                ("status",
                                 JStr match WorkflowStep.status st with
                                      | pending => "pending"
                                      | running => "running"
                                      | completed => "completed"
                                      | failed => "failed"
                                      | skipped => "skipped"
                                      end);
                                ("duration",
                                 match WorkflowStep.duration st with
                                 | Some d => JNum d
                                 | None => JUndefined
                                 end)])
                       (WorkflowResult.steps result)))] in
    (forall content old,
       existsSync (fs s) path = true ->
       readFile (fs s) path = Ok content ->
       JSON_parse content = Ok (JArr old) ->
       write_error (fs s) path = None ->
       (exists s',
          save s = (Ok tt, s')
          /\ existsSync (fs s') path = true
          /\ readFile (fs s') path
             = Ok (JSON_stringify (JArr (Spec.appended entry old))))
       /\ Spec.appended entry old = firstn 10 (entry :: old)
       /\ (List.length (Spec.appended entry old) <= 10)%nat
       /\ hd_error (Spec.appended entry old) = Some entry
       /\ (List.length old = 10%nat ->
           Spec.appended entry old = entry :: removelast old
           /\ List.length (Spec.appended entry old) = 10%nat))
    /\ (no_history JSON_parse (fs s) projectRoot ->
        write_error (fs s) path = None ->
        exists s',
          save s = (Ok tt, s')
          /\ existsSync (fs s') path = true
          /\ readFile (fs s') path = Ok (JSON_stringify (JArr [entry])))
    /\ (forall e,
          no_state_directory (fs s) projectRoot e ->
          no_history JSON_parse (fs s) projectRoot
          /\ save s = (Throw e, snd (new_Date s))
          /\ fs (snd (new_Date s)) = fs s).
Proof.
  intros JSON_parse JSON_stringify projectRoot result s path save entry.
  change entry with (Workflow.history_entry (clock s (reads s)) result).
  clear entry.
  set (entry := Workflow.history_entry (clock s (reads s)) result).
  assert (Hempty : no_history JSON_parse (fs s) projectRoot ->
                   save s = writeFile path (JSON_stringify (JArr [entry]))
                              (snd (new_Date s))).
  { intros Hcase. change [entry] with (Spec.appended entry []).
    apply saveToHistory_array. rewrite load_existing_run. cbn [fst].
    fold path. unfold no_history in Hcase. fold path in Hcase.
    destruct Hcase as [Hex|[[e Hread]|(content & e & Hread & Hparse)]].
    - now rewrite Hex.
    - rewrite Hread. now destruct (existsSync (fs s) path).
    - rewrite Hread, Hparse. now destruct (existsSync (fs s) path). }
  split; [|split].
  - intros content old Hex Hread Hparse Hw.
    split.
    { assert (Hsave : save s
                      = writeFile path
                          (JSON_stringify (JArr (Spec.appended entry old)))
                          (snd (new_Date s))).
      { apply saveToHistory_array. rewrite load_existing_run. cbn [fst].
        fold path. now rewrite Hex, Hread, Hparse. }
      rewrite Hsave. now apply writeFile_run. }
    split; [reflexivity|].
    split; [rewrite appended_length; lia|].
    split; [reflexivity|].
    intros Hlen. split; [|rewrite appended_length, Hlen; reflexivity].
    unfold Spec.appended.
    change (firstn 10 (entry :: old)) with (entry :: firstn 9 old).
    f_equal. now apply firstn_removelast.
  - intros Hcase Hw. rewrite (Hempty Hcase). now apply writeFile_run.
  - intros e (_ & Hex & Hw).
    assert (Hcase : no_history JSON_parse (fs s) projectRoot) by now left.
    split; [exact Hcase|]. split; [|reflexivity].
    rewrite (Hempty Hcase). now apply writeFile_rejected.
Qed.

(** Witness of C7: an eleventh entry for a file of ten, a file that is not
    JSON, and the fresh project, where the call throws. *)
Lemma C7_witness :
  (exists s',
     Workflow.saveToHistory Examples.toy_parse Examples.toy_stringify
       Examples.root Examples.a_result
       (Examples.state_of Examples.with_history_fs) = (Ok tt, s')
     /\ readFile (fs s') (Workflow.historyPath Examples.root) = Ok "10")
  /\ (exists s',
        Workflow.saveToHistory Examples.toy_parse Examples.toy_stringify
          Examples.root Examples.a_result
          (Examples.state_of Examples.with_garbage_fs) = (Ok tt, s')
        /\ readFile (fs s') (Workflow.historyPath Examples.root) = Ok "1")
  /\ fst (Workflow.saveToHistory Examples.toy_parse Examples.toy_stringify
            Examples.root Examples.a_result Examples.fresh)
     = Throw "Error: ENOENT: no such file or directory, open /srv/app/.ship-toolkit/workflow-history.json".
Proof.
  split; [|split].
  - destruct (proj1 (C7_saveToHistory_keeps_ten_but_throws_without_directory
                       Examples.toy_parse Examples.toy_stringify
                       Examples.root Examples.a_result
                       (Examples.state_of Examples.with_history_fs))
                "ten" Examples.ten_entries)
      as ((s' & Hsave & _ & Hfile) & _);
      [vm_compute; reflexivity | vm_compute; reflexivity | reflexivity
      | reflexivity |].
    exists s'. split; [exact Hsave|]. rewrite Hfile. reflexivity.
  - destruct (proj1 (proj2
                (C7_saveToHistory_keeps_ten_but_throws_without_directory
                   Examples.toy_parse Examples.toy_stringify
                   Examples.root Examples.a_result
                   (Examples.state_of Examples.with_garbage_fs))))
      as (s' & Hsave & _ & Hfile).
    + right. right. exists "{oops", "SyntaxError: Unexpected token".
      split; vm_compute; reflexivity.
    + reflexivity.
    + exists s'. split; [exact Hsave|]. rewrite Hfile. reflexivity.
  - destruct (proj2 (proj2
                (C7_saveToHistory_keeps_ten_but_throws_without_directory
                   Examples.toy_parse Examples.toy_stringify
                   Examples.root Examples.a_result Examples.fresh))
                "Error: ENOENT: no such file or directory, open /srv/app/.ship-toolkit/workflow-history.json")
      as (_ & Hsave & _).
    + split; [reflexivity|]. split; [reflexivity|]. vm_compute. reflexivity.
    + now rewrite Hsave.
Defined.

(* ===================================================================== *)
(** * More on the Section Aggregator *)
(* ===================================================================== *)

(** [Math.round] of a quotient of integers, in integers. *)
Lemma Math_round_div (t n : Z) :
  0 < n ->
  Math_round (inject_Z t / inject_Z n) = (2 * t + n) / (2 * n).
Proof.
  intros Hn. unfold Math_round.
  destruct n as [|p|p]; try lia.
  assert (E : (inject_Z t / inject_Z (Z.pos p) + (1 # 2)
               == (2 * t + Z.pos p) # (2 * p))%Q).
  { unfold Qeq, Qplus, Qdiv, Qmult, Qinv, inject_Z. cbn [Qnum Qden].
    rewrite ?Pos.mul_1_l, ?Pos2Z.inj_mul. ring. }
  rewrite E. reflexivity.
Qed.

Lemma points_range (st : CheckStatus) : 0 <= Spec.points st <= 100.
Proof. destruct st; cbn; lia. Qed.

Lemma total_points_range (items : list ChecklistItem) :
  0 <= Spec.total_points items <= 100 * Z.of_nat (List.length items).
Proof.
  induction items as [|i items IH]; cbn [Spec.total_points fold_right List.length].
  - lia.
  - fold (Spec.total_points items).
    pose proof (points_range (ChecklistItem.status i)). lia.
Qed.

Lemma section_score_formula (i : ChecklistItem) (items : list ChecklistItem) :
  Validator.calculateSectionScore (i :: items)
  = (2 * Spec.total_points (i :: items)
     + Z.of_nat (List.length (i :: items)))
    / (2 * Z.of_nat (List.length (i :: items))).
Proof.
  rewrite calculateSectionScore_spec. unfold Spec.section_score, Spec.mean_points.
  apply Math_round_div. cbn [List.length]. lia.
Qed.

(** X1.  The score of a section is an integer between 0 and 100, whatever
    its items. *)
Theorem X1_section_score_between_0_and_100 :
  forall items : list ChecklistItem,
    0 <= Validator.calculateSectionScore items <= 100.
Proof.
  intros [|i items]; [cbn; lia|].
  rewrite section_score_formula.
  pose proof (total_points_range (i :: items)) as [Hlo Hhi].
  set (n := Z.of_nat (List.length (i :: items))) in *.
  assert (Hn : 0 < n) by (subst n; cbn [List.length]; lia).
  split.
  - apply Z.div_pos; lia.
  - apply Z.lt_succ_r. apply Z.div_lt_upper_bound; lia.
Qed.

(** X2.  A section all of whose items pass scores 100, and one all of whose
    items fail scores 0, the section being non-empty; and a status that
    improves never lowers the score: if two sections of the same length
    differ only in that each item of the second is worth at least as many
    points as the item at its place in the first, the second scores at
    least as much. *)
Theorem X2_section_score_extremes_and_monotone :
  (forall items, items <> [] ->
     Forall (fun i => ChecklistItem.status i = pass) items ->
     Validator.calculateSectionScore items = 100)
  /\ (forall items, items <> [] ->
        Forall (fun i => ChecklistItem.status i = fail) items ->
        Validator.calculateSectionScore items = 0)
  /\ (forall items items',
        Forall2 (fun i j => Spec.points (ChecklistItem.status i)
                            <= Spec.points (ChecklistItem.status j))
                items items' ->
        Validator.calculateSectionScore items
        <= Validator.calculateSectionScore items').
Proof.
  split; [|split].
  - intros [|i items] Hne Hall; [congruence|].
    rewrite section_score_formula.
    assert (T : Spec.total_points (i :: items)
                = 100 * Z.of_nat (List.length (i :: items))).
    { clear Hne. induction Hall as [|j l Hj _ IH]; [reflexivity|].
      cbn [Spec.total_points fold_right List.length].
      fold (Spec.total_points l). rewrite Hj. cbn [Spec.points]. lia. }
    rewrite T. set (n := Z.of_nat (List.length (i :: items))).
    assert (Hn : 0 < n) by (subst n; cbn [List.length]; lia).
    replace (2 * (100 * n) + n) with (n + 100 * (2 * n)) by ring.
    rewrite Z.div_add by lia. rewrite Z.div_small by lia. reflexivity.
  - intros [|i items] Hne Hall; [congruence|].
    rewrite section_score_formula.
    assert (T : Spec.total_points (i :: items) = 0).
    { clear Hne. induction Hall as [|j l Hj _ IH]; [reflexivity|].
      cbn [Spec.total_points fold_right].
      fold (Spec.total_points l). rewrite Hj. cbn [Spec.points]. lia. }
    rewrite T. apply Z.div_small. cbn [List.length]. lia.
  - intros items items' H.
    assert (L : List.length items = List.length items')
      by (induction H; cbn; congruence).
    assert (T : Spec.total_points items <= Spec.total_points items').
    { induction H as [|i j l l' Hij _ IH]; [reflexivity|].
      cbn [Spec.total_points fold_right].
      fold (Spec.total_points l) (Spec.total_points l').
      cbn [List.length] in L. injection L as L. specialize (IH L). lia. }
    destruct H as [|i j l l' Hij H]; [reflexivity|].
    rewrite !section_score_formula. rewrite <- L.
    apply Z.div_le_mono; [cbn [List.length]; lia|lia].
Qed.

(** Witness of X2: three passes, three failures, and a warning that becomes
    a pass. *)
Lemma X2_witness :
  Validator.calculateSectionScore
    [Examples.item_of pass true; Examples.item_of pass false;
     Examples.item_of pass false] = 100
  /\ Validator.calculateSectionScore
       [Examples.item_of fail true; Examples.item_of fail false;
        Examples.item_of fail false] = 0
  /\ Validator.calculateSectionScore
       [Examples.item_of warning true; Examples.item_of skip false]
     <= Validator.calculateSectionScore
          [Examples.item_of pass true; Examples.item_of skip false].
Proof.
  split; [|split].
  - apply (proj1 X2_section_score_extremes_and_monotone);
      [discriminate|repeat constructor].
  - apply (proj1 (proj2 X2_section_score_extremes_and_monotone));
      [discriminate|repeat constructor].
  - apply (proj2 (proj2 X2_section_score_extremes_and_monotone)).
    repeat constructor; cbn; lia.
Defined.

(* ===================================================================== *)
(** * The items of the eight sections *)
(* ===================================================================== *)

Section Shapes.

Variable f : FS.
Variable projectRoot : string.

Ltac shape_start p :=
  intros E; unfold p in E; cbn [bind ret Monad_Exc] in E.

Ltac shape_end E :=
  try discriminate E; injection E as <-; reflexivity.

Lemma checkAssets_items sec :
  Validator.checkAssets f projectRoot = Ok sec ->
  map brief (ChecklistSection.items sec)
  = Expected.assets
      (Observed.faviconExists f projectRoot) (Observed.ogImages f projectRoot)
      (Observed.twitterImages f projectRoot) (Observed.pwaIcons f projectRoot)
      (Observed.manifestExists f projectRoot).
Proof.
  shape_start Validator.checkAssets.
  unfold Observed.ogImages, Observed.twitterImages, Observed.pwaIcons,
    Observed.found.
  destruct (glob f "public/*og-image*.{png,jpg}" projectRoot); [|discriminate].
  destruct (glob f "public/*twitter*.{png,jpg}" projectRoot); [|discriminate].
  destruct (glob f "public/android-chrome-*.png" projectRoot); [|discriminate].
  shape_end E.
Qed.

Lemma checkSEO_items sec :
  Validator.checkSEO f projectRoot = Ok sec ->
  map brief (ChecklistSection.items sec)
  = Expected.seo
      (Observed.sitemapExists f projectRoot)
      (Observed.robotsExists f projectRoot)
      (Observed.hasMetaTags f projectRoot).
Proof.
  shape_start Validator.checkSEO.
  unfold Observed.hasMetaTags, Observed.contains.
  destruct (Framework_eqb (detectFramework f projectRoot) next_app) eqn:N;
    cbn [andb].
  - destruct (existsSync f (path_join projectRoot "app/layout.tsx"));
      cbn [andb].
    + destruct (readFile f (path_join projectRoot "app/layout.tsx"))
        as [content|e]; [|discriminate].
      cbn [forallb]. rewrite andb_true_r.
      unfold Observed.sitemapExists. rewrite N. shape_end E.
    + unfold Observed.sitemapExists. rewrite N. shape_end E.
  - unfold Observed.sitemapExists. rewrite N. shape_end E.
Qed.

Lemma checkPerformance_items sec :
  Validator.checkPerformance f projectRoot = Ok sec ->
  map brief (ChecklistSection.items sec)
  = Expected.performance
      (Observed.buildExists f projectRoot) (Observed.webpImages f projectRoot)
      (Observed.isNext f projectRoot) (Observed.configOptimized f projectRoot).
Proof.
  shape_start Validator.checkPerformance.
  unfold Observed.webpImages, Observed.found, Observed.isNext,
    Observed.configOptimized, Observed.contains.
  destruct (glob f "public/**/*.webp" projectRoot); [|discriminate].
  destruct (Validator.is_next (detectFramework f projectRoot)).
  - destruct (existsSync f (path_join projectRoot "next.config.js"));
      cbn [andb].
    + destruct (readFile f (path_join projectRoot "next.config.js"))
        as [content|e]; [|discriminate].
      cbn [forallb]. rewrite andb_true_r. shape_end E.
    + shape_end E.
  - shape_end E.
Qed.

Lemma checkSecurity_items sec :
  Validator.checkSecurity f projectRoot = Ok sec ->
  map brief (ChecklistSection.items sec)
  = Expected.security
      (Observed.envIgnored f projectRoot)
      (Observed.hasSecurityHeaders f projectRoot).
Proof.
  shape_start Validator.checkSecurity.
  unfold Observed.envIgnored, Observed.hasSecurityHeaders, Observed.isNext,
    Observed.contains.
  destruct (existsSync f (path_join projectRoot ".gitignore")); cbn [andb];
    [destruct (readFile f (path_join projectRoot ".gitignore"))
       as [ignore|e]; [|discriminate]|];
    cbn [forallb]; rewrite ?andb_true_r;
    (destruct (Validator.is_next (detectFramework f projectRoot)); cbn [andb];
     [destruct (existsSync f (path_join projectRoot "next.config.js"));
      cbn [andb];
      [destruct (readFile f (path_join projectRoot "next.config.js"))
         as [content|e]; [|discriminate];
       cbn [forallb]; rewrite ?andb_true_r|]|]);
    shape_end E.
Qed.

Lemma checkFunctionality_items sec :
  Validator.checkFunctionality f projectRoot = Ok sec ->
  map brief (ChecklistSection.items sec)
  = Expected.functionality (Observed.has404 f projectRoot).
Proof. shape_start Validator.checkFunctionality. shape_end E. Qed.

Lemma checkAnalytics_items sec :
  Validator.checkAnalytics f projectRoot = Ok sec ->
  map brief (ChecklistSection.items sec) = Expected.analytics.
Proof. shape_start Validator.checkAnalytics. shape_end E. Qed.

Lemma checkDocumentation_items sec :
  Validator.checkDocumentation f projectRoot = Ok sec ->
  map brief (ChecklistSection.items sec)
  = Expected.documentation
      (Observed.readmeExists f projectRoot)
      (Observed.changelogExists f projectRoot).
Proof. shape_start Validator.checkDocumentation. shape_end E. Qed.

Lemma checkLegal_items sec :
  Validator.checkLegal f projectRoot = Ok sec ->
  map brief (ChecklistSection.items sec) = Expected.legal.
Proof. shape_start Validator.checkLegal. shape_end E. Qed.

End Shapes.

Lemma total_points_statuses (items : list ChecklistItem) :
  Spec.total_points
    (map (fun st => ChecklistItem.mk "" "" st false None None None)
         (map ChecklistItem.status items))
  = Spec.total_points items.
Proof.
  induction items as [|i items IH]; [reflexivity|].
  cbn [map Spec.total_points fold_right ChecklistItem.status].
  fold (Spec.total_points items).
  fold (Spec.total_points
          (map (fun st => ChecklistItem.mk "" "" st false None None None)
               (map ChecklistItem.status items))).
  now rewrite IH.
Qed.

(** The score of a section depends on the statuses of its items only. *)
Lemma score_by_statuses (items : list ChecklistItem) :
  Validator.calculateSectionScore items
  = score_of (map ChecklistItem.status items).
Proof.
  unfold score_of. rewrite !calculateSectionScore_spec.
  destruct items as [|i items]; [reflexivity|].
  unfold Spec.section_score. cbn [map]. unfold Spec.mean_points.
  rewrite <- (total_points_statuses (i :: items)). cbn [map List.length].
  now rewrite !length_map.
Qed.

Lemma score_by_brief (sec : ChecklistSection) l :
  ChecklistSection.score sec
  = Validator.calculateSectionScore (ChecklistSection.items sec) ->
  map brief (ChecklistSection.items sec) = l ->
  ChecklistSection.score sec = score_of (map status_of l).
Proof.
  intros -> <-. rewrite score_by_statuses, map_map. reflexivity.
Qed.

Lemma critical_by_brief (items : list ChecklistItem) :
  map ChecklistItem.id (filter Spec.is_critical items)
  = critical_ids (map brief items).
Proof.
  unfold critical_ids.
  induction items as [|i items IH]; [reflexivity|].
  cbn [map filter].
  change (CheckStatus_eqb (status_of (brief i)) fail && snd (brief i))
    with (Spec.is_critical i).
  destruct (Spec.is_critical i); cbn [map]; now rewrite IH.
Qed.

Ltac by_cases := intros; repeat match goal with b : bool |- _ => destruct b end;
                 vm_compute; intuition congruence.

Lemma assets_scores (a b c d e : bool) :
  let sc := score_of (map status_of (Expected.assets a b c d e)) in
  30 <= sc <= 100 /\ (a = true -> b = true -> 70 <= sc).
Proof. by_cases. Qed.

Lemma seo_scores (a b c : bool) :
  let sc := score_of (map status_of (Expected.seo a b c)) in
  40 <= sc <= 90 /\ (a = true -> b = true -> 80 <= sc).
Proof. by_cases. Qed.

Lemma performance_scores (a b c d : bool) :
  let sc := score_of (map status_of (Expected.performance a b c d)) in
  60 <= sc <= 90.
Proof. by_cases. Qed.

Lemma security_scores (a b : bool) :
  let sc := score_of (map status_of (Expected.security a b)) in
  65 <= sc <= 85.
Proof. by_cases. Qed.

Lemma functionality_scores (a : bool) :
  let sc := score_of (map status_of (Expected.functionality a)) in
  70 <= sc <= 80.
Proof. by_cases. Qed.

Lemma documentation_scores (a b : bool) :
  let sc := score_of (map status_of (Expected.documentation a b)) in
  67 <= sc <= 92.
Proof. by_cases. Qed.

Lemma fixed_scores :
  score_of (map status_of Expected.analytics) = 75
  /\ score_of (map status_of Expected.legal) = 75.
Proof. split; reflexivity. Qed.

Ltac by_bools := intros; repeat match goal with b : bool |- _ => destruct b end;
                 reflexivity.

Lemma assets_critical (a b c d e : bool) :
  critical_ids (Expected.assets a b c d e)
  = (if a then [] else ["favicon"]) ++ (if b then [] else ["og-images"]).
Proof. by_bools. Qed.

Lemma seo_critical (a b c : bool) :
  critical_ids (Expected.seo a b c)
  = (if a then [] else ["sitemap"]) ++ (if b then [] else ["robots"]).
Proof. by_bools. Qed.

Lemma no_other_critical :
  (forall a b c d, critical_ids (Expected.performance a b c d) = [])
  /\ (forall a b, critical_ids (Expected.security a b) = [])
  /\ (forall a, critical_ids (Expected.functionality a) = [])
  /\ critical_ids Expected.analytics = []
  /\ (forall a b, critical_ids (Expected.documentation a b) = [])
  /\ critical_ids Expected.legal = [].
Proof. repeat split; by_bools. Qed.

(** The eight sections of a run, one per provider. *)
Lemma gather_providers f projectRoot sections :
  gather providers f projectRoot = Ok sections ->
  exists s1 s2 s3 s4 s5 s6 s7 s8,
    sections = [s1; s2; s3; s4; s5; s6; s7; s8]
    /\ Validator.checkAssets f projectRoot = Ok s1
    /\ Validator.checkSEO f projectRoot = Ok s2
    /\ Validator.checkPerformance f projectRoot = Ok s3
    /\ Validator.checkSecurity f projectRoot = Ok s4
    /\ Validator.checkFunctionality f projectRoot = Ok s5
    /\ Validator.checkAnalytics f projectRoot = Ok s6
    /\ Validator.checkDocumentation f projectRoot = Ok s7
    /\ Validator.checkLegal f projectRoot = Ok s8.
Proof.
  unfold providers, gather. cbn [bind ret Monad_Exc].
  destruct (Validator.checkAssets f projectRoot) as [s1|]; [|discriminate].
  destruct (Validator.checkSEO f projectRoot) as [s2|]; [|discriminate].
  destruct (Validator.checkPerformance f projectRoot) as [s3|]; [|discriminate].
  destruct (Validator.checkSecurity f projectRoot) as [s4|]; [|discriminate].
  destruct (Validator.checkFunctionality f projectRoot) as [s5|];
    [|discriminate].
  destruct (Validator.checkAnalytics f projectRoot) as [s6|]; [|discriminate].
  destruct (Validator.checkDocumentation f projectRoot) as [s7|];
    [|discriminate].
  destruct (Validator.checkLegal f projectRoot) as [s8|]; [|discriminate].
  intros [= <-]. exists s1, s2, s3, s4, s5, s6, s7, s8. now repeat split.
Qed.

(** A checklist that [runLaunchChecklist] returns, section by section. *)
Lemma runLaunchChecklist_sections projectRoot s c s' :
  Validator.runLaunchChecklist projectRoot s = (Ok c, s') ->
  let f := fs s in
  exists s1 s2 s3 s4 s5 s6 s7 s8,
    c = Validator.evaluate [s1; s2; s3; s4; s5; s6; s7; s8]
          (clock s (reads s))
    /\ (map brief (ChecklistSection.items s1)
        = Expected.assets
            (Observed.faviconExists f projectRoot)
            (Observed.ogImages f projectRoot)
            (Observed.twitterImages f projectRoot)
            (Observed.pwaIcons f projectRoot)
            (Observed.manifestExists f projectRoot)
        /\ map brief (ChecklistSection.items s2)
           = Expected.seo
               (Observed.sitemapExists f projectRoot)
               (Observed.robotsExists f projectRoot)
               (Observed.hasMetaTags f projectRoot)
        /\ map brief (ChecklistSection.items s3)
           = Expected.performance
               (Observed.buildExists f projectRoot)
               (Observed.webpImages f projectRoot)
               (Observed.isNext f projectRoot)
               (Observed.configOptimized f projectRoot)
        /\ map brief (ChecklistSection.items s4)
           = Expected.security
               (Observed.envIgnored f projectRoot)
               (Observed.hasSecurityHeaders f projectRoot)
        /\ map brief (ChecklistSection.items s5)
           = Expected.functionality (Observed.has404 f projectRoot)
        /\ map brief (ChecklistSection.items s6) = Expected.analytics
        /\ map brief (ChecklistSection.items s7)
           = Expected.documentation
               (Observed.readmeExists f projectRoot)
               (Observed.changelogExists f projectRoot)
        /\ map brief (ChecklistSection.items s8) = Expected.legal)
    /\ Forall
         (fun sec =>
            ChecklistSection.score sec
            = Validator.calculateSectionScore (ChecklistSection.items sec))
         [s1; s2; s3; s4; s5; s6; s7; s8].
Proof.
  intros Hrun f.
  destruct (runLaunchChecklist_returns _ _ _ _ Hrun) as (sections & G & _ & ->).
  destruct (gather_providers _ _ _ G)
    as (s1 & s2 & s3 & s4 & s5 & s6 & s7 & s8 & -> & E1 & E2 & E3 & E4 & E5
        & E6 & E7 & E8).
  exists s1, s2, s3, s4, s5, s6, s7, s8. split; [reflexivity|]. split.
  - repeat split.
    + now apply checkAssets_items.
    + now apply checkSEO_items.
    + now apply checkPerformance_items.
    + now apply checkSecurity_items.
    + now apply (checkFunctionality_items (fs s) projectRoot).
    + now apply (checkAnalytics_items (fs s) projectRoot).
    + now apply (checkDocumentation_items (fs s) projectRoot).
    + now apply (checkLegal_items (fs s) projectRoot).
  - repeat constructor.
    + exact (proj2 (checkAssets_provides _ _ _ E1)).
    + exact (proj2 (checkSEO_provides _ _ _ E2)).
    + exact (proj2 (checkPerformance_provides _ _ _ E3)).
    + exact (proj2 (checkSecurity_provides _ _ _ E4)).
    + exact (proj2 (checkFunctionality_provides _ _ _ E5)).
    + exact (proj2 (checkAnalytics_provides _ _ _ E6)).
    + exact (proj2 (checkDocumentation_provides _ _ _ E7)).
    + exact (proj2 (checkLegal_provides _ _ _ E8)).
Qed.

(** The overall score of eight sections, in integers. *)
Lemma overall_of_eight s1 s2 s3 s4 s5 s6 s7 s8 now :
  LaunchChecklist.overallScore
    (Validator.evaluate [s1; s2; s3; s4; s5; s6; s7; s8] now)
  = Num ((2 * (ChecklistSection.score s1 + ChecklistSection.score s2
               + ChecklistSection.score s3 + ChecklistSection.score s4
               + ChecklistSection.score s5 + ChecklistSection.score s6
               + ChecklistSection.score s7 + ChecklistSection.score s8)
          + 8) / 16).
Proof.
  rewrite evaluate_fields. cbv zeta. cbn [LaunchChecklist.overallScore].
  unfold Spec.mean_score. cbn [List.length].
  rewrite Math_round_div by lia. f_equal.
  unfold Spec.total_score. cbn [fold_right Z.of_nat Pos.of_succ_nat Pos.succ].
  f_equal. lia.
Qed.

(** The ranges of the scores of a returned checklist. *)
Lemma launch_scores_in_range projectRoot s c s' :
  Validator.runLaunchChecklist projectRoot s = (Ok c, s') ->
  Forall2 within (LaunchChecklist.sections c) section_score_ranges
  /\ exists z, LaunchChecklist.overallScore c = Num z /\ 60 <= z <= 86.
Proof.
  revert projectRoot s c s'.
  intros projectRoot s c s' Hrun.
  destruct (runLaunchChecklist_sections _ _ _ _ Hrun)
    as (s1 & s2 & s3 & s4 & s5 & s6 & s7 & s8 & -> & B & S).
  destruct B as (B1 & B2 & B3 & B4 & B5 & B6 & B7 & B8).
  repeat match goal with
         | H : Forall _ (_ :: _) |- _ => inversion H; clear H; subst
         end.
  repeat match goal with
         | Hs : ChecklistSection.score ?x = _,
           Hb : map brief (ChecklistSection.items ?x) = _ |- _ =>
             pose proof (score_by_brief x _ Hs Hb); clear Hs Hb
         end.
  pose proof (assets_scores
                (Observed.faviconExists (fs s) projectRoot)
                (Observed.ogImages (fs s) projectRoot)
                (Observed.twitterImages (fs s) projectRoot)
                (Observed.pwaIcons (fs s) projectRoot)
                (Observed.manifestExists (fs s) projectRoot)) as (R1 & _).
  pose proof (seo_scores
                (Observed.sitemapExists (fs s) projectRoot)
                (Observed.robotsExists (fs s) projectRoot)
                (Observed.hasMetaTags (fs s) projectRoot)) as (R2 & _).
  pose proof (performance_scores
                (Observed.buildExists (fs s) projectRoot)
                (Observed.webpImages (fs s) projectRoot)
                (Observed.isNext (fs s) projectRoot)
                (Observed.configOptimized (fs s) projectRoot)) as R3.
  pose proof (security_scores
                (Observed.envIgnored (fs s) projectRoot)
                (Observed.hasSecurityHeaders (fs s) projectRoot)) as R4.
  pose proof (functionality_scores (Observed.has404 (fs s) projectRoot))
    as R5.
  pose proof (documentation_scores
                (Observed.readmeExists (fs s) projectRoot)
                (Observed.changelogExists (fs s) projectRoot)) as R7.
  destruct fixed_scores as (R6 & R8).
  cbv zeta in R1, R2, R3, R4, R5, R7.
  split.
  + rewrite evaluate_fields. cbv zeta. cbn [LaunchChecklist.sections].
    unfold section_score_ranges, within.
    repeat constructor; cbn [fst snd]; lia.
  + rewrite overall_of_eight. eexists. split; [reflexivity|].
    split.
    * apply Z.div_le_lower_bound; lia.
    * apply Z.lt_succ_r. apply Z.div_lt_upper_bound; lia.
Qed.

(** X3.  Whatever the project, the sections of a checklist that
    [runLaunchChecklist] returns score within fixed ranges (Assets 30 to
    100, SEO 40 to 90, Performance 60 to 90, Security 65 to 85,
    Functionality 70 to 80, Documentation 67 to 92, Analytics and Legal
    always 75), and the overall score lies between 60 and 86.  Both ends
    are reached: by an empty Next.js project and by a project in which every
    check passes. *)
Theorem X3_launch_score_between_60_and_86 :
  (forall projectRoot s c s',
     Validator.runLaunchChecklist projectRoot s = (Ok c, s') ->
     Forall2 within (LaunchChecklist.sections c) section_score_ranges
     /\ exists z, LaunchChecklist.overallScore c = Num z /\ 60 <= z <= 86)
  /\ (exists c,
        fst (Validator.runLaunchChecklist Examples.root MoreExamples.bare_next)
        = Ok c
        /\ LaunchChecklist.overallScore c = Num 60)
  /\ (exists c,
        fst (Validator.runLaunchChecklist Examples.root Examples.complete)
        = Ok c
        /\ LaunchChecklist.overallScore c = Num 86).
Proof.
  split; [|split].
  - exact launch_scores_in_range.
  - eexists. split; [vm_compute; reflexivity|reflexivity].
  - eexists. split; [vm_compute; reflexivity|reflexivity].
Qed.

(** Witness of X3 on the bare static project, whose score is 61. *)
Lemma X3_witness :
  exists c,
    fst (Validator.runLaunchChecklist Examples.root Examples.bare) = Ok c
    /\ LaunchChecklist.overallScore c = Num 61
    /\ Forall2 within (LaunchChecklist.sections c) section_score_ranges.
Proof.
  eexists. split; [vm_compute; reflexivity|]. split; [reflexivity|].
  apply (proj1 X3_launch_score_between_60_and_86 Examples.root Examples.bare _
           (snd (Validator.runLaunchChecklist Examples.root Examples.bare))).
  apply outcome_eq. vm_compute; reflexivity.
Defined.

(** The verdict and the critical issues of a returned checklist. *)
Lemma verdict_by_required_files :
  forall projectRoot s c s',
    Validator.runLaunchChecklist projectRoot s = (Ok c, s') ->
    LaunchChecklist.readyToLaunch c
    = Observed.required_files (fs s) projectRoot
    /\ map ChecklistItem.id (LaunchChecklist.criticalIssues c)
       = missing_ids (fs s) projectRoot
    /\ (Observed.required_files (fs s) projectRoot = true ->
        exists z, LaunchChecklist.overallScore c = Num z /\ 70 <= z).
Proof.
  intros projectRoot s c s' Hrun.
  destruct (runLaunchChecklist_sections _ _ _ _ Hrun)
    as (s1 & s2 & s3 & s4 & s5 & s6 & s7 & s8 & -> & B & S).
  destruct B as (B1 & B2 & B3 & B4 & B5 & B6 & B7 & B8).
  assert (Hcrit : map ChecklistItem.id
                    (LaunchChecklist.criticalIssues
                       (Validator.evaluate [s1; s2; s3; s4; s5; s6; s7; s8]
                          (clock s (reads s))))
                  = missing_ids (fs s) projectRoot).
  { rewrite evaluate_fields. cbv zeta. cbn [LaunchChecklist.criticalIssues].
    unfold Spec.all_items. cbn [flat_map]. rewrite app_nil_r.
    rewrite !filter_app, !map_app, !critical_by_brief.
    rewrite B1, B2, B3, B4, B5, B6, B7, B8. unfold missing_ids.
    destruct no_other_critical as (C3 & C4 & C5 & C6 & C7 & C8).
    rewrite assets_critical, seo_critical, C3, C4, C5, C6, C7, C8.
    cbn [app]. now rewrite !app_nil_r, <- app_assoc. }
  assert (Hscore : Observed.required_files (fs s) projectRoot = true ->
                   exists z,
                     LaunchChecklist.overallScore
                       (Validator.evaluate [s1; s2; s3; s4; s5; s6; s7; s8]
                          (clock s (reads s))) = Num z
                     /\ 70 <= z).
  { intros Hreq. unfold Observed.required_files in Hreq.
    apply andb_true_iff in Hreq as [Hreq Hrobots].
    apply andb_true_iff in Hreq as [Hreq Hsitemap].
    apply andb_true_iff in Hreq as [Hfavicon Hog].
    repeat match goal with
           | H : Forall _ (_ :: _) |- _ => inversion H; clear H; subst
           end.
    repeat match goal with
           | Hs : ChecklistSection.score ?x = _,
             Hb : map brief (ChecklistSection.items ?x) = _ |- _ =>
               pose proof (score_by_brief x _ Hs Hb); clear Hs Hb
           end.
    pose proof (assets_scores
                  (Observed.faviconExists (fs s) projectRoot)
                  (Observed.ogImages (fs s) projectRoot)
                  (Observed.twitterImages (fs s) projectRoot)
                  (Observed.pwaIcons (fs s) projectRoot)
                  (Observed.manifestExists (fs s) projectRoot)) as (_ & R1).
    pose proof (seo_scores
                  (Observed.sitemapExists (fs s) projectRoot)
                  (Observed.robotsExists (fs s) projectRoot)
                  (Observed.hasMetaTags (fs s) projectRoot)) as (_ & R2).
    pose proof (performance_scores
                  (Observed.buildExists (fs s) projectRoot)
                  (Observed.webpImages (fs s) projectRoot)
                  (Observed.isNext (fs s) projectRoot)
                  (Observed.configOptimized (fs s) projectRoot)) as R3.
    pose proof (security_scores
                  (Observed.envIgnored (fs s) projectRoot)
                  (Observed.hasSecurityHeaders (fs s) projectRoot)) as R4.
    pose proof (functionality_scores (Observed.has404 (fs s) projectRoot))
      as R5.
    pose proof (documentation_scores
                  (Observed.readmeExists (fs s) projectRoot)
                  (Observed.changelogExists (fs s) projectRoot)) as R7.
    destruct fixed_scores as (R6 & R8).
    cbv zeta in R1, R2, R3, R4, R5, R7.
    specialize (R1 Hfavicon Hog). specialize (R2 Hsitemap Hrobots).
    rewrite overall_of_eight. eexists. split; [reflexivity|].
    apply Z.div_le_lower_bound; lia. }
  split; [|split; assumption].
  pose proof (proj1 (evaluate_readiness_law [s1; s2; s3; s4; s5; s6; s7; s8]
                       (clock s (reads s)))) as Hiff.
  destruct (Observed.required_files (fs s) projectRoot) eqn:Hreq.
  - apply Hiff. split.
    + destruct (LaunchChecklist.criticalIssues _) as [|i l] eqn:C;
        [reflexivity|].
      cbn [map] in Hcrit.
      unfold missing_ids, Observed.required_files in *.
      destruct (Observed.faviconExists (fs s) projectRoot),
               (Observed.ogImages (fs s) projectRoot),
               (Observed.sitemapExists (fs s) projectRoot),
               (Observed.robotsExists (fs s) projectRoot);
        discriminate.
    + exact (Hscore eq_refl).
  - apply not_true_is_false. intros Hready. apply Hiff in Hready as [C _].
    rewrite C in Hcrit. cbn [map] in Hcrit.
    unfold missing_ids, Observed.required_files in *.
    destruct (Observed.faviconExists (fs s) projectRoot),
             (Observed.ogImages (fs s) projectRoot),
             (Observed.sitemapExists (fs s) projectRoot),
             (Observed.robotsExists (fs s) projectRoot);
      discriminate.
Qed.

(** X4.  The verdict of [runLaunchChecklist] is decided by four checks
    alone: a returned checklist is ready to launch if and only if
    [favicon.ico], an Open Graph image, a sitemap and [robots.txt] are
    found.  Its critical issues are exactly those of the four that are
    missing, in that order; no other item can be one, and with none missing
    the overall score is at least 70 whatever else the project lacks.  So
    the threshold of 70 never decides: a returned checklist is ready if and
    only if it has no critical issue. *)
Theorem X4_ready_iff_required_files_found :
  forall projectRoot s c s',
    Validator.runLaunchChecklist projectRoot s = (Ok c, s') ->
    LaunchChecklist.readyToLaunch c
    = Observed.required_files (fs s) projectRoot
    /\ map ChecklistItem.id (LaunchChecklist.criticalIssues c)
       = missing_ids (fs s) projectRoot
    /\ (Observed.required_files (fs s) projectRoot = true ->
        exists z, LaunchChecklist.overallScore c = Num z /\ 70 <= z)
    /\ (LaunchChecklist.readyToLaunch c = true <->
        LaunchChecklist.criticalIssues c = []).
Proof.
  intros projectRoot s c s' Hrun.
  destruct (verdict_by_required_files _ _ _ _ Hrun) as (Hready & Hcrit & Hscore).
  split; [exact Hready|]. split; [exact Hcrit|]. split; [exact Hscore|].
  rewrite Hready.
  assert (Hnil : LaunchChecklist.criticalIssues c = [] <->
                 missing_ids (fs s) projectRoot = []).
  { rewrite <- Hcrit.
    destruct (LaunchChecklist.criticalIssues c); cbn; split; congruence. }
  rewrite Hnil. unfold missing_ids, Observed.required_files.
  destruct (Observed.faviconExists (fs s) projectRoot),
           (Observed.ogImages (fs s) projectRoot),
           (Observed.sitemapExists (fs s) projectRoot),
           (Observed.robotsExists (fs s) projectRoot);
    cbn; split; congruence.
Qed.

(** Witness of X4: a project with nothing but the four required files is
    ready to launch. *)
Lemma X4_witness :
  exists c,
    fst (Validator.runLaunchChecklist Examples.root MoreExamples.minimal)
    = Ok c
    /\ LaunchChecklist.readyToLaunch c = true
    /\ LaunchChecklist.criticalIssues c = []
    /\ LaunchChecklist.overallScore c = Num 71.
Proof.
  eexists. split; [vm_compute; reflexivity|].
  destruct (X4_ready_iff_required_files_found Examples.root
              MoreExamples.minimal _
              (snd (Validator.runLaunchChecklist Examples.root
                      MoreExamples.minimal))
              (outcome_eq _ _ eq_refl))
    as (Hready & _ & _ & _).
  split; [exact Hready|]. split; reflexivity.
Defined.

(* ===================================================================== *)
(** * Where the exceptions of the providers come from *)
(* ===================================================================== *)

Section Rejections.

Variable f : FS.
Variable projectRoot : string.

Ltac from_glob H := left; eexists; exact H.
Ltac from_readFile X H := right; eexists; split; [exact X | exact H].

Lemma checkAssets_throws e :
  Validator.checkAssets f projectRoot = Throw e -> rejected f projectRoot e.
Proof.
  unfold Validator.checkAssets. cbn [bind ret Monad_Exc].
  destruct (glob f "public/*og-image*.{png,jpg}" projectRoot) eqn:G1;
    [|intros [= <-]; from_glob G1].
  destruct (glob f "public/*twitter*.{png,jpg}" projectRoot) eqn:G2;
    [|intros [= <-]; from_glob G2].
  destruct (glob f "public/android-chrome-*.png" projectRoot) eqn:G3;
    [discriminate|intros [= <-]; from_glob G3].
Qed.

Lemma checkSEO_throws e :
  Validator.checkSEO f projectRoot = Throw e -> rejected f projectRoot e.
Proof.
  unfold Validator.checkSEO. cbn [bind ret Monad_Exc].
  destruct (Framework_eqb (detectFramework f projectRoot) next_app);
    [|discriminate].
  destruct (existsSync f (path_join projectRoot "app/layout.tsx")) eqn:X;
    [|discriminate].
  destruct (readFile f (path_join projectRoot "app/layout.tsx")) eqn:R;
    [discriminate|intros [= <-]; from_readFile X R].
Qed.

Lemma checkPerformance_throws e :
  Validator.checkPerformance f projectRoot = Throw e ->
  rejected f projectRoot e.
Proof.
  unfold Validator.checkPerformance. cbn [bind ret Monad_Exc].
  destruct (glob f "public/**/*.webp" projectRoot) eqn:G;
    [|intros [= <-]; from_glob G].
  destruct (Validator.is_next (detectFramework f projectRoot));
    [|discriminate].
  destruct (existsSync f (path_join projectRoot "next.config.js")) eqn:X;
    [|discriminate].
  destruct (readFile f (path_join projectRoot "next.config.js")) eqn:R;
    [discriminate|intros [= <-]; from_readFile X R].
Qed.

Lemma checkSecurity_throws e :
  Validator.checkSecurity f projectRoot = Throw e -> rejected f projectRoot e.
Proof.
  unfold Validator.checkSecurity. cbn [bind ret Monad_Exc].
  assert (Hconfig :
    forall k : bool -> Exc ChecklistSection,
      (forall b, k b <> Throw e) ->
      match
        (if Validator.is_next (detectFramework f projectRoot)
         then if existsSync f (path_join projectRoot "next.config.js")
              then match readFile f (path_join projectRoot "next.config.js")
                   with
                   | Ok content => Ok (includes content "headers()")
                   | Throw e0 => Throw e0
                   end
              else Ok false
         else Ok false)
      with
      | Ok b => k b
      | Throw e0 => Throw e0
      end = Throw e ->
      rejected f projectRoot e).
  { intros k Hk.
    destruct (Validator.is_next (detectFramework f projectRoot));
      [|intros H; now apply Hk in H].
    destruct (existsSync f (path_join projectRoot "next.config.js")) eqn:X;
      [|intros H; now apply Hk in H].
    destruct (readFile f (path_join projectRoot "next.config.js")) eqn:R;
      [intros H; now apply Hk in H|intros [= <-]; from_readFile X R]. }
  destruct (existsSync f (path_join projectRoot ".gitignore")) eqn:X.
  - destruct (readFile f (path_join projectRoot ".gitignore")) eqn:R;
      [|intros [= <-]; from_readFile X R].
    apply Hconfig. discriminate.
  - apply Hconfig. discriminate.
Qed.

Lemma quiet_providers :
  returns_on f projectRoot Validator.checkFunctionality
  /\ returns_on f projectRoot Validator.checkAnalytics
  /\ returns_on f projectRoot Validator.checkDocumentation
  /\ returns_on f projectRoot Validator.checkLegal.
Proof. repeat split; eexists; reflexivity. Qed.

Lemma provider_throws p e :
  In p providers -> p f projectRoot = Throw e -> rejected f projectRoot e.
Proof.
  destruct quiet_providers as ([? Q5] & [? Q6] & [? Q7] & [? Q8]).
  intros [<-|[<-|[<-|[<-|[<-|[<-|[<-|[<-|[]]]]]]]]] H.
  - now apply checkAssets_throws.
  - now apply checkSEO_throws.
  - now apply checkPerformance_throws.
  - now apply checkSecurity_throws.
  - congruence.
  - congruence.
  - congruence.
  - congruence.
Qed.

Lemma provider_returns p :
  readable f projectRoot -> In p providers -> returns_on f projectRoot p.
Proof.
  intros [Hglob Hread] Hin. unfold returns_on.
  destruct (p f projectRoot) as [sec|e] eqn:E; [now exists sec|].
  destruct (provider_throws p e Hin E) as [[pattern G]|[path [X R]]].
  - destruct (Hglob pattern) as [l Hl]. congruence.
  - destruct (Hread path X) as [c Hc]. congruence.
Qed.

End Rejections.

(** X5.  [runLaunchChecklist] throws nothing of its own: an exception that
    leaves it is the rejection of a [glob] in the project or of the
    [readFile] of a file that exists.  So it returns a checklist whenever
    no such call is rejected; and the last four providers (Functionality,
    Analytics, Documentation, Legal) never throw at all. *)
Theorem X5_runLaunchChecklist_throws_only_rejected_reads :
  forall projectRoot s,
    (forall e,
       fst (Validator.runLaunchChecklist projectRoot s) = Throw e ->
       rejected (fs s) projectRoot e)
    /\ (readable (fs s) projectRoot ->
        exists c s', Validator.runLaunchChecklist projectRoot s = (Ok c, s'))
    /\ (returns_on (fs s) projectRoot Validator.checkFunctionality
        /\ returns_on (fs s) projectRoot Validator.checkAnalytics
        /\ returns_on (fs s) projectRoot Validator.checkDocumentation
        /\ returns_on (fs s) projectRoot Validator.checkLegal).
Proof.
  intros projectRoot s. split; [|split].
  - intros e. rewrite runLaunchChecklist_gather.
    destruct (gather providers (fs s) projectRoot) as [sections|e'] eqn:G;
      [discriminate|].
    cbn [fst]. intros [= ->].
    destruct (gather_throws _ _ _ _ G) as (before & p & after & Hps & _ & Hp).
    apply (provider_throws (fs s) projectRoot p e); [|exact Hp].
    rewrite Hps. apply in_or_app. right. now left.
  - intros Hread.
    assert (Hall : Forall (returns_on (fs s) projectRoot) providers).
    { apply Forall_forall. intros p Hin. now apply provider_returns. }
    apply gather_returns in Hall as [sections G].
    rewrite runLaunchChecklist_gather, G. now eexists; eexists.
  - apply quiet_providers.
Qed.

(** Witness of X5: the project whose [.gitignore] is a directory, and the
    bare project. *)
Lemma X5_witness :
  rejected Examples.gitignore_dir_fs Examples.root
    "Error: EISDIR: illegal operation on a directory, read"
  /\ exists c,
       fst (Validator.runLaunchChecklist Examples.root Examples.bare) = Ok c.
Proof.
  split.
  - apply (proj1 (X5_runLaunchChecklist_throws_only_rejected_reads
                    Examples.root Examples.gitignore_dir)).
    vm_compute; reflexivity.
  - destruct (proj1 (proj2 (X5_runLaunchChecklist_throws_only_rejected_reads
                              Examples.root Examples.bare)))
      as (c & s' & E).
    + split.
      * intros pattern. now exists [].
      * intros path X. discriminate X.
    + exists c. now rewrite E.
Defined.

(* ===================================================================== *)
(** * The items of a checklist *)
(* ===================================================================== *)

Lemma distinct_NoDup (l : list string) : distinct l = true -> NoDup l.
Proof.
  induction l as [|x l IH]; cbn [distinct]; [constructor|].
  intros H. apply andb_true_iff in H as [Hx Hl].
  constructor; [|now apply IH].
  intros Hin. apply negb_true_iff in Hx.
  assert (E : existsb (String.eqb x) l = true).
  { apply existsb_exists. exists x. split; [exact Hin|apply String.eqb_refl]. }
  congruence.
Qed.

Lemma ids_by_brief (items : list ChecklistItem) :
  map ChecklistItem.id items = map (fun b => fst (fst b)) (map brief items).
Proof. now rewrite map_map. Qed.

(** X6.  The items of a checklist that [runLaunchChecklist] returns are
    always the same, in the same order: 33 items, or 34 for a Next.js
    project (which has one more, [config-optimized]); and no identifier
    occurs twice in a checklist. *)
Theorem X6_checklist_items_fixed_and_ids_distinct :
  forall projectRoot s c s',
    Validator.runLaunchChecklist projectRoot s = (Ok c, s') ->
    let items := Spec.all_items (LaunchChecklist.sections c) in
    map ChecklistItem.id items
    = item_ids (Observed.isNext (fs s) projectRoot)
    /\ NoDup (map ChecklistItem.id items)
    /\ List.length items
       = (if Observed.isNext (fs s) projectRoot then 34 else 33)%nat.
Proof.
  intros projectRoot s c s' Hrun items.
  destruct (runLaunchChecklist_sections _ _ _ _ Hrun)
    as (s1 & s2 & s3 & s4 & s5 & s6 & s7 & s8 & -> & B & _).
  destruct B as (B1 & B2 & B3 & B4 & B5 & B6 & B7 & B8).
  assert (Hids : map ChecklistItem.id items
                 = item_ids (Observed.isNext (fs s) projectRoot)).
  { subst items. rewrite evaluate_fields. cbv zeta.
    cbn [LaunchChecklist.sections].
    unfold Spec.all_items. cbn [flat_map]. rewrite app_nil_r.
    rewrite !map_app, !ids_by_brief.
    rewrite B1, B2, B3, B4, B5, B6, B7, B8.
    destruct (Observed.isNext (fs s) projectRoot); reflexivity. }
  split; [exact Hids|]. split.
  - rewrite Hids. apply distinct_NoDup.
    destruct (Observed.isNext (fs s) projectRoot); vm_compute; reflexivity.
  - rewrite <- (length_map ChecklistItem.id), Hids.
    destruct (Observed.isNext (fs s) projectRoot); reflexivity.
Qed.

(** Witness of X6 on the empty Next.js project. *)
Lemma X6_witness :
  exists c,
    fst (Validator.runLaunchChecklist Examples.root MoreExamples.bare_next)
    = Ok c
    /\ List.length (Spec.all_items (LaunchChecklist.sections c)) = 34%nat.
Proof.
  eexists. split; [vm_compute; reflexivity|].
  apply (X6_checklist_items_fixed_and_ids_distinct Examples.root
           MoreExamples.bare_next _
           (snd (Validator.runLaunchChecklist Examples.root
                   MoreExamples.bare_next))
           (outcome_eq _ _ eq_refl)).
Defined.

(* ===================================================================== *)
(** * [getQuickStatus] *)
(* ===================================================================== *)

Lemma getQuickStatus_run projectRoot s :
  getQuickStatus projectRoot s
  = match Validator.runLaunchChecklist projectRoot s with
    | (Ok c, s') =>
        (Ok {| ready := LaunchChecklist.readyToLaunch c;
               quick_score := LaunchChecklist.overallScore c;
               missing := map ChecklistItem.name
                              (LaunchChecklist.criticalIssues c) |}, s')
    | (Throw e, s') => (Throw e, s')
    end.
Proof.
  unfold getQuickStatus. cbn [bind ret Monad_M].
  now destruct (Validator.runLaunchChecklist projectRoot s) as [[c|e] s'].
Qed.

(** X7.  [getQuickStatus] says [ready] exactly when its [missing] list is
    empty, that is when the four required files are found; the list has one
    name per required file that is not found, so at most four; and the
    score it reports lies between 60 and 86.  It throws what
    [runLaunchChecklist] throws. *)
Theorem X7_getQuickStatus_ready_iff_nothing_missing :
  forall projectRoot s,
    (forall q s',
       getQuickStatus projectRoot s = (Ok q, s') ->
       (ready q = true <-> missing q = [])
       /\ ready q = Observed.required_files (fs s) projectRoot
       /\ List.length (missing q)
          = List.length (missing_ids (fs s) projectRoot)
       /\ (List.length (missing q) <= 4)%nat
       /\ exists z, quick_score q = Num z /\ 60 <= z <= 86)
    /\ (forall e,
          fst (getQuickStatus projectRoot s) = Throw e <->
          fst (Validator.runLaunchChecklist projectRoot s) = Throw e).
Proof.
  intros projectRoot s. split.
  - intros q s'. rewrite getQuickStatus_run.
    destruct (Validator.runLaunchChecklist projectRoot s) as [[c|e] s1] eqn:R;
      [|discriminate].
    intros [= <- <-]. cbn [ready missing quick_score].
    destruct (verdict_by_required_files projectRoot s c s1 R) as (Hready & Hcrit & _).
    assert (Hlen : List.length (map ChecklistItem.name
                                    (LaunchChecklist.criticalIssues c))
                   = List.length (missing_ids (fs s) projectRoot)).
    { now rewrite <- Hcrit, !length_map. }
    assert (Hfour : (List.length (missing_ids (fs s) projectRoot) <= 4)%nat).
    { unfold missing_ids.
      destruct (Observed.faviconExists (fs s) projectRoot),
               (Observed.ogImages (fs s) projectRoot),
               (Observed.sitemapExists (fs s) projectRoot),
               (Observed.robotsExists (fs s) projectRoot); cbn; lia. }
    split; [|split; [exact Hready|split; [exact Hlen|split; [lia|]]]].
    + rewrite Hready.
      assert (Hnil : map ChecklistItem.name (LaunchChecklist.criticalIssues c)
                     = [] <->
                     missing_ids (fs s) projectRoot = []).
      { rewrite <- !length_zero_iff_nil. now rewrite Hlen. }
      rewrite Hnil. unfold missing_ids, Observed.required_files.
      destruct (Observed.faviconExists (fs s) projectRoot),
               (Observed.ogImages (fs s) projectRoot),
               (Observed.sitemapExists (fs s) projectRoot),
               (Observed.robotsExists (fs s) projectRoot);
        cbn; split; congruence.
    + exact (proj2 (launch_scores_in_range projectRoot s c s1 R)).
  - intros e. rewrite getQuickStatus_run.
    destruct (Validator.runLaunchChecklist projectRoot s) as [[c|e'] s1];
      cbn [fst]; split; congruence.
Qed.

(** Witness of X7 on the bare project, which misses all four files. *)
Lemma X7_witness :
  exists q,
    fst (getQuickStatus Examples.root Examples.bare) = Ok q
    /\ ready q = false
    /\ missing q = ["Favicon generated"; "Open Graph images created";
                    "Sitemap generated"; "Robots.txt created"].
Proof.
  eexists. split; [vm_compute; reflexivity|].
  split; [|reflexivity].
  destruct (proj1 (X7_getQuickStatus_ready_iff_nothing_missing Examples.root
                     Examples.bare) _
              (snd (getQuickStatus Examples.root Examples.bare))
              (outcome_eq _ _ eq_refl))
    as (_ & Hready & _).
  exact Hready.
Defined.

(* ===================================================================== *)
(** * More on the Workflow Step Runner *)
(* ===================================================================== *)

(** A step function whose [try] block, when it ends normally, has marked
    the step completed or skipped and given it a result, leaves a settled
    step. *)
Lemma step_function_settles id name description
    (body : WorkflowStep -> M WorkflowStep) :
  (forall step s done s1,
     body step s = (Ok done, s1) ->
     exists status r,
       done = Orchestrator.with_result step status r
       /\ (status = completed \/ status = skipped)) ->
  forall st,
    produced_by
      (startTime <- new_Date ;;
       let step := Orchestrator.new_step id name description startTime in
       r <- try (body step) ;;
       Orchestrator.finish (Orchestrator.caught step r))
      st ->
    settled st.
Proof.
  intros Hbody st (s0 & s1 & E).
  rewrite (bind_ok _ _ _ _ _ (new_Date_run s0)) in E. cbv zeta in E.
  set (step := Orchestrator.new_step id name description _) in E.
  destruct (body step (snd (new_Date s0))) as [[done|e] s2] eqn:B.
  - rewrite (bind_ok _ _ _ _ _ (try_run _ _ _ _ B)) in E.
    destruct (Hbody _ _ _ _ B) as (status & r & -> & Hst).
    injection E as <- _. unfold settled. cbn. repeat split.
    + destruct Hst as [-> | ->]; tauto.
    + now eexists; eexists.
    + destruct Hst as [-> | ->]; discriminate.
    + intros [e He]. discriminate.
    + destruct Hst as [-> | ->]; discriminate.
    + discriminate.
  - rewrite (bind_ok _ _ _ _ _ (try_run _ _ _ _ B)) in E.
    injection E as <- _. unfold settled. cbn. repeat split.
    + tauto.
    + now eexists; eexists.
    + now exists e.
Qed.

Section TryBlocks.

Variable tools : Tools.
Variable projectRoot : string.

Lemma runAssetGeneration_try_ends step s done s1 :
  Orchestrator.runAssetGeneration_try tools projectRoot step s
  = (Ok done, s1) ->
  exists status r,
    done = Orchestrator.with_result step status r
    /\ (status = completed \/ status = skipped).
Proof.
  unfold Orchestrator.runAssetGeneration_try. cbn [bind ret Monad_M].
  destruct (analyzeImages tools projectRoot s) as [[a|e] s2]; [|discriminate].
  destruct (0 <? totalImages a).
  - destruct (optimizeImages tools projectRoot _ s2) as [[l|e] s3];
      [|discriminate].
    intros [= <- _]. eexists. eexists. split; [reflexivity|now left].
  - intros [= <- _]. eexists. eexists. split; [reflexivity|now right].
Qed.

Lemma runSEOOptimization_try_ends step s done s1 :
  Orchestrator.runSEOOptimization_try projectRoot step s = (Ok done, s1) ->
  exists status r,
    done = Orchestrator.with_result step status r
    /\ (status = completed \/ status = skipped).
Proof.
  unfold Orchestrator.runSEOOptimization_try, Orchestrator.checkFileExists,
    snapshot.
  cbn [bind ret Monad_M].
  repeat match goal with
         | |- context [if ?b then _ else _] => destruct b
         end;
    cbn [bind ret Monad_M]; intros [= <- _];
    (eexists; eexists; split; [reflexivity|now left]).
Qed.

Lemma runPerformanceOptimization_try_ends step s done s1 :
  Orchestrator.runPerformanceOptimization_try tools projectRoot step s
  = (Ok done, s1) ->
  exists status r,
    done = Orchestrator.with_result step status r
    /\ (status = completed \/ status = skipped).
Proof.
  unfold Orchestrator.runPerformanceOptimization_try. cbn [bind ret Monad_M].
  destruct (optimizeImages tools projectRoot _ s) as [[l|e] s2];
    [|discriminate].
  intros [= <- _]. eexists. eexists. split; [reflexivity|now left].
Qed.

Lemma runLaunchChecklistValidation_try_ends step s done s1 :
  Orchestrator.runLaunchChecklistValidation_try projectRoot step s
  = (Ok done, s1) ->
  exists status r,
    done = Orchestrator.with_result step status r
    /\ (status = completed \/ status = skipped).
Proof.
  unfold Orchestrator.runLaunchChecklistValidation_try.
  cbn [bind ret Monad_M].
  destruct (Validator.runLaunchChecklist projectRoot s) as [[c|e] s2];
    [|discriminate].
  intros [= <- _]. eexists. eexists. split; [reflexivity|now left].
Qed.

Lemma runDeployment_try_ends step s done s1 :
  Orchestrator.runDeployment_try step s = (Ok done, s1) ->
  exists status r,
    done = Orchestrator.with_result step status r
    /\ (status = completed \/ status = skipped).
Proof.
  unfold Orchestrator.runDeployment_try. cbn [bind ret Monad_M].
  intros [= <- _]. eexists. eexists. split; [reflexivity|now right].
Qed.

End TryBlocks.

Lemma step_functions_settle tools projectRoot config production f st :
  In f (step_functions tools projectRoot config production) ->
  produced_by f st -> settled st.
Proof.
  intros [<-|[<-|[<-|[<-|[<-|[]]]]]].
  - apply step_function_settles. apply runAssetGeneration_try_ends.
  - apply step_function_settles. apply runSEOOptimization_try_ends.
  - apply step_function_settles. apply runPerformanceOptimization_try_ends.
  - apply step_function_settles. apply runLaunchChecklistValidation_try_ends.
  - apply step_function_settles. intros step. apply runDeployment_try_ends.
Qed.

(** X8.  Every step a step function returns, and so every step a run
    records, is in a terminal state (completed, failed or skipped, never
    pending or running), carries its start time, its end time and their
    difference as duration, has an error exactly when it failed and a
    result exactly when it did not. *)
Theorem X8_recorded_steps_are_settled :
  (forall tools projectRoot config production f st,
     In f (step_functions tools projectRoot config production) ->
     produced_by f st -> settled st)
  /\ (forall tools projectRoot config s result s',
        Orchestrator.runCompleteWorkflow tools projectRoot config s
        = (Ok result, s') ->
        Forall settled (WorkflowResult.steps result)).
Proof.
  split; [exact step_functions_settle|].
  intros tools projectRoot config s result s' Hrun.
  destruct (runCompleteWorkflow_run tools projectRoot config s)
    as (result0 & s0 & early & checklistStep & late
        & E & Hsteps & _ & Pearly & _ & Pcheck & _ & Plate & _).
  rewrite E in Hrun. injection Hrun as <- _.
  rewrite Hsteps. apply Forall_app. split; [|constructor].
  - eapply Forall_impl; [|exact Pearly].
    intros st [P|[P|P]];
      eapply (step_functions_settle tools projectRoot
                (Orchestrator.spread Orchestrator.DEFAULT_CONFIG config) false);
      try exact P; cbn; tauto.
  - eapply (step_functions_settle tools projectRoot config false);
      [|exact Pcheck]. cbn; tauto.
  - eapply Forall_impl; [|exact Plate].
    intros st P.
    eapply (step_functions_settle tools projectRoot config); [|exact P].
    cbn; tauto.
Qed.

(** Witness of X8: the run on the complete project with broken image
    tools. *)
Lemma X8_witness :
  exists result,
    fst (Orchestrator.runCompleteWorkflow Examples.broken_tools Examples.root
           Examples.deploying Examples.complete) = Ok result
    /\ Forall settled (WorkflowResult.steps result)
    /\ map WorkflowStep.duration (WorkflowResult.steps result)
       = [Some 1000; Some 1000; Some 1000; Some 2000; Some 1000].
Proof.
  eexists. split; [vm_compute; reflexivity|]. split; [|reflexivity].
  apply (proj2 X8_recorded_steps_are_settled Examples.broken_tools
           Examples.root Examples.deploying Examples.complete _
           (snd (Orchestrator.runCompleteWorkflow Examples.broken_tools
                   Examples.root Examples.deploying Examples.complete))).
  apply outcome_eq. vm_compute; reflexivity.
Defined.

(** The run, laid out as before, with the address of the deployment and
    the summary. *)
Lemma runCompleteWorkflow_whole (tools : Tools) (projectRoot : string)
    (config : WorkflowConfig) (s : State) :
  let finalConfig := Orchestrator.spread Orchestrator.DEFAULT_CONFIG config in
  exists result s' early checklistStep late,
    Orchestrator.runCompleteWorkflow tools projectRoot config s
    = (Ok result, s')
    /\ WorkflowResult.steps result = early ++ checklistStep :: late
    /\ map WorkflowStep.id early = early_ids finalConfig
    /\ Forall
         (fun st =>
            produced_by (Orchestrator.runAssetGeneration tools projectRoot) st
            \/ produced_by (Orchestrator.runSEOOptimization projectRoot) st
            \/ produced_by
                 (Orchestrator.runPerformanceOptimization tools projectRoot
                    finalConfig) st)
         early
    /\ WorkflowStep.id checklistStep = "launch-checklist"
    /\ produced_by (Orchestrator.runLaunchChecklistValidation projectRoot)
         checklistStep
    /\ map WorkflowStep.id late = late_ids finalConfig checklistStep
    /\ Forall
         (produced_by
            (Orchestrator.runDeployment projectRoot
               (Orchestrator.truthy (WorkflowConfig.production finalConfig))))
         late
    /\ WorkflowResult.launchChecklist result
       = Orchestrator.as_LaunchChecklist (WorkflowStep.result checklistStep)
    /\ (WorkflowStep.status checklistStep = failed ->
        WorkflowStep.result checklistStep = None)
    /\ WorkflowResult.overallSuccess result
       = forallb Orchestrator.succeeded (WorkflowResult.steps result)
    /\ WorkflowResult.deploymentUrl result
       = match late with
         | [] => None
         | deployStep :: _ =>
             Orchestrator.get_url (WorkflowStep.result deployStep)
         end
    /\ WorkflowResult.summary result
       = Summary.mk
           (Orchestrator.get_assetsGenerated
              (Orchestrator.result_at (WorkflowResult.steps result) 0))
           (Orchestrator.get_seoScore
              (Orchestrator.result_at (WorkflowResult.steps result) 1))
           (Orchestrator.get_performanceScore
              (Orchestrator.result_at (WorkflowResult.steps result) 2))
           (Orchestrator.reported_score
              (WorkflowResult.launchChecklist result))
           (Orchestrator.reported_ready
              (WorkflowResult.launchChecklist result)).
Proof.
  intros finalConfig.
  unfold Orchestrator.runCompleteWorkflow. cbv zeta. fold finalConfig.
  rewrite (bind_ok _ _ _ _ _ (new_Date_run s)).
  destruct (optional_step
              (negb (Orchestrator.truthy (WorkflowConfig.skipAssets finalConfig)))
              _ _ [] (snd (new_Date s))
              (runAssetGeneration_records tools projectRoot))
    as (new1 & s1 & E1 & I1 & P1).
  rewrite (bind_ok _ _ _ _ _ E1).
  destruct (optional_step
              (negb (Orchestrator.truthy (WorkflowConfig.skipSEO finalConfig)))
              _ _ ([] ++ new1) s1 (runSEOOptimization_records projectRoot))
    as (new2 & s2 & E2 & I2 & P2).
  rewrite (bind_ok _ _ _ _ _ E2).
  destruct (optional_step
              (negb (Orchestrator.truthy (WorkflowConfig.skipPerf finalConfig)))
              _ _ (([] ++ new1) ++ new2) s2
              (runPerformanceOptimization_records tools projectRoot finalConfig))
    as (new3 & s3 & E3 & I3 & P3).
  rewrite (bind_ok _ _ _ _ _ E3).
  set (early := (([] ++ new1) ++ new2) ++ new3).
  destruct (runLaunchChecklistValidation_run projectRoot s3)
    as (checklistStep & s4 & E4 & I4 & O4).
  rewrite (bind_ok _ _ _ _ _ E4).
  set (launchChecklist :=
         Orchestrator.as_LaunchChecklist (WorkflowStep.result checklistStep)).
  assert (Hfail : WorkflowStep.status checklistStep = failed ->
                  WorkflowStep.result checklistStep = None).
  { destruct (Validator.runLaunchChecklist projectRoot (snd (new_Date s3)))
      as [[c|e] ?].
    - destruct O4 as (-> & _). discriminate.
    - now destruct O4 as (_ & _ & ->). }
  assert (Hearly : map WorkflowStep.id early = early_ids finalConfig).
  { unfold early, early_ids. rewrite !map_app, I1, I2, I3. cbn [map app].
    rewrite <- app_assoc.
    destruct (Orchestrator.truthy (WorkflowConfig.skipAssets finalConfig)),
             (Orchestrator.truthy (WorkflowConfig.skipSEO finalConfig)),
             (Orchestrator.truthy (WorkflowConfig.skipPerf finalConfig));
      reflexivity. }
  assert (Hprod : Forall
            (fun st =>
               produced_by (Orchestrator.runAssetGeneration tools projectRoot) st
               \/ produced_by (Orchestrator.runSEOOptimization projectRoot) st
               \/ produced_by
                    (Orchestrator.runPerformanceOptimization tools projectRoot
                       finalConfig) st)
            early).
  { unfold early. rewrite !Forall_app. repeat split; [constructor| | |].
    - eapply Forall_impl; [|exact P1]. tauto.
    - eapply Forall_impl; [|exact P2]. tauto.
    - eapply Forall_impl; [|exact P3]. tauto. }
  assert (Hcheck : produced_by
                     (Orchestrator.runLaunchChecklistValidation projectRoot)
                     checklistStep) by now exists s3, s4.
  destruct (negb (Orchestrator.truthy (WorkflowConfig.skipDeploy finalConfig))
            && Orchestrator.reported_ready launchChecklist) eqn:D.
  - destruct (runDeployment_records projectRoot
                (Orchestrator.truthy (WorkflowConfig.production finalConfig)) s4)
      as (deployStep & s5 & E5 & I5).
    rewrite (bind_ok _ _ _ _ _ (bind_ok _ _ _ _ _ E5)).
    cbv beta iota.
    rewrite (bind_ok _ _ _ _ _ (new_Date_run s5)).
    eexists. eexists. exists early, checklistStep, [deployStep].
    split; [reflexivity|].
    cbn [WorkflowResult.steps WorkflowResult.launchChecklist
         WorkflowResult.overallSuccess WorkflowResult.deploymentUrl
         WorkflowResult.summary].
    unfold push. rewrite <- app_assoc. cbn [app map].
    unfold late_ids. fold launchChecklist. rewrite D, I5.
    repeat split; try assumption; try reflexivity.
    constructor; [now exists s4, s5|constructor].
  - cbv iota. rewrite bind_ret.
    cbv beta iota.
    rewrite (bind_ok _ _ _ _ _ (new_Date_run s4)).
    eexists. eexists. exists early, checklistStep, [].
    split; [reflexivity|].
    cbn [WorkflowResult.steps WorkflowResult.launchChecklist
         WorkflowResult.overallSuccess WorkflowResult.deploymentUrl
         WorkflowResult.summary].
    unfold late_ids. fold launchChecklist. rewrite D.
    repeat split; try assumption; try reflexivity. constructor.
Qed.

Lemma runSEOOptimization_try_run projectRoot step s :
  Orchestrator.runSEOOptimization_try projectRoot step s
  = (Ok (Orchestrator.with_result step completed
           (SEOChecked (25 * seo_items_found (fs s) projectRoot)
                       (seo_items_found (fs s) projectRoot) 4)),
     s).
Proof.
  unfold Orchestrator.runSEOOptimization_try, Orchestrator.checkFileExists,
    snapshot, seo_items_found.
  cbn [bind ret Monad_M].
  destruct (Framework_eqb (detectFramework (fs s) projectRoot) next_app);
    cbn [bind ret Monad_M];
    repeat match goal with
           | |- context [access (fs s) ?p] => destruct (access (fs s) p)
           end;
    reflexivity.
Qed.

(** X9.  The SEO step never fails: it always ends completed, with a score
    of 25 points for each of at most four files it finds, the fourth
    ([app/layout.tsx]) being looked for only in a Next.js App Router
    project; so for any other project the score is at most 75. *)
Theorem X9_seo_step_completes_with_25_points_per_file :
  forall projectRoot s,
    exists st s',
      Orchestrator.runSEOOptimization projectRoot s = (Ok st, s')
      /\ WorkflowStep.status st = completed
      /\ WorkflowStep.error st = None
      /\ WorkflowStep.result st
         = Some (SEOChecked (25 * seo_items_found (fs s) projectRoot)
                            (seo_items_found (fs s) projectRoot) 4)
      /\ 0 <= seo_items_found (fs s) projectRoot <= 4
      /\ (detectFramework (fs s) projectRoot <> next_app ->
          25 * seo_items_found (fs s) projectRoot <= 75).
Proof.
  intros projectRoot s. unfold Orchestrator.runSEOOptimization.
  rewrite (bind_ok _ _ _ _ _ (new_Date_run s)). cbv zeta.
  set (step := Orchestrator.new_step _ _ _ _).
  destruct (try_catch_ok step _ _ _ _
              (runSEOOptimization_try_run projectRoot step (snd (new_Date s))))
    as (st & -> & _ & Hs & He & Hr).
  exists st. eexists. split; [reflexivity|].
  split; [exact Hs|]. split; [exact He|]. split; [exact Hr|].
  unfold seo_items_found.
  split.
  - destruct (Framework_eqb _ _);
      repeat match goal with
             | |- context [access (fs s) ?p] => destruct (access (fs s) p)
             end; cbn; lia.
  - intros Hnot.
    assert (E : Framework_eqb (detectFramework (fs s) projectRoot) next_app
                = false)
      by (destruct (detectFramework (fs s) projectRoot); try reflexivity;
          congruence).
    rewrite E.
    repeat match goal with
           | |- context [access (fs s) ?p] => destruct (access (fs s) p)
           end; cbn; lia.
Qed.

(** Witness of X9: the complete static variant scores 75. *)
Lemma X9_witness :
  25 * seo_items_found MoreExamples.static_all_fs Examples.root <= 75
  /\ seo_items_found MoreExamples.static_all_fs Examples.root = 3.
Proof.
  split; [|reflexivity].
  destruct (X9_seo_step_completes_with_25_points_per_file Examples.root
              (Examples.state_of MoreExamples.static_all_fs))
    as (st & s' & _ & _ & _ & _ & _ & H).
  apply H. discriminate.
Defined.

Lemma runPerformanceOptimization_try_run tools projectRoot step s l s1 :
  optimizeImages tools projectRoot performance_options s = (Ok l, s1) ->
  Orchestrator.runPerformanceOptimization_try tools projectRoot step s
  = (Ok (Orchestrator.with_result step completed
           (PerfOptimized
              (70 + (if (0 <? List.length l)%nat then 10 else 0)
                  + (if 1000000 <? Orchestrator.sum_savings l then 10 else 0))
              (Z.of_nat (List.length l))
              (Orchestrator.sum_savings l))),
     s1).
Proof.
  intros E. unfold Orchestrator.runPerformanceOptimization_try.
  fold performance_options. rewrite (bind_ok _ _ _ _ _ E).
  cbn [ret Monad_M].
  destruct (0 <? List.length l)%nat, (1000000 <? Orchestrator.sum_savings l);
    reflexivity.
Qed.

(** X10.  When [optimizeImages] returns, the performance step ends
    completed with an estimated score of 70, 80 or 90: 70 exactly when no
    image was optimised, and 90 exactly when more than 1,000,000 bytes were
    saved on at least one image.  When [optimizeImages] throws, the step ends
    failed with that exception. *)
Theorem X10_performance_step_scores_70_80_or_90 :
  forall tools projectRoot config s,
    (forall l s1,
       optimizeImages tools projectRoot performance_options
         (snd (new_Date s)) = (Ok l, s1) ->
       exists st score,
         Orchestrator.runPerformanceOptimization tools projectRoot config s
         = (Ok st, snd (new_Date s1))
         /\ WorkflowStep.status st = completed
         /\ WorkflowStep.result st
            = Some (PerfOptimized score (Z.of_nat (List.length l))
                                  (Orchestrator.sum_savings l))
         /\ (score = 70 \/ score = 80 \/ score = 90)
         /\ (score = 70 <-> l = [])
         /\ (score = 90 <->
             l <> [] /\ 1000000 < Orchestrator.sum_savings l))
    /\ (forall e s1,
          optimizeImages tools projectRoot performance_options
            (snd (new_Date s)) = (Throw e, s1) ->
          exists st,
            Orchestrator.runPerformanceOptimization tools projectRoot config s
            = (Ok st, snd (new_Date s1))
            /\ WorkflowStep.status st = failed
            /\ WorkflowStep.error st = Some e
            /\ WorkflowStep.result st = None).
Proof.
  intros tools projectRoot config s. split.
  - intros l s1 E. unfold Orchestrator.runPerformanceOptimization.
    rewrite (bind_ok _ _ _ _ _ (new_Date_run s)). cbv zeta.
    set (step := Orchestrator.new_step _ _ _ _).
    destruct (try_catch_ok step _ _ _ _
                (runPerformanceOptimization_try_run tools projectRoot step
                   _ _ _ E))
      as (st & -> & _ & Hs & _ & Hr).
    exists st. eexists. split; [reflexivity|].
    split; [exact Hs|]. split; [exact Hr|].
    destruct l as [|x l].
    + cbn. intuition (try congruence; try lia).
    + cbn [List.length Nat.ltb Nat.leb].
      destruct (1000000 <? Orchestrator.sum_savings (x :: l)) eqn:B.
      * apply Z.ltb_lt in B. cbn [Z.add Pos.add Pos.succ Pos.add_carry].
        intuition (try congruence; try lia).
      * apply Z.ltb_ge in B. cbn [Z.add Pos.add Pos.succ Pos.add_carry].
        intuition (try congruence; try lia).
  - intros e s1 E. unfold Orchestrator.runPerformanceOptimization.
    rewrite (bind_ok _ _ _ _ _ (new_Date_run s)). cbv zeta.
    set (step := Orchestrator.new_step _ _ _ _).
    assert (B : Orchestrator.runPerformanceOptimization_try tools projectRoot
                  step (snd (new_Date s)) = (Throw e, s1)).
    { unfold Orchestrator.runPerformanceOptimization_try.
      fold performance_options. now rewrite (bind_throw _ _ _ _ _ E). }
    destruct (try_catch_throw step _ _ _ _ B) as (st & -> & _ & Hs & He & Hr).
    exists st. now repeat split.
Qed.

(** Witness of X10: two images that save 1,100,000 bytes, and image tools
    that throw. *)
Lemma X10_witness :
  (exists st,
     fst (Orchestrator.runPerformanceOptimization Examples.tools Examples.root
            Examples.deploying Examples.bare) = Ok st
     /\ WorkflowStep.result st = Some (PerfOptimized 90 2 1100000))
  /\ (exists st,
        fst (Orchestrator.runPerformanceOptimization Examples.broken_tools
               Examples.root Examples.deploying Examples.bare) = Ok st
        /\ WorkflowStep.status st = failed).
Proof.
  split.
  - destruct (proj1 (X10_performance_step_scores_70_80_or_90 Examples.tools
                       Examples.root Examples.deploying Examples.bare)
                [{| savings := 600000 |}; {| savings := 500000 |}]
                (snd (new_Date Examples.bare)) eq_refl)
      as (st & score & E & _ & Hr & _ & _ & H90).
    exists st. rewrite E. split; [reflexivity|].
    rewrite Hr. f_equal. f_equal. apply H90. split; [discriminate|reflexivity].
  - destruct (proj2 (X10_performance_step_scores_70_80_or_90
                       Examples.broken_tools Examples.root Examples.deploying
                       Examples.bare)
                "Error: Input file is missing"
                (snd (new_Date Examples.bare)) eq_refl)
      as (st & E & Hs & _).
    exists st. rewrite E. now split.
Defined.

(** A step function whose [try] block leaves results of one shape leaves
    steps whose result, if any, has that shape. *)
Lemma step_function_result (P : option StepResult -> Prop)
    id name description (body : WorkflowStep -> M WorkflowStep) :
  P None ->
  (forall step s done s1,
     body step s = (Ok done, s1) ->
     WorkflowStep.id done = WorkflowStep.id step
     /\ P (WorkflowStep.result done)) ->
  forall st,
    produced_by
      (startTime <- new_Date ;;
       let step := Orchestrator.new_step id name description startTime in
       r <- try (body step) ;;
       Orchestrator.finish (Orchestrator.caught step r))
      st ->
    WorkflowStep.id st = id /\ P (WorkflowStep.result st).
Proof.
  intros Hnone Hbody st (s0 & s1 & E).
  rewrite (bind_ok _ _ _ _ _ (new_Date_run s0)) in E. cbv zeta in E.
  set (step := Orchestrator.new_step id name description _) in E.
  destruct (body step (snd (new_Date s0))) as [[done|e] s2] eqn:B.
  - destruct (try_catch_ok step _ _ _ _ B) as (st' & E' & Hi & _ & _ & Hr).
    rewrite E' in E. injection E as <- _.
    destruct (Hbody _ _ _ _ B) as [Hid HP].
    rewrite Hi, Hr, Hid. now split.
  - destruct (try_catch_throw step _ _ _ _ B) as (st' & E' & Hi & _ & _ & Hr).
    rewrite E' in E. injection E as <- _.
    rewrite Hi, Hr. now split.
Qed.

Section Shapes.

Variable tools : Tools.
Variable projectRoot : string.

Lemma runAssetGeneration_fits st :
  produced_by (Orchestrator.runAssetGeneration tools projectRoot) st ->
  WorkflowStep.id st = "assets" /\ fits "assets" (WorkflowStep.result st).
Proof.
  apply (step_function_result (fits "assets")); [exact I|].
  intros step s done s1.
  unfold Orchestrator.runAssetGeneration_try. cbn [bind ret Monad_M].
  destruct (analyzeImages tools projectRoot s) as [[a|e] s2]; [|discriminate].
  destruct (0 <? totalImages a).
  - destruct (optimizeImages tools projectRoot _ s2) as [[l|e] s3];
      [|discriminate].
    intros [= <- _]. now split.
  - intros [= <- _]. now split.
Qed.

Lemma runSEOOptimization_fits st :
  produced_by (Orchestrator.runSEOOptimization projectRoot) st ->
  WorkflowStep.id st = "seo" /\ fits "seo" (WorkflowStep.result st).
Proof.
  apply (step_function_result (fits "seo")); [exact I|].
  intros step s done s1. rewrite runSEOOptimization_try_run.
  intros [= <- _]. now split.
Qed.

Lemma runPerformanceOptimization_fits config st :
  produced_by
    (Orchestrator.runPerformanceOptimization tools projectRoot config) st ->
  WorkflowStep.id st = "performance"
  /\ fits "performance" (WorkflowStep.result st).
Proof.
  apply (step_function_result (fits "performance")); [exact I|].
  intros step s done s1.
  unfold Orchestrator.runPerformanceOptimization_try. cbn [bind ret Monad_M].
  destruct (optimizeImages tools projectRoot _ s) as [[l|e] s2];
    [|discriminate].
  intros [= <- _]. now split.
Qed.

Lemma runLaunchChecklistValidation_fits st :
  produced_by (Orchestrator.runLaunchChecklistValidation projectRoot) st ->
  WorkflowStep.id st = "launch-checklist"
  /\ fits "launch-checklist" (WorkflowStep.result st).
Proof.
  apply (step_function_result (fits "launch-checklist")); [exact I|].
  intros step s done s1.
  unfold Orchestrator.runLaunchChecklistValidation_try.
  cbn [bind ret Monad_M].
  destruct (Validator.runLaunchChecklist projectRoot s) as [[c|e] s2];
    [|discriminate].
  intros [= <- _]. now split.
Qed.

(** [runDeployment] deploys nothing: its step is always skipped, with the
    placeholder address as its result. *)
Lemma runDeployment_skips production st :
  produced_by (Orchestrator.runDeployment projectRoot production) st ->
  WorkflowStep.id st = "deployment"
  /\ WorkflowStep.status st = skipped
  /\ WorkflowStep.result st = Some (Deployment placeholder_url true)
  /\ WorkflowStep.error st = None.
Proof.
  intros (s0 & s1 & E). unfold Orchestrator.runDeployment in E.
  rewrite (bind_ok _ _ _ _ _ (new_Date_run s0)) in E. cbv zeta in E.
  set (step := Orchestrator.new_step _ _ _ _) in E.
  destruct (try_catch_ok step (Orchestrator.runDeployment_try step)
              (snd (new_Date s0)) _ _ eq_refl)
    as (st' & E' & Hi & Hs & He & Hr).
  rewrite E' in E. injection E as <- _. now repeat split.
Qed.

End Shapes.

(** X11.  A run never deploys.  Whatever the configuration, tools and
    files, [runCompleteWorkflow] returns; every step it records under the
    identifier deployment is marked skipped and carries the placeholder
    address [https://your-app.vercel.app]; and the [deploymentUrl] of the
    result is that placeholder when deployment was not switched off and the
    checklist was ready to launch, and absent otherwise. *)
Theorem X11_deployment_step_is_a_skipped_placeholder :
  forall tools projectRoot config s,
    let finalConfig := Orchestrator.spread Orchestrator.DEFAULT_CONFIG config in
    exists result s',
      Orchestrator.runCompleteWorkflow tools projectRoot config s
      = (Ok result, s')
      /\ (forall st,
            In st (WorkflowResult.steps result) ->
            WorkflowStep.id st = "deployment" ->
            WorkflowStep.status st = skipped
            /\ WorkflowStep.result st = Some (Deployment placeholder_url true)
            /\ WorkflowStep.error st = None)
      /\ WorkflowResult.deploymentUrl result
         = (if negb (Orchestrator.truthy (WorkflowConfig.skipDeploy finalConfig))
               && Orchestrator.reported_ready
                    (WorkflowResult.launchChecklist result)
            then Some placeholder_url else None)
      /\ (In "deployment" (map WorkflowStep.id (WorkflowResult.steps result))
          <-> WorkflowResult.deploymentUrl result = Some placeholder_url).
Proof.
  intros tools projectRoot config s finalConfig.
  destruct (runCompleteWorkflow_whole tools projectRoot config s)
    as (result & s' & early & checklistStep & late
        & E & Hsteps & Hearly & Pearly & Hcheck & _ & Hlate & Plate
        & Hlc & _ & _ & Hurl & _).
  fold finalConfig in Hearly, Hlate, Plate.
  exists result, s'. split; [exact E|].
  assert (Hno : ~ In "deployment" (map WorkflowStep.id early)).
  { rewrite Hearly. unfold early_ids.
    destruct (Orchestrator.truthy (WorkflowConfig.skipAssets finalConfig)),
      (Orchestrator.truthy (WorkflowConfig.skipSEO finalConfig)),
      (Orchestrator.truthy (WorkflowConfig.skipPerf finalConfig));
      cbn; intuition discriminate. }
  assert (Hl : late = []
               \/ exists d, late = [d]
                  /\ WorkflowStep.id d = "deployment"
                  /\ WorkflowStep.status d = skipped
                  /\ WorkflowStep.result d
                     = Some (Deployment placeholder_url true)
                  /\ WorkflowStep.error d = None).
  { destruct late as [|d [|d' late]].
    - now left.
    - right. exists d. split; [reflexivity|].
      inversion Plate as [|? ? Pd _]; subst.
      exact (runDeployment_skips projectRoot _ d Pd).
    - exfalso. unfold late_ids in Hlate.
      destruct (_ && _) in Hlate; discriminate. }
  rewrite Hlc. unfold late_ids in Hlate.
  split; [|split].
  - intros st Hin Hid. rewrite Hsteps in Hin.
    apply in_app_or in Hin. destruct Hin as [Hin|[<-|Hin]].
    + exfalso. apply Hno. rewrite <- Hid. now apply in_map.
    + rewrite Hcheck in Hid. discriminate.
    + destruct Hl as [->|(d & -> & _ & H)]; [destruct Hin|].
      destruct Hin as [<-|[]]. exact H.
  - rewrite Hurl.
    destruct Hl as [->|(d & -> & _ & _ & Hr & _)].
    + destruct (_ && _); [discriminate|reflexivity].
    + destruct (_ && _); [|discriminate]. now rewrite Hr.
  - rewrite Hurl, Hsteps, map_app, in_app_iff. cbn [map In].
    rewrite Hcheck.
    destruct Hl as [->|(d & -> & Hid & _ & Hr & _)].
    + cbn. split; [|discriminate].
      intros [H|[H|[]]]; [contradiction|discriminate].
    + rewrite Hr. cbn. rewrite Hid. tauto.
Qed.

(** Witness of X11: a run that is asked to deploy a complete project. *)
Lemma X11_witness :
  exists result,
    fst (Orchestrator.runCompleteWorkflow Examples.tools Examples.root
           Examples.deploying Examples.complete) = Ok result
    /\ WorkflowResult.deploymentUrl result = Some placeholder_url
    /\ In "deployment" (map WorkflowStep.id (WorkflowResult.steps result)).
Proof.
  destruct (X11_deployment_step_is_a_skipped_placeholder Examples.tools
              Examples.root Examples.deploying Examples.complete)
    as (result & s' & E & _ & _ & Hin).
  assert (U : match fst (Orchestrator.runCompleteWorkflow Examples.tools
                           Examples.root Examples.deploying Examples.complete)
              with
              | Ok r => WorkflowResult.deploymentUrl r = Some placeholder_url
              | Throw _ => False
              end) by (vm_compute; reflexivity).
  rewrite E in U. cbn [fst] in U.
  exists result. rewrite E. split; [reflexivity|]. split; [exact U|].
  apply (proj2 Hin U).
Defined.

(** X12.  [quickComplete] never rejects.  It runs the asset, SEO,
    performance and checklist steps in that order and no deployment, and it
    answers [true] exactly when the checklist step completed with a
    checklist that is ready to launch; in particular it answers [false]
    when the checklist could not be computed. *)
Theorem X12_quickComplete_runs_four_steps_and_reports_readiness :
  forall tools projectRoot s,
    exists result s' checklistStep ready,
      Orchestrator.runCompleteWorkflow tools projectRoot quick_config s
      = (Ok result, s')
      /\ quickComplete tools projectRoot s = (Ok ready, s')
      /\ map WorkflowStep.id (WorkflowResult.steps result)
         = ["assets"; "seo"; "performance"; "launch-checklist"]
      /\ nth_error (WorkflowResult.steps result) 3 = Some checklistStep
      /\ WorkflowResult.deploymentUrl result = None
      /\ (ready = true <->
          exists c,
            WorkflowStep.status checklistStep = completed
            /\ WorkflowStep.result checklistStep = Some (Checklist c)
            /\ LaunchChecklist.readyToLaunch c = true)
      /\ (WorkflowStep.status checklistStep = failed -> ready = false).
Proof.
  intros tools projectRoot s.
  destruct (runCompleteWorkflow_whole tools projectRoot quick_config s)
    as (result & s' & early & checklistStep & late
        & E & Hsteps & Hearly & _ & Hcheck & Pcheck & Hlate & _
        & Hlc & Hfail & _ & Hurl & Hsum).
  cbn in Hearly, Hlate.
  destruct early as [|a [|b [|p [|d early]]]]; try discriminate.
  destruct late; [|discriminate].
  injection Hearly as Ha Hb Hc.
  exists result, s', checklistStep.
  exists (Orchestrator.reported_ready
            (Orchestrator.as_LaunchChecklist
               (WorkflowStep.result checklistStep))).
  split; [exact E|].
  split.
  { unfold quickComplete. fold quick_config.
    rewrite (bind_ok _ _ _ _ _ E). now rewrite Hsum, Hlc. }
  split; [rewrite Hsteps; cbn [map app]; now rewrite Ha, Hb, Hc, Hcheck|].
  split; [now rewrite Hsteps|]. split; [exact Hurl|].
  destruct (runLaunchChecklistValidation_fits projectRoot _ Pcheck)
    as [_ Hfit].
  assert (Hdone : forall c,
            WorkflowStep.result checklistStep = Some (Checklist c) ->
            WorkflowStep.status checklistStep = completed).
  { intros c R. destruct Pcheck as (s0 & s1 & P).
    destruct (runLaunchChecklistValidation_run projectRoot s0)
      as (st & s2 & P' & _ & Hcase).
    rewrite P' in P. injection P as -> _.
    destruct (Validator.runLaunchChecklist projectRoot _) as [[x|e] ?];
      destruct Hcase as (Hs' & H1 & H2); congruence. }
  split.
  - destruct (WorkflowStep.result checklistStep) as [[| | | |c|]|] eqn:R;
      cbn in Hfit; try discriminate; cbn.
    + split.
      * intros Hready. exists c. split; [now apply (Hdone c)|now split].
      * now intros (c' & _ & [= <-] & H).
    + split; [discriminate|]. now intros (c' & _ & [=] & _).
  - intros F. now rewrite (Hfail F).
Qed.

(** Witness of X12: a project whose files cannot be read. *)
Lemma X12_witness :
  fst (quickComplete Examples.tools Examples.root Examples.unreadable)
  = Ok false.
Proof.
  destruct (X12_quickComplete_runs_four_steps_and_reports_readiness
              Examples.tools Examples.root Examples.unreadable)
    as (result & s' & checklistStep & ready & E & Q & _ & Hnth & _ & _
        & Hfail).
  rewrite Q. cbn [fst]. f_equal. apply Hfail.
  assert (U : match fst (Orchestrator.runCompleteWorkflow Examples.tools
                           Examples.root quick_config Examples.unreadable)
              with
              | Ok r =>
                  match nth_error (WorkflowResult.steps r) 3 with
                  | Some st => WorkflowStep.status st = failed
                  | None => False
                  end
              | Throw _ => False
              end) by (vm_compute; reflexivity).
  rewrite E in U. cbn [fst] in U. rewrite Hnth in U. exact U.
Defined.

(** Every step of a run carries a result of its own step function, or
    none. *)
Lemma recorded_steps_fit tools projectRoot config st :
  produced_by (Orchestrator.runAssetGeneration tools projectRoot) st
  \/ produced_by (Orchestrator.runSEOOptimization projectRoot) st
  \/ produced_by
       (Orchestrator.runPerformanceOptimization tools projectRoot config) st ->
  fits (WorkflowStep.id st) (WorkflowStep.result st).
Proof.
  intros [P|[P|P]].
  - destruct (runAssetGeneration_fits _ _ _ P) as [-> H]. exact H.
  - destruct (runSEOOptimization_fits _ _ P) as [-> H]. exact H.
  - destruct (runPerformanceOptimization_fits _ _ _ _ P) as [-> H]. exact H.
Qed.

Ltac by_shape :=
  repeat match goal with
         | H : fits _ (WorkflowStep.result ?x) |- _ =>
             destruct (WorkflowStep.result x) as [[| | | | |]|];
             cbn in H; try discriminate H; clear H
         end;
  try reflexivity.

(** X13.  The summary of a run reads the asset, SEO and performance
    figures from the first, second and third recorded step, whatever steps
    these are.  So [assetsGenerated] is always the asset step's figure, but
    [seoScore] is the SEO step's score only when the asset step was not
    skipped, and [performanceScore] the performance step's only when neither
    the asset nor the SEO step was skipped; otherwise the summary says 0,
    whatever the step itself scored. *)
Theorem X13_summary_reads_steps_by_position :
  forall tools projectRoot config s,
    let finalConfig := Orchestrator.spread Orchestrator.DEFAULT_CONFIG config in
    exists result s',
      Orchestrator.runCompleteWorkflow tools projectRoot config s
      = (Ok result, s')
      /\ Forall (fun st => fits (WorkflowStep.id st) (WorkflowStep.result st))
           (WorkflowResult.steps result)
      /\ Summary.assetsGenerated (WorkflowResult.summary result)
         = Orchestrator.get_assetsGenerated
             (result_of "assets" (WorkflowResult.steps result))
      /\ Summary.seoScore (WorkflowResult.summary result)
         = (if Orchestrator.truthy (WorkflowConfig.skipAssets finalConfig)
            then 0
            else Orchestrator.get_seoScore
                   (result_of "seo" (WorkflowResult.steps result)))
      /\ Summary.performanceScore (WorkflowResult.summary result)
         = (if Orchestrator.truthy (WorkflowConfig.skipAssets finalConfig)
               || Orchestrator.truthy (WorkflowConfig.skipSEO finalConfig)
            then 0
            else Orchestrator.get_performanceScore
                   (result_of "performance" (WorkflowResult.steps result))).
Proof.
  intros tools projectRoot config s finalConfig.
  destruct (runCompleteWorkflow_whole tools projectRoot config s)
    as (result & s' & early & checklistStep & late
        & E & Hsteps & Hearly & Pearly & Hcheck & Pcheck & Hlate & Plate
        & _ & _ & _ & _ & Hsum).
  fold finalConfig in Hearly, Pearly, Hlate, Plate.
  exists result, s'. split; [exact E|].
  assert (Fearly : Forall (fun st => fits (WorkflowStep.id st)
                                          (WorkflowStep.result st)) early).
  { eapply Forall_impl; [|exact Pearly].
    intros st. apply recorded_steps_fit. }
  assert (Fcheck : fits "launch-checklist" (WorkflowStep.result checklistStep))
    by apply (runLaunchChecklistValidation_fits projectRoot _ Pcheck).
  assert (Flate : Forall (fun st => WorkflowStep.id st = "deployment"
                                    /\ fits "deployment"
                                         (WorkflowStep.result st)) late).
  { eapply Forall_impl; [|exact Plate].
    intros st P.
    destruct (runDeployment_skips projectRoot _ st P) as (Hi & _ & Hr & _).
    split; [exact Hi|]. now rewrite Hr. }
  split.
  { rewrite Hsteps. apply Forall_app. split; [exact Fearly|].
    constructor; [now rewrite Hcheck|].
    eapply Forall_impl; [|exact Flate]. now intros st [-> H]. }
  assert (Hl : (List.length late <= 1)%nat).
  { apply (f_equal (@List.length string)) in Hlate.
    rewrite length_map in Hlate. unfold late_ids in Hlate.
    destruct (_ && _) in Hlate; cbn in Hlate; lia. }
  rewrite Hsum, Hsteps. clear Hsum Hsteps E Pearly Pcheck Plate Hlate.
  unfold early_ids in Hearly. cbn [Summary.assetsGenerated Summary.seoScore
                                   Summary.performanceScore].
  unfold result_of, Orchestrator.result_at.
  destruct late as [|d [|d' late]]; [| |cbn in Hl; lia]; clear Hl;
    destruct (Orchestrator.truthy (WorkflowConfig.skipAssets finalConfig)),
      (Orchestrator.truthy (WorkflowConfig.skipSEO finalConfig)),
      (Orchestrator.truthy (WorkflowConfig.skipPerf finalConfig));
    cbn in Hearly;
    repeat (let x := fresh "x" in
            destruct early as [|x early]; cbn in Hearly;
            try discriminate Hearly);
    repeat match goal with
           | H : _ :: _ = _ :: _ |- _ =>
               let I := fresh "I" in
               let J := fresh "J" in
               first [injection H as I J | injection H as I]
           end;
    repeat match goal with
           | H : Forall _ (_ :: _) |- _ =>
               let F := fresh "F" in
               let G := fresh "G" in
               apply Forall_cons_iff in H; destruct H as [F G]
           end;
    repeat match goal with
           | H : _ /\ _ |- _ => destruct H
           end;
    cbn [app nth_error find orb]; cbv beta;
    repeat match goal with
           | I : WorkflowStep.id ?x = _ |- _ => rewrite I in *; clear I
           end;
    cbn [String.eqb Ascii.eqb Bool.eqb andb];
    cbv beta iota;
    by_shape; repeat split; by_shape.
Qed.

(** A run that skips the asset step on a project with three of the SEO
    files: the SEO step scores 75, the summary reports 0. *)
Example summary_misses_the_seo_score :
  exists result,
    fst (Orchestrator.runCompleteWorkflow Examples.tools Examples.root
           (WorkflowConfig.mk (Some true) None None None None None None)
           (Examples.state_of MoreExamples.static_all_fs)) = Ok result
    /\ Orchestrator.get_seoScore
         (result_of "seo" (WorkflowResult.steps result)) = 75
    /\ Summary.seoScore (WorkflowResult.summary result) = 0.
Proof.
  eexists. split; [vm_compute; reflexivity|]. split; reflexivity.
Qed.


(* ===================================================================== *)
(** * More on the Workflow State Store *)
(* ===================================================================== *)

Lemma loadHistory_run (JSON_parse : string -> Exc JSValue)
    (projectRoot : string) (s : State) :
  loadHistory JSON_parse projectRoot s
  = Workflow.load_existing JSON_parse projectRoot s.
Proof.
  unfold loadHistory, Workflow.load_existing, snapshot, try.
  cbn [bind ret Monad_M].
  now destruct (existsSync (fs s) (Workflow.historyPath projectRoot)).
Qed.

(** X14.  [loadHistory] never rejects and changes nothing; a history file
    that is missing, unreadable or not JSON reads as the empty list.  What
    it returns is the list [saveToHistory] builds upon: after a
    [saveToHistory] that succeeded, the file holds the text of the new
    entry followed by the first nine of the entries [loadHistory] returned
    before, and [loadHistory] now returns what [JSON.parse] makes of that
    text. *)
Theorem X14_loadHistory_reads_what_saveToHistory_wrote :
  forall (JSON_parse : string -> Exc JSValue)
         (JSON_stringify : JSValue -> string)
         (projectRoot : string) (result : WorkflowResult) (s s' : State),
    let path := Workflow.historyPath projectRoot in
    (exists v, loadHistory JSON_parse projectRoot s = (Ok v, s))
    /\ (existsSync (fs s) path = false
        \/ (exists e, readFile (fs s) path = Throw e)
        \/ (exists content e,
              readFile (fs s) path = Ok content
              /\ JSON_parse content = Throw e) ->
        loadHistory JSON_parse projectRoot s = (Ok (JArr []), s))
    /\ (Workflow.saveToHistory JSON_parse JSON_stringify projectRoot result s
        = (Ok tt, s') ->
        exists old,
          loadHistory JSON_parse projectRoot s = (Ok (JArr old), s)
          /\ let saved :=
               JArr (Workflow.history_entry (clock s (reads s)) result
                     :: firstn 9 old) in
             readFile (fs s') path = Ok (JSON_stringify saved)
             /\ loadHistory JSON_parse projectRoot s'
                = (Ok match JSON_parse (JSON_stringify saved) with
                      | Ok v => v
                      | Throw _ => JArr []
                      end, s')).
Proof.
  intros JSON_parse JSON_stringify projectRoot result s s' path.
  split; [|split].
  - rewrite loadHistory_run, load_existing_run. now eexists.
  - rewrite loadHistory_run, load_existing_run. fold path.
    intros [H|[[e H]|(content & e & H1 & H2)]].
    + now rewrite H.
    + rewrite H. now destruct (existsSync (fs s) path).
    + rewrite H1, H2. now destruct (existsSync (fs s) path).
  - intros Hsave.
    destruct (Workflow.load_existing JSON_parse projectRoot s)
      as [r s0] eqn:L.
    pose proof (load_existing_run JSON_parse projectRoot s) as Lrun.
    rewrite L in Lrun. injection Lrun as Hr Hs0. subst s0.
    destruct r as [v|e]; [clear Hr|discriminate Hr].
    unfold Workflow.saveToHistory in Hsave.
    rewrite (bind_ok _ _ _ _ _ L) in Hsave.
    destruct v as [| | | | | |old|]; try (cbn in Hsave; discriminate Hsave).
    exists old. rewrite loadHistory_run. rewrite L.
    split; [reflexivity|].
    rewrite (bind_ok _ _ _ _ _ (new_Date_run s)) in Hsave.
    unfold Workflow.slice0 in Hsave.
    change (firstn 10 (Workflow.history_entry (clock s (reads s)) result
                       :: old))
      with (Workflow.history_entry (clock s (reads s)) result :: firstn 9 old)
      in Hsave.
    unfold writeFile in Hsave. fold path in Hsave.
    destruct (write_error (fs (snd (new_Date s))) path); [discriminate|].
    injection Hsave as <-.
    cbv zeta. split.
    + cbn [fs readFile written]. now rewrite String.eqb_refl.
    + rewrite loadHistory_run, load_existing_run. fold path.
      cbn [fs readFile existsSync written]. now rewrite String.eqb_refl.
Qed.

(** Witness of X14: saving into a history of ten entries. *)
Lemma X14_witness :
  exists s',
    Workflow.saveToHistory tally_parse Examples.toy_stringify Examples.root
      Examples.a_result (Examples.state_of Examples.with_history_fs)
    = (Ok tt, s')
    /\ readFile (fs s') (Workflow.historyPath Examples.root) = Ok "10"
    /\ fst (loadHistory tally_parse Examples.root s')
       = Ok (JArr Examples.ten_entries).
Proof.
  assert (E : Workflow.saveToHistory tally_parse Examples.toy_stringify
                Examples.root Examples.a_result
                (Examples.state_of Examples.with_history_fs)
              = (Ok tt,
                 snd (Workflow.saveToHistory tally_parse
                        Examples.toy_stringify Examples.root Examples.a_result
                        (Examples.state_of Examples.with_history_fs))))
    by (apply outcome_eq; vm_compute; reflexivity).
  eexists. split; [exact E|].
  destruct (proj2 (proj2 (X14_loadHistory_reads_what_saveToHistory_wrote
                            tally_parse Examples.toy_stringify Examples.root
                            Examples.a_result
                            (Examples.state_of Examples.with_history_fs) _))
              E)
    as (old & Hold & Hfile & Hload).
  assert (O : old = Examples.ten_entries).
  { apply (f_equal fst) in Hold. cbn [fst] in Hold.
    assert (T : fst (loadHistory tally_parse Examples.root
                       (Examples.state_of Examples.with_history_fs))
                = Ok (JArr Examples.ten_entries))
      by (vm_compute; reflexivity).
    rewrite T in Hold. now injection Hold as <-. }
  subst old.
  split; [rewrite Hfile; vm_compute; reflexivity|].
  rewrite Hload. cbn [fst]. vm_compute. reflexivity.
Defined.

Lemma updateWorkflowState_run (state : WorkflowState) (step : WorkflowStep)
    (s : State) :
  let steps := Spec.upsert step (WorkflowState.steps state) in
  let currentStep :=
    if Workflow.terminal step then Spec.terminal_count steps
    else WorkflowState.currentStep state in
  Workflow.updateWorkflowState state step s
  = (Ok (WorkflowState.mk (WorkflowState.id state)
           (WorkflowState.projectRoot state) (WorkflowState.startTime state)
           (clock s (reads s))
           (if WorkflowState.totalSteps state <=? currentStep
            then if existsb
                      (fun s => StepStatus_eqb (WorkflowStep.status s) failed)
                      steps
                 then RunStatus.failed else RunStatus.completed
            else WorkflowState.status state)
           currentStep (WorkflowState.totalSteps state) steps
           (WorkflowState.config state)),
     snd (new_Date s)).
Proof.
  unfold Workflow.updateWorkflowState. cbv zeta.
  rewrite store_or_push_upsert.
  now rewrite (bind_ok _ _ _ _ _ (new_Date_run s)).
Qed.

(** X15.  After [updateWorkflowState] the run is in progress only if it
    was in progress before and fewer than [totalSteps] steps are counted;
    a run that has left the in-progress status never returns to it.  So,
    asked within 24 hours of the update, [canResumeWorkflow] answers
    exactly whether the updated run is still in progress. *)
Theorem X15_updated_run_resumable_iff_still_in_progress :
  forall (state : WorkflowState) (step : WorkflowStep) (s s2 : State),
    clock s2 (reads s2) - clock s (reads s) < Spec.day ->
    exists state' s1 b s3,
      Workflow.updateWorkflowState state step s = (Ok state', s1)
      /\ Workflow.canResumeWorkflow state' s2 = (Ok b, s3)
      /\ (WorkflowState.status state' = RunStatus.in_progress <->
          WorkflowState.status state = RunStatus.in_progress
          /\ WorkflowState.currentStep state' < WorkflowState.totalSteps state)
      /\ (b = true <-> WorkflowState.status state' = RunStatus.in_progress)
      /\ (WorkflowState.totalSteps state <= getNextStep state' -> b = false).
Proof.
  intros state step s s2 Hday.
  pose proof (updateWorkflowState_run state step s) as E. cbv zeta in E.
  set (steps := Spec.upsert step (WorkflowState.steps state)) in E.
  set (currentStep := if Workflow.terminal step then Spec.terminal_count steps
                      else WorkflowState.currentStep state) in E.
  match type of E with _ = (Ok ?st, _) => exists st end.
  exists (snd (new_Date s)).
  assert (Hst : forall st',
            st' = (if WorkflowState.totalSteps state <=? currentStep
                   then if existsb
                             (fun s => StepStatus_eqb (WorkflowStep.status s)
                                         failed) steps
                        then RunStatus.failed else RunStatus.completed
                   else WorkflowState.status state) ->
            (st' = RunStatus.in_progress <->
             WorkflowState.status state = RunStatus.in_progress
             /\ currentStep < WorkflowState.totalSteps state)).
  { intros st' ->.
    destruct (WorkflowState.totalSteps state <=? currentStep) eqn:L.
    - apply Z.leb_le in L.
      destruct (existsb _ steps); split; try discriminate;
        intros [_ H]; lia.
    - apply Z.leb_gt in L. tauto. }
  unfold Workflow.canResumeWorkflow.
  cbn [WorkflowState.status WorkflowState.currentStep
       WorkflowState.totalSteps WorkflowState.lastUpdate].
  specialize (Hst _ eq_refl).
  set (st' := if WorkflowState.totalSteps state <=? currentStep
              then _ else _) in *.
  destruct (RunStatus.eqb st' RunStatus.in_progress) eqn:R.
  - apply RunStatus_eqb_eq in R.
    destruct (proj1 Hst R) as [Hin Hlt].
    apply Z.ltb_lt in Hlt as Hltb. rewrite Hltb. cbn [andb].
    rewrite (bind_ok _ _ _ _ _ (new_Date_run s2)).
    eexists. eexists. split; [exact E|]. split; [reflexivity|].
    cbn [WorkflowState.status WorkflowState.currentStep
         WorkflowState.totalSteps getNextStep].
    fold st'. split; [exact Hst|].
    assert (D : (clock s2 (reads s2) - clock s (reads s)
                 <? 24 * 60 * 60 * 1000) = true)
      by (apply Z.ltb_lt; exact Hday).
    rewrite D. split; [tauto|]. unfold getNextStep. cbn. lia.
  - cbn [andb]. exists false, s2. split; [exact E|]. split; [reflexivity|].
    cbn [WorkflowState.status WorkflowState.currentStep
         WorkflowState.totalSteps].
    fold st'. split; [exact Hst|]. split; [|reflexivity].
    split; [discriminate|]. intros H.
    apply RunStatus_eqb_eq in H. congruence.
Qed.

(** Witness of X15: the run of two steps, one done, gets its second step
    and can no longer be resumed. *)
Lemma X15_witness :
  exists state',
    fst (Workflow.updateWorkflowState Examples.halfway
           (Examples.step_of "seo" completed) Examples.bare) = Ok state'
    /\ WorkflowState.status state' = RunStatus.completed
    /\ fst (Workflow.canResumeWorkflow state' Examples.bare) = Ok false.
Proof.
  destruct (X15_updated_run_resumable_iff_still_in_progress Examples.halfway
              (Examples.step_of "seo" completed) Examples.bare Examples.bare)
    as (state' & s1 & b & s3 & E & R & _ & Hb & Hnext).
  { vm_compute. reflexivity. }
  exists state'. rewrite E, R. cbn [fst].
  assert (S : fst (Workflow.updateWorkflowState Examples.halfway
                     (Examples.step_of "seo" completed) Examples.bare)
              = Ok (WorkflowState.mk "workflow-1699996400000-abcdefghi"
                      Examples.root 1699996300000 1700000000000
                      RunStatus.completed 2 2
                      [Examples.step_of "assets" completed;
                       Examples.step_of "seo" completed] JNull))
    by (vm_compute; reflexivity).
  rewrite E in S. cbn [fst] in S. injection S as ->.
  split; [reflexivity|]. split; [reflexivity|].
  f_equal. apply Hnext. vm_compute. discriminate.
Defined.

Lemma upsert_ids (step : WorkflowStep) (steps : list WorkflowStep) :
  map WorkflowStep.id (Spec.upsert step steps)
  = if existsb (Workflow.same_id step) steps
    then map WorkflowStep.id steps
    else map WorkflowStep.id steps ++ [WorkflowStep.id step].
Proof.
  induction steps as [|x steps IH]; [reflexivity|].
  cbn [Spec.upsert existsb map].
  change (Workflow.same_id step x)
    with (String.eqb (WorkflowStep.id x) (WorkflowStep.id step)).
  destruct (String.eqb (WorkflowStep.id x) (WorkflowStep.id step)) eqn:E.
  - apply String.eqb_eq in E. cbn [orb map]. now rewrite E.
  - cbn [orb map]. rewrite IH. now destruct (existsb _ steps).
Qed.

Lemma existsb_same_id (step : WorkflowStep) (steps : list WorkflowStep) :
  existsb (Workflow.same_id step) steps = true
  <-> In (WorkflowStep.id step) (map WorkflowStep.id steps).
Proof.
  rewrite existsb_exists, in_map_iff. unfold Workflow.same_id.
  split; intros (x & H1 & H2).
  - apply String.eqb_eq in H2. now exists x.
  - exists x. split; [exact H2|]. now apply String.eqb_eq.
Qed.

Lemma upsert_In (step : WorkflowStep) (steps : list WorkflowStep) :
  In step (Spec.upsert step steps).
Proof.
  induction steps as [|x steps IH]; [now left|].
  cbn [Spec.upsert]. destruct (String.eqb _ _); [now left|now right].
Qed.

Lemma upsert_keeps (step st : WorkflowStep) (steps : list WorkflowStep) :
  In st steps -> WorkflowStep.id st <> WorkflowStep.id step ->
  In st (Spec.upsert step steps).
Proof.
  intros Hin Hid. induction steps as [|x steps IH]; [destruct Hin|].
  cbn [Spec.upsert].
  destruct (String.eqb (WorkflowStep.id x) (WorkflowStep.id step)) eqn:E.
  - destruct Hin as [->|Hin]; [|now right].
    apply String.eqb_eq in E. contradiction.
  - destruct Hin as [->|Hin]; [now left|right; now apply IH].
Qed.

Lemma upsert_from (step st : WorkflowStep) (steps : list WorkflowStep) :
  In st (Spec.upsert step steps) -> st = step \/ In st steps.
Proof.
  induction steps as [|x steps IH]; cbn [Spec.upsert].
  - intros [<-|[]]. now left.
  - destruct (String.eqb _ _).
    + intros [<-|H]; [now left|right; now right].
    + intros [<-|H]; [right; now left|].
      destruct (IH H) as [->|H']; [now left|right; now right].
Qed.

(** X16.  The steps of a workflow state never hold two steps with the same
    identifier, and [currentStep] never counts more steps than are
    recorded: a state from [createWorkflowState] is so, and
    [updateWorkflowState] keeps it so.  The update leaves the incoming step
    in the list, keeps every step that has another identifier, and adds
    nothing else; the list grows by one when the identifier is new and
    keeps its length when it is not. *)
Theorem X16_updateWorkflowState_keeps_step_identifiers_distinct :
  (forall JSON_config projectRoot totalSteps s state s',
     Workflow.createWorkflowState projectRoot totalSteps JSON_config s
     = (Ok state, s') ->
     well_formed state)
  /\ (forall state step s state' s',
        well_formed state ->
        Workflow.updateWorkflowState state step s = (Ok state', s') ->
        well_formed state'
        /\ In step (WorkflowState.steps state')
        /\ (forall st,
              In st (WorkflowState.steps state') <->
              st = step
              \/ (In st (WorkflowState.steps state)
                  /\ WorkflowStep.id st <> WorkflowStep.id step))
        /\ List.length (WorkflowState.steps state')
           = (if existsb (Workflow.same_id step) (WorkflowState.steps state)
              then List.length (WorkflowState.steps state)
              else S (List.length (WorkflowState.steps state)))).
Proof.
  split.
  - intros config projectRoot totalSteps s state s' E.
    injection E as <- _. split; [constructor|cbn; lia].
  - intros state step s state' s' [Hnd Hcur] E.
    rewrite updateWorkflowState_run in E. injection E as <- _.
    cbn [WorkflowState.steps].
    assert (Hids := upsert_ids step (WorkflowState.steps state)).
    assert (Hlen : List.length (Spec.upsert step (WorkflowState.steps state))
                   = (if existsb (Workflow.same_id step)
                           (WorkflowState.steps state)
                      then List.length (WorkflowState.steps state)
                      else S (List.length (WorkflowState.steps state)))).
    { rewrite <- (length_map WorkflowStep.id), Hids.
      destruct (existsb _ _); [apply length_map|].
      rewrite length_app, length_map. cbn. lia. }
    assert (Hnd' : NoDup (map WorkflowStep.id
                            (Spec.upsert step (WorkflowState.steps state)))).
    { rewrite Hids.
      destruct (existsb _ (WorkflowState.steps state)) eqn:X; [exact Hnd|].
      apply NoDup_app; [exact Hnd|repeat constructor; intros []|].
      intros a Ha [<-|[]].
      apply existsb_same_id in Ha. congruence. }
    split; [|split; [apply upsert_In|split; [|exact Hlen]]].
    + split; [exact Hnd'|].
      unfold well_formed. cbn [WorkflowState.currentStep WorkflowState.steps].
      destruct (Workflow.terminal step).
      * unfold Spec.terminal_count. split; [lia|].
        apply Nat2Z.inj_le. apply filter_length_le.
      * rewrite Hlen. destruct (existsb _ _); lia.
    + intros st. split.
      * intros Hin.
        destruct (String.eqb (WorkflowStep.id st) (WorkflowStep.id step))
          eqn:Eid.
        -- left. apply String.eqb_eq in Eid.
           destruct (In_nth_error _ _ Hin) as [i Hi].
           destruct (In_nth_error _ _ (upsert_In step
                                          (WorkflowState.steps state)))
             as [j Hj].
           assert (i = j).
           { apply (proj1 (NoDup_nth_error _) Hnd').
             - apply nth_error_Some. rewrite nth_error_map, Hi. discriminate.
             - rewrite !nth_error_map, Hi, Hj. cbn. now rewrite Eid. }
           subst j. rewrite Hi in Hj. now injection Hj.
        -- right. apply String.eqb_neq in Eid. split; [|exact Eid].
           destruct (upsert_from _ _ _ Hin) as [->|H]; [contradiction|exact H].
      * intros [->|[Hin Hid]]; [apply upsert_In|now apply upsert_keeps].
Qed.

(** Witness of X16: the interrupted run takes the new version of its failed
    step. *)
Lemma X16_witness :
  exists state',
    fst (Workflow.updateWorkflowState Examples.interrupted
           (Examples.step_of "assets" completed) Examples.bare) = Ok state'
    /\ well_formed state'
    /\ WorkflowState.steps state' = [Examples.step_of "assets" completed].
Proof.
  assert (E : Workflow.updateWorkflowState Examples.interrupted
                (Examples.step_of "assets" completed) Examples.bare
              = (Ok (WorkflowState.mk "workflow-1699996400000-abcdefghi"
                       Examples.root 1699996300000 1700000000000
                       RunStatus.in_progress 1 5
                       [Examples.step_of "assets" completed] JNull),
                 snd (Workflow.updateWorkflowState Examples.interrupted
                        (Examples.step_of "assets" completed)
                        Examples.bare)))
    by (apply outcome_eq; vm_compute; reflexivity).
  eexists. rewrite E. split; [reflexivity|]. split; [|reflexivity].
  refine (proj1 (proj2 X16_updateWorkflowState_keeps_step_identifiers_distinct
                   Examples.interrupted (Examples.step_of "assets" completed)
                   Examples.bare _ _ _ E)).
  split; [repeat constructor; intros []|cbn; lia].
Defined.

(** X17.  For a duration of [ms] milliseconds, a whole number from 0 to
    [Number.MAX_SAFE_INTEGER], [formatDuration] shows the whole seconds of
    [ms] split into hours, minutes below 60 and seconds below 60, leaving
    out the hours when there are none and the minutes too when there are
    neither; parts of a second are dropped.  A negative duration down to
    [-Number.MAX_SAFE_INTEGER] is shown as its seconds alone, rounded
    down. *)
Theorem X17_formatDuration_splits_the_whole_seconds :
  forall ms,
    (0 <= ms <= MAX_SAFE_INTEGER ->
     exists h m sec,
       ms / 1000 = 3600 * h + 60 * m + sec
       /\ 0 <= h /\ 0 <= m < 60 /\ 0 <= sec < 60
       /\ formatDuration ms
          = Some (if 0 <? h then
                    (show_Z h ++ "h " ++ show_Z m ++ "m "
                       ++ show_Z sec ++ "s")%string
                  else if 0 <? m then
                    (show_Z m ++ "m " ++ show_Z sec ++ "s")%string
                  else (show_Z sec ++ "s")%string))
    /\ (- MAX_SAFE_INTEGER <= ms < 0 ->
        formatDuration ms = Some (show_Z (ms / 1000) ++ "s")%string).
Proof.
  intros ms. unfold formatDuration. cbv zeta.
  set (seconds := ms / 1000).
  split.
  - intros Hms.
    assert (Hsafe : (Z.abs ms <=? MAX_SAFE_INTEGER) = true)
      by (apply Z.leb_le; lia).
    rewrite Hsafe.
    assert (Hs : 0 <= seconds) by (apply Z.div_pos; lia).
    assert (Hm : 0 <= seconds / 60) by (apply Z.div_pos; lia).
    assert (Hh : 0 <= seconds / 60 / 60) by (apply Z.div_pos; lia).
    exists (seconds / 60 / 60), (Z.rem (seconds / 60) 60), (Z.rem seconds 60).
    rewrite !Z.rem_mod_nonneg by lia.
    pose proof (Z.mod_pos_bound seconds 60 ltac:(lia)).
    pose proof (Z.mod_pos_bound (seconds / 60) 60 ltac:(lia)).
    pose proof (Z.div_mod seconds 60 ltac:(lia)).
    pose proof (Z.div_mod (seconds / 60) 60 ltac:(lia)).
    split; [lia|]. split; [lia|]. split; [lia|]. split; [lia|].
    destruct (0 <? seconds / 60 / 60) eqn:B1; [reflexivity|].
    apply Z.ltb_ge in B1.
    assert (Z1 : seconds / 60 / 60 = 0) by lia.
    assert (E : (seconds / 60) mod 60 = seconds / 60) by lia.
    rewrite E.
    destruct (0 <? seconds / 60) eqn:B2; [reflexivity|].
    apply Z.ltb_ge in B2.
    assert (Z2 : seconds / 60 = 0) by lia.
    assert (E' : seconds mod 60 = seconds) by lia.
    now rewrite E'.
  - intros Hms.
    assert (Hsafe : (Z.abs ms <=? MAX_SAFE_INTEGER) = true)
      by (apply Z.leb_le; lia).
    rewrite Hsafe.
    assert (Hs : seconds < 0) by (apply Z.div_lt_upper_bound; lia).
    assert (Hm : seconds / 60 < 0) by (apply Z.div_lt_upper_bound; lia).
    assert (Hh : seconds / 60 / 60 < 0) by (apply Z.div_lt_upper_bound; lia).
    assert (H1 : (0 <? seconds / 60 / 60) = false) by (apply Z.ltb_ge; lia).
    assert (H2 : (0 <? seconds / 60) = false) by (apply Z.ltb_ge; lia).
    now rewrite H1, H2.
Qed.

(** Witness of X17: 3,725,999 ms and -1 ms. *)
Lemma X17_witness :
  formatDuration 3725999 = Some "1h 2m 5s"
  /\ formatDuration (-1) = Some "-1s".
Proof.
  split.
  - destruct (proj1 (X17_formatDuration_splits_the_whole_seconds 3725999))
      as (h & m & sec & D & Hh & Hm & Hsec & E);
      [unfold MAX_SAFE_INTEGER; lia|].
    change (3725999 / 1000) with 3725 in D.
    assert (h = 1) by lia. assert (m = 2) by lia. assert (sec = 5) by lia.
    subst h m sec. rewrite E. reflexivity.
  - rewrite (proj2 (X17_formatDuration_splits_the_whole_seconds (-1)));
      [reflexivity|unfold MAX_SAFE_INTEGER; lia].
Defined.

(* ===================================================================== *)
(** * The verdict of a run *)
(* ===================================================================== *)

(** The steps of a run are settled. *)
Lemma run_steps_settled tools projectRoot config s result s' :
  Orchestrator.runCompleteWorkflow tools projectRoot config s
  = (Ok result, s') ->
  Forall settled (WorkflowResult.steps result).
Proof.
  intros Hrun.
  destruct (runCompleteWorkflow_run tools projectRoot config s)
    as (result0 & s0 & early & checklistStep & late
        & E & Hsteps & _ & Pearly & _ & Pcheck & _ & Plate & _).
  rewrite E in Hrun. injection Hrun as <- _.
  rewrite Hsteps. apply Forall_app. split; [|constructor].
  - eapply Forall_impl; [|exact Pearly].
    intros st [P|[P|P]];
      eapply (step_functions_settle tools projectRoot
                (Orchestrator.spread Orchestrator.DEFAULT_CONFIG config) false);
      try exact P; cbn; tauto.
  - eapply (step_functions_settle tools projectRoot config false);
      [|exact Pcheck]. cbn; tauto.
  - eapply Forall_impl; [|exact Plate].
    intros st P.
    eapply (step_functions_settle tools projectRoot config); [|exact P].
    cbn; tauto.
Qed.

(** The checklist a checklist step carries was ready only with a score of
    70 or more, and scored between 60 and 86. *)
Lemma checklist_step_score projectRoot st :
  produced_by (Orchestrator.runLaunchChecklistValidation projectRoot) st ->
  match WorkflowStep.result st with
  | Some (Checklist c) =>
      exists z,
        LaunchChecklist.overallScore c = Num z /\ 60 <= z <= 86
        /\ (LaunchChecklist.readyToLaunch c = true -> 70 <= z)
  | Some _ => False
  | None => WorkflowStep.status st = failed
  end.
Proof.
  intros (s0 & s1 & P).
  destruct (runLaunchChecklistValidation_run projectRoot s0)
    as (st' & s2 & P' & _ & Hcase).
  rewrite P' in P. injection P as -> _.
  destruct (Validator.runLaunchChecklist projectRoot (snd (new_Date s0)))
    as [[c|e] s3] eqn:R.
  - destruct Hcase as (_ & -> & _).
    destruct (launch_scores_in_range _ _ _ _ R) as (_ & z & Hz & Hrange).
    destruct (verdict_by_required_files _ _ _ _ R) as (Hready & _ & H70).
    exists z. split; [exact Hz|]. split; [exact Hrange|].
    intros Hr. rewrite Hready in Hr. destruct (H70 Hr) as (z' & Hz' & H).
    congruence.
  - destruct Hcase as (Hs & _ & ->). exact Hs.
Qed.

(** X18.  What the result of a run says.  [overallSuccess] holds exactly
    when no recorded step carries an error, whether or not the project is
    ready.  The summary's launch score is 0 with [readyToLaunch] false when
    the checklist step failed, and otherwise the checklist's score, between
    60 and 86; the summary says ready only with a score of 70 or more; and
    a deployment address is present only in a run whose summary says
    ready. *)
Theorem X18_run_result_success_score_and_readiness :
  forall tools projectRoot config s,
    exists result s',
      Orchestrator.runCompleteWorkflow tools projectRoot config s
      = (Ok result, s')
      /\ (WorkflowResult.overallSuccess result = true <->
          forall st, In st (WorkflowResult.steps result) ->
                     WorkflowStep.error st = None)
      /\ (WorkflowResult.launchChecklist result = None
          /\ Summary.launchScore (WorkflowResult.summary result) = 0
          /\ Summary.readyToLaunch (WorkflowResult.summary result) = false
          /\ WorkflowResult.overallSuccess result = false
          \/ exists c,
               WorkflowResult.launchChecklist result = Some c
               /\ LaunchChecklist.overallScore c
                  = Num (Summary.launchScore (WorkflowResult.summary result))
               /\ Summary.readyToLaunch (WorkflowResult.summary result)
                  = LaunchChecklist.readyToLaunch c
               /\ 60 <= Summary.launchScore (WorkflowResult.summary result)
                    <= 86)
      /\ (Summary.readyToLaunch (WorkflowResult.summary result) = true ->
          70 <= Summary.launchScore (WorkflowResult.summary result))
      /\ (WorkflowResult.deploymentUrl result <> None ->
          Summary.readyToLaunch (WorkflowResult.summary result) = true).
Proof.
  intros tools projectRoot config s.
  destruct (runCompleteWorkflow_whole tools projectRoot config s)
    as (result & s' & early & checklistStep & late
        & E & Hsteps & _ & _ & _ & Pcheck & Hlate & _
        & Hlc & _ & Hall & Hurl & Hsum).
  exists result, s'. split; [exact E|].
  pose proof (run_steps_settled _ _ _ _ _ _ E) as Hset.
  assert (Hsuccess : WorkflowResult.overallSuccess result = true <->
                     forall st, In st (WorkflowResult.steps result) ->
                                WorkflowStep.error st = None).
  { rewrite Hall, forallb_forall. rewrite Forall_forall in Hset.
    split; intros H st Hin; specialize (H st Hin);
      destruct (Hset st Hin) as (Hstat & _ & Herr & _).
    - destruct (WorkflowStep.error st) as [e|] eqn:X; [|reflexivity].
      assert (F : WorkflowStep.status st = failed)
        by (apply Herr; now exists e).
      unfold Orchestrator.succeeded in H. rewrite F in H. discriminate.
    - unfold Orchestrator.succeeded.
      destruct Hstat as [ -> | [ F | -> ] ]; try reflexivity.
      apply Herr in F. destruct F as [e F]. congruence. }
  split; [exact Hsuccess|].
  pose proof (checklist_step_score projectRoot _ Pcheck) as Hscore.
  rewrite Hsum, Hlc.
  cbn [Summary.launchScore Summary.readyToLaunch].
  destruct (WorkflowStep.result checklistStep) as [[| | | |c|]|] eqn:R;
    try contradiction; cbn [Orchestrator.as_LaunchChecklist
                            Orchestrator.reported_score
                            Orchestrator.reported_ready].
  - destruct Hscore as (z & Hz & Hrange & H70). rewrite Hz.
    split; [right; exists c; now repeat split|].
    split; [exact H70|].
    intros Hdep. rewrite Hurl in Hdep.
    destruct late as [|d late]; [contradiction|].
    unfold late_ids in Hlate. rewrite R in Hlate.
    cbn [Orchestrator.as_LaunchChecklist Orchestrator.reported_ready]
      in Hlate.
    destruct (LaunchChecklist.readyToLaunch c); [reflexivity|].
    rewrite Bool.andb_false_r in Hlate. discriminate.
  - split.
    + left. repeat split.
      apply not_true_is_false. intros S. 
      assert (Hin : In checklistStep (WorkflowResult.steps result))
        by (rewrite Hsteps; apply in_or_app; right; now left).
      pose proof (proj1 Hsuccess S _ Hin) as Herr.
      rewrite Forall_forall in Hset.
      destruct (Hset _ Hin) as (_ & _ & Hfail & _).
      destruct (proj1 Hfail Hscore) as [e He]. congruence.
    + split; [discriminate|].
      intros Hdep. rewrite Hurl in Hdep.
      destruct late as [|d late]; [contradiction|].
      unfold late_ids in Hlate. rewrite R in Hlate.
      cbn [Orchestrator.as_LaunchChecklist Orchestrator.reported_ready]
        in Hlate.
      rewrite Bool.andb_false_r in Hlate. discriminate.
Qed.

(** Witness of X18: the run on the complete project. *)
Lemma X18_witness :
  exists result,
    fst (Orchestrator.runCompleteWorkflow Examples.tools Examples.root
           Examples.deploying Examples.complete) = Ok result
    /\ 70 <= Summary.launchScore (WorkflowResult.summary result)
    /\ WorkflowResult.overallSuccess result = true.
Proof.
  destruct (X18_run_result_success_score_and_readiness Examples.tools
              Examples.root Examples.deploying Examples.complete)
    as (result & s' & E & _ & _ & H70 & _).
  assert (U : match fst (Orchestrator.runCompleteWorkflow Examples.tools
                           Examples.root Examples.deploying Examples.complete)
              with
              | Ok r =>
                  Summary.readyToLaunch (WorkflowResult.summary r) = true
                  /\ WorkflowResult.overallSuccess r = true
              | Throw _ => False
              end) by (vm_compute; split; reflexivity).
  rewrite E in U. cbn [fst] in U. destruct U as [U1 U2].
  exists result. rewrite E. split; [reflexivity|].
  split; [exact (H70 U1)|exact U2].
Defined.

(* ===================================================================== *)
(** * The advice of the Launch Reporter *)
(* ===================================================================== *)

(** When every critical item of a list has the same remedy, the remedies
    of its critical items are as many copies of it. *)
Lemma remedies_by_ids (items : list ChecklistItem) (ids : list string)
    (r : option string * option bool) :
  map ChecklistItem.id (filter Spec.is_critical items) = ids ->
  Forall (fun i => Spec.is_critical i = true -> remedy i = r) items ->
  map remedy (filter Spec.is_critical items) = map (fun _ => r) ids.
Proof.
  intros <- Hall. rewrite map_map. apply map_ext_in. intros i Hi.
  apply filter_In in Hi. destruct Hi as [Hin Hcrit].
  rewrite Forall_forall in Hall. now apply Hall.
Qed.

Ltac remedy_items E :=
  try discriminate E; injection E as <-; cbv zeta;
  unfold Validator.section, push; cbn [ChecklistSection.items app];
  repeat constructor;
  repeat match goal with
         | |- context [if ?b then _ else _] => destruct b
         end;
  cbn; intros; try reflexivity; discriminate.

Section Remedies.

Variable f : FS.
Variable projectRoot : string.

Lemma checkAssets_remedies sec :
  Validator.checkAssets f projectRoot = Ok sec ->
  map remedy (filter Spec.is_critical (ChecklistSection.items sec))
  = (if Observed.faviconExists f projectRoot then []
     else [(Some "Run /ship-assets", Some true)])
    ++ (if Observed.ogImages f projectRoot then []
        else [(Some "Run /ship-assets", Some true)]).
Proof.
  intros E.
  assert (Hids := critical_by_brief (ChecklistSection.items sec)).
  rewrite (checkAssets_items f projectRoot sec E), assets_critical in Hids.
  rewrite (remedies_by_ids _ _ (Some "Run /ship-assets", Some true) Hids).
  - now destruct (Observed.faviconExists f projectRoot),
      (Observed.ogImages f projectRoot).
  - unfold Validator.checkAssets in E. cbn [bind ret Monad_Exc] in E.
    destruct (glob f "public/*og-image*.{png,jpg}" projectRoot) as [og|];
      [|discriminate].
    destruct (glob f "public/*twitter*.{png,jpg}" projectRoot) as [tw|];
      [|discriminate].
    destruct (glob f "public/android-chrome-*.png" projectRoot) as [pwa|];
      [|discriminate].
    remedy_items E.
Qed.

Lemma checkSEO_remedies sec :
  Validator.checkSEO f projectRoot = Ok sec ->
  map remedy (filter Spec.is_critical (ChecklistSection.items sec))
  = (if Observed.sitemapExists f projectRoot then []
     else [(Some "Run /ship-seo", Some true)])
    ++ (if Observed.robotsExists f projectRoot then []
        else [(Some "Run /ship-seo", Some true)]).
Proof.
  intros E.
  assert (Hids := critical_by_brief (ChecklistSection.items sec)).
  rewrite (checkSEO_items f projectRoot sec E), seo_critical in Hids.
  rewrite (remedies_by_ids _ _ (Some "Run /ship-seo", Some true) Hids).
  - now destruct (Observed.sitemapExists f projectRoot),
      (Observed.robotsExists f projectRoot).
  - unfold Validator.checkSEO in E. cbn [bind ret Monad_Exc] in E.
    cbv zeta in E.
    repeat match type of E with
           | context [match ?x with Ok _ => _ | Throw _ => _ end] =>
               destruct x
           | context [if ?b then _ else _] => destruct b
           end;
      cbn [bind ret Monad_Exc] in E;
      remedy_items E.
Qed.

End Remedies.

Lemma fixes_by_remedies (items : list ChecklistItem) :
  map the_fix (filter has_automated_fix items)
  = flat_map (fun r => match r with
                       | (Some fx, Some true) =>
                           if String.eqb fx "" then [] else [fx]
                       | _ => []
                       end)
             (map remedy items).
Proof.
  induction items as [|i items IH]; [reflexivity|].
  cbn [filter map flat_map]. rewrite <- IH.
  destruct i as [id name st req msg [fx|] [[|]|]]; try reflexivity.
  unfold has_automated_fix, remedy.
  cbn [ChecklistItem.automated ChecklistItem.fix_].
  destruct (String.eqb fx ""); reflexivity.
Qed.

Lemma no_critical_items (items : list ChecklistItem) :
  critical_ids (map brief items) = [] -> filter Spec.is_critical items = [].
Proof.
  rewrite <- critical_by_brief. apply map_eq_nil.
Qed.

(** X19.  The advice [displayNextSteps] gives for a checklist that
    [runLaunchChecklist] returned.  When one of the four required files is
    not found, it is, in this order: to fix the critical issues; to run the
    automated fixes, naming [/ship-assets] when the favicon or the Open
    Graph image is missing and [/ship-seo] when the sitemap or [robots.txt]
    is, each once; to review the warnings, if there are any; and to run
    [/ship-launch] again.  When all four are found, it is to review the
    warnings, if any, and then to deploy, share and monitor.  It never
    advises both to fix critical issues and to deploy. *)
Theorem X19_displayNextSteps_advice_follows_the_required_files :
  forall projectRoot s c s',
    Validator.runLaunchChecklist projectRoot s = (Ok c, s') ->
    displayNextSteps c
    = numbered_from 0
        (advice (fs s) projectRoot
           (negb (List.length (LaunchChecklist.warnings c) =? 0)%nat))
    /\ (In "1. Fix critical issues listed above" (displayNextSteps c) <->
        LaunchChecklist.readyToLaunch c = false)
    /\ (LaunchChecklist.readyToLaunch c = true ->
        ~ In "1. Fix critical issues listed above" (displayNextSteps c)).
Proof.
  intros projectRoot s c s' Hrun.
  assert (Hadvice : displayNextSteps c
                    = numbered_from 0
                        (advice (fs s) projectRoot
                           (negb (List.length (LaunchChecklist.warnings c)
                                  =? 0)%nat))).
  { destruct (verdict_by_required_files _ _ _ _ Hrun) as (Hready & _ & _).
    unfold displayNextSteps. rewrite Hready. clear Hready.
    rewrite runLaunchChecklist_gather in Hrun.
    destruct (gather providers (fs s) projectRoot) as [sections|e] eqn:G;
      [|discriminate].
    injection Hrun as <- _.
    destruct (gather_providers _ _ _ G)
      as (s1 & s2 & s3 & s4 & s5 & s6 & s7 & s8 & -> & P1 & P2 & P3 & P4
          & P5 & P6 & P7 & P8).
    rewrite evaluate_fields. cbv zeta.
    cbn [LaunchChecklist.criticalIssues LaunchChecklist.warnings].
    set (warnings := filter Spec.is_warning _).
    unfold Spec.all_items. cbn [flat_map]. rewrite app_nil_r.
    rewrite fixes_by_remedies.
    rewrite !filter_app.
    destruct no_other_critical as (C3 & C4 & C5 & C6 & C7 & C8).
    rewrite (no_critical_items (ChecklistSection.items s3))
      by (rewrite (checkPerformance_items _ _ _ P3); apply C3).
    rewrite (no_critical_items (ChecklistSection.items s4))
      by (rewrite (checkSecurity_items _ _ _ P4); apply C4).
    rewrite (no_critical_items (ChecklistSection.items s5))
      by (rewrite (checkFunctionality_items _ _ _ P5); apply C5).
    rewrite (no_critical_items (ChecklistSection.items s6))
      by (rewrite (checkAnalytics_items _ _ _ P6); apply C6).
    rewrite (no_critical_items (ChecklistSection.items s7))
      by (rewrite (checkDocumentation_items _ _ _ P7); apply C7).
    rewrite (no_critical_items (ChecklistSection.items s8))
      by (rewrite (checkLegal_items _ _ _ P8); apply C8).
    cbn [app]. rewrite app_nil_r.
    rewrite <- (length_map remedy (filter _ _ ++ filter _ _)).
    rewrite map_app.
    rewrite (checkAssets_remedies _ _ _ P1), (checkSEO_remedies _ _ _ P2).
    unfold advice, fixes_needed, Observed.required_files.
    destruct (Observed.faviconExists (fs s) projectRoot),
      (Observed.ogImages (fs s) projectRoot),
      (Observed.sitemapExists (fs s) projectRoot),
      (Observed.robotsExists (fs s) projectRoot);
      destruct warnings; reflexivity. }
  destruct (verdict_by_required_files _ _ _ _ Hrun) as (Hready & _ & _).
  split; [exact Hadvice|].
  rewrite Hadvice, Hready. unfold advice.
  destruct (Observed.required_files (fs s) projectRoot);
    destruct (negb _); cbn; intuition discriminate.
Qed.

(** Witness of X19: the empty project. *)
Lemma X19_witness :
  exists c,
    fst (Validator.runLaunchChecklist Examples.root Examples.bare) = Ok c
    /\ displayNextSteps c
       = ["1. Fix critical issues listed above";
          "2. Run automated fixes: Run /ship-assets, Run /ship-seo";
          "3. Review and address warnings";
          "4. Run /ship-launch again after fixes"].
Proof.
  destruct (Validator.runLaunchChecklist Examples.root Examples.bare)
    as [[c|e] s'] eqn:R; [|vm_compute in R; discriminate R].
  exists c. split; [reflexivity|].
  destruct (X19_displayNextSteps_advice_follows_the_required_files
              _ _ _ _ R) as (H & _).
  rewrite H.
  assert (W : LaunchChecklist.warnings c
              = LaunchChecklist.warnings
                  (match fst (Validator.runLaunchChecklist Examples.root
                                Examples.bare) with
                   | Ok c => c
                   | Throw _ => c
                   end)) by now rewrite R.
  rewrite W. vm_compute. reflexivity.
Defined.
